(** * Forward computation of the Transformer modules

    A shallow embedding of [base modules/Transformer/{mha,FFN,models}.py].
    Python objects become records, [nn.Module.__call__] becomes a function in
    a state-and-exception monad, and the part of the tensor library that the
    source calls is modelled in the first half of the file:
    tensors are a shape together with an indexing function, a
    floating-point number is a finite real, an infinity or NaN, and the
    format that rounds the result of every operation is a parameter. *)

From Stdlib Require Import ZArith List String Bool Lia Lra Reals QArith.
Import ListNotations.
Close Scope Q_scope.
Local Open Scope nat_scope.

Set Implicit Arguments.

(** ** Python exceptions and results *)

Inductive exception : Type :=
| AttributeError (obj attr : string)
| TypeError
| ValueError
| ZeroDivisionError
| IndexError
| AssertionError
| RuntimeError.

Inductive result (A : Type) : Type :=
| Ok (a : A)
| Raise (e : exception).
Arguments Ok {A} a.
Arguments Raise {A} e.

Definition rbind {A B} (r : result A) (k : A -> result B) : result B :=
  match r with
  | Ok a => k a
  | Raise e => Raise e
  end.

Definition rmap {A B} (f : A -> B) (r : result A) : result B :=
  rbind r (fun a => Ok (f a)).

(** [assert c] of Python. *)
Definition py_assert (c : bool) : result unit :=
  if c then Ok tt else Raise AssertionError.

(** ** Floating point

    A number is a finite real, one of the two infinities, or NaN.  The
    format, with its precision and its range, is a parameter of the
    model: an operation on finite numbers returns [round] of its exact
    result, which is that result up to the relative error
    [unit_roundoff] (and the absolute error [underflow_unit] near zero),
    or an infinity when the result is out of range. *)

Inductive float : Type :=
| Fin (r : R)
| PInf
| NInf
| NaN.

Definition is_finite (x : float) : Prop := exists r, x = Fin r.

(** The order on numbers; NaN is not ordered. *)
Definition fle (x y : float) : Prop :=
  match x, y with
  | NaN, _ | _, NaN => False
  | NInf, _ | _, PInf => True
  | Fin a, Fin b => (a <= b)%R
  | _, _ => False
  end.

Class FloatFormat : Type := {
  (** the number that is returned when the exact result is [r] *)
  round : R -> float;
  (** the exponential of a finite number *)
  exp_value : R -> float;
  unit_roundoff : R;
  underflow_unit : R;
  exp_roundoff : R;
  unit_roundoff_range : (0 <= unit_roundoff < 1)%R;
  underflow_unit_range : (0 <= underflow_unit)%R;
  round_monotone : forall a b, (a <= b)%R -> fle (round a) (round b);
  round_error : forall r r', round r = Fin r' ->
    (Rabs (r' - r) <= unit_roundoff * Rabs r + underflow_unit)%R;
  round_idempotent : forall r r', round r = Fin r' -> round r' = Fin r';
  round_0 : round 0 = Fin 0;
  round_1 : round 1 = Fin 1;
  exp_value_0 : exp_value 0 = Fin 1;
  exp_value_nonpos : forall r, (r <= 0)%R ->
    exists e, exp_value r = Fin e /\ (0 <= e <= 1)%R /\ round e = Fin e;
  exp_value_error : forall r e, exp_value r = Fin e ->
    (Rabs (e - exp r) <= exp_roundoff * exp r + underflow_unit)%R
}.

Definition Rsign (r : R) : comparison :=
  match total_order_T 0 r with
  | inleft (left _) => Gt
  | inleft (right _) => Eq
  | inright _ => Lt
  end.

Definition fneg (x : float) : float :=
  match x with
  | Fin r => Fin (- r)
  | PInf => NInf
  | NInf => PInf
  | NaN => NaN
  end.

(** An infinity scaled by a finite number. *)
Definition inf_scaled (inf : float) (r : R) : float :=
  match Rsign r with
  | Gt => inf
  | Lt => fneg inf
  | Eq => NaN
  end.

(** The greater of two numbers; NaN wins. *)
Definition fmax (x y : float) : float :=
  match x, y with
  | NaN, _ | _, NaN => NaN
  | PInf, _ | _, PInf => PInf
  | NInf, z | z, NInf => z
  | Fin a, Fin b => Fin (Rmax a b)
  end.

Section Arithmetic.
Context `{FloatFormat}.

Definition fadd (x y : float) : float :=
  match x, y with
  | NaN, _ | _, NaN => NaN
  | Fin a, Fin b => round (a + b)
  | PInf, NInf | NInf, PInf => NaN
  | PInf, _ | _, PInf => PInf
  | NInf, _ | _, NInf => NInf
  end.

Definition fsub (x y : float) : float := fadd x (fneg y).

Definition fmul (x y : float) : float :=
  match x, y with
  | NaN, _ | _, NaN => NaN
  | Fin a, Fin b => round (a * b)
  | Fin a, inf => inf_scaled inf a
  | inf, Fin b => inf_scaled inf b
  | PInf, PInf | NInf, NInf => PInf
  | PInf, NInf | NInf, PInf => NInf
  end.

Definition fdiv (x y : float) : float :=
  match x, y with
  | NaN, _ | _, NaN => NaN
  | Fin a, Fin b =>
      match Rsign b with
      | Eq => inf_scaled PInf a
      | _ => round (a / b)
      end
  | Fin _, _ => Fin 0
  | inf, Fin b =>
      match Rsign b with
      | Lt => fneg inf
      | _ => inf
      end
  | _, _ => NaN
  end.

Definition fexp (x : float) : float :=
  match x with
  | Fin r => exp_value r
  | PInf => PInf
  | NInf => Fin 0
  | NaN => NaN
  end.

Definition fsum (l : list float) : float := fold_right fadd (Fin 0) l.

End Arithmetic.

(** ** Tensors *)

Record Tensor (A : Type) : Type := mkTensor {
  shape : list nat;
  at_ : list nat -> A
}.

Definition tmap {A B} (f : A -> B) (t : Tensor A) : Tensor B :=
  {| shape := shape t; at_ := fun idx => f (at_ t idx) |}.

Definition full {A} (s : list nat) (a : A) : Tensor A :=
  {| shape := s; at_ := fun _ => a |}.

Fixpoint in_boundsb (idx s : list nat) : bool :=
  match idx, s with
  | [], [] => true
  | i :: idx', d :: s' => (i <? d) && in_boundsb idx' s'
  | _, _ => false
  end.

Fixpoint shape_eqb (a b : list nat) : bool :=
  match a, b with
  | [], [] => true
  | x :: a', y :: b' => (x =? y) && shape_eqb a' b'
  | _, _ => false
  end.

(** Every index of a tensor of the given shape, in row-major order. *)
Fixpoint all_indices (s : list nat) : list (list nat) :=
  match s with
  | [] => [[]]
  | d :: s' => flat_map (fun i => map (cons i) (all_indices s')) (seq 0 d)
  end.

(** *** Broadcasting *)

Fixpoint broadcast_rev (a b : list nat) : result (list nat) :=
  match a, b with
  | [], _ => Ok b
  | _, [] => Ok a
  | x :: a', y :: b' =>
      if x =? y then rmap (cons x) (broadcast_rev a' b')
      else if x =? 1 then rmap (cons y) (broadcast_rev a' b')
      else if y =? 1 then rmap (cons x) (broadcast_rev a' b')
      else Raise RuntimeError
  end.

Definition broadcast_shapes (a b : list nat) : result (list nat) :=
  rmap (@rev nat) (broadcast_rev (rev a) (rev b)).

(** The index read in an operand of shape [s] for the index [idx] of the
    broadcast result: the trailing [length s] components, with 0 along
    the axes of [s] that have size 1. *)
Definition bindex (s idx : list nat) : list nat :=
  map (fun di => if fst di =? 1 then 0 else snd di)
      (combine s (skipn (List.length idx - List.length s) idx)).

Definition broadcast_op {A B C} (f : A -> B -> C) (x : Tensor A) (y : Tensor B)
  : result (Tensor C) :=
  rbind (broadcast_shapes (shape x) (shape y)) (fun s =>
  Ok {| shape := s;
        at_ := fun idx => f (at_ x (bindex (shape x) idx))
                            (at_ y (bindex (shape y) idx)) |}).

(** [t[:n]]: a slice along the first axis; a bound past the end is clipped. *)
Definition slice_to {A} (t : Tensor A) (n : nat) : result (Tensor A) :=
  match shape t with
  | [] => Raise IndexError
  | d :: s' => Ok {| shape := Nat.min n d :: s'; at_ := at_ t |}
  end.

(** [t.unsqueeze(-1)] *)
Definition unsqueeze_last {A} (t : Tensor A) : Tensor A :=
  {| shape := shape t ++ [1]; at_ := fun idx => at_ t (removelast idx) |}.

(** [t.shape[i]] *)
Definition shape_at {A} (t : Tensor A) (i : nat) : result nat :=
  match nth_error (shape t) i with
  | Some d => Ok d
  | None => Raise IndexError
  end.

Definition numel (s : list nat) : nat := fold_right Nat.mul 1 s.

(** Row-major position of an index, and back. *)
Fixpoint ravel (s idx : list nat) : nat :=
  match s, idx with
  | _ :: s', i :: idx' => i * numel s' + ravel s' idx'
  | _, _ => 0
  end.

Fixpoint unravel (s : list nat) (n : nat) : list nat :=
  match s with
  | [] => []
  | _ :: s' => n / numel s' :: unravel s' (n mod numel s')
  end.

(** [t.view( *s)] of a contiguous tensor. *)
Definition view {A} (t : Tensor A) (s : list nat) : result (Tensor A) :=
  if numel (shape t) =? numel s
  then Ok {| shape := s; at_ := fun idx => at_ t (unravel (shape t) (ravel s idx)) |}
  else Raise RuntimeError.

(** [t.masked_fill(mask, a)]: out of place; both operands are broadcast. *)
Definition masked_fill {A} (t : Tensor A) (mask : Tensor bool) (a : A)
  : result (Tensor A) :=
  broadcast_op (fun x (m : bool) => if m then a else x) t mask.

(** [mask == 0] *)
Definition eq_zero (mask : Tensor Z) : Tensor bool :=
  tmap (fun z => (z =? 0)%Z) mask.

(** [idx] with its component on axis [ax] replaced by [j]. *)
Fixpoint set_axis (idx : list nat) (ax j : nat) : list nat :=
  match idx, ax with
  | [], _ => []
  | _ :: idx', 0 => j :: idx'
  | i :: idx', S ax' => i :: set_axis idx' ax' j
  end.

(** The entries of [t] along axis [ax] through the index [idx]. *)
Definition axis_line {A} (t : Tensor A) (ax : nat) (idx : list nat) : list A :=
  map (fun j => at_ t (set_axis idx ax j)) (seq 0 (nth ax (shape t) 0)).

Section TensorArithmetic.
Context `{FloatFormat}.

(** Softmax of the entry [x] of a line, computed the way the library
    does: the greatest entry [m] of the line is subtracted first, and the
    result is exp(x - m) / sum of exp(y - m) over the line. *)
Definition softmax_value (line : list float) (x : float) : float :=
  let m := fold_right fmax NInf line in
  fdiv (fexp (fsub x m)) (fsum (map (fun y => fexp (fsub y m)) line)).

(** Softmax along the axis [dim]. *)
Definition softmax_along (dim : nat) (t : Tensor float) : result (Tensor float) :=
  if dim <? List.length (shape t)
  then Ok {| shape := shape t;
             at_ := fun idx => softmax_value (axis_line t dim idx) (at_ t idx) |}
  else Raise IndexError.

(** [nn.Softmax(dim)] as a module. *)
Record Softmax : Type := mkSoftmax { dim : nat }.

Definition Softmax_forward (m : Softmax) (t : Tensor float) : result (Tensor float) :=
  softmax_along (dim m) t.

(** Size of an axis shared by two einsum operands. *)
Definition einsum_dim (x y : nat) : result nat :=
  if x =? y then Ok x
  else if x =? 1 then Ok y
  else if y =? 1 then Ok x
  else Raise RuntimeError.

(** Index component read in an operand whose axis has size [d]. *)
Definition bcomp (d i : nat) : nat := if d =? 1 then 0 else i.

(** [torch.einsum("ibhd,jbhd->ijbh", x, y)] *)
Definition einsum_ibhd_jbhd_ijbh (x y : Tensor float) : result (Tensor float) :=
  match shape x, shape y with
  | [xi; xb; xh; xd], [yj; yb; yh; yd] =>
      rbind (einsum_dim xb yb) (fun nb =>
      rbind (einsum_dim xh yh) (fun nh =>
      rbind (einsum_dim xd yd) (fun nd =>
      Ok {| shape := [xi; yj; nb; nh];
            at_ := fun idx =>
              match idx with
              | [i; j; b; h] =>
                  fsum (map (fun d =>
                    fmul (at_ x [i; bcomp xb b; bcomp xh h; bcomp xd d])
                         (at_ y [j; bcomp yb b; bcomp yh h; bcomp yd d]))
                    (seq 0 nd))
              | _ => Fin 0
              end |})))
  | _, _ => Raise RuntimeError
  end.

(** [torch.einsum("ijbh,jbhd->ibhd", x, y)] *)
Definition einsum_ijbh_jbhd_ibhd (x y : Tensor float) : result (Tensor float) :=
  match shape x, shape y with
  | [xi; xj; xb; xh], [yj; yb; yh; yd] =>
      rbind (einsum_dim xj yj) (fun nj =>
      rbind (einsum_dim xb yb) (fun nb =>
      rbind (einsum_dim xh yh) (fun nh =>
      Ok {| shape := [xi; nb; nh; yd];
            at_ := fun idx =>
              match idx with
              | [i; b; h; d] =>
                  fsum (map (fun j =>
                    fmul (at_ x [i; bcomp xj j; bcomp xb b; bcomp xh h])
                         (at_ y [bcomp yj j; bcomp yb b; bcomp yh h; d]))
                    (seq 0 nj))
              | _ => Fin 0
              end |})))
  | _, _ => Raise RuntimeError
  end.

End TensorArithmetic.

(** ** The library state and the monad of module calls

    What the source leaves to the library is a parameter of the model:
    the floating-point format, the random generator behind parameter
    initialisation and dropout, and the arithmetic of layer
    normalisation. *)

Class TorchBackend : Type := {
  float_format :: FloatFormat;
  Generator : Type;
  (** contents of a freshly initialised parameter of the given shape *)
  init_values : Generator -> list nat -> (list nat -> float) * Generator;
  (** the noise tensor of dropout, bernoulli(1-p)/(1-p) *)
  dropout_noise : Generator -> Q -> list nat -> (list nat -> float) * Generator;
  (** normalised values, from weight, bias and input *)
  layer_norm_values : Tensor float -> Tensor float -> Tensor float -> list nat -> float
}.

Section Monad.
Context `{TorchBackend}.

Record torch_state : Type := mkState {
  default_generator : Generator;
  grad_enabled : bool
}.

Definition M (A : Type) : Type := torch_state -> result (A * torch_state).

Definition ret {A} (a : A) : M A := fun s => Ok (a, s).

Definition bind {A B} (m : M A) (k : A -> M B) : M B :=
  fun s => match m s with
           | Ok (a, s') => k a s'
           | Raise e => Raise e
           end.

Definition raise {A} (e : exception) : M A := fun _ => Raise e.

Definition lift {A} (r : result A) : M A :=
  fun s => match r with
           | Ok a => Ok (a, s)
           | Raise e => Raise e
           end.

Definition is_grad_enabled : M bool := fun s => Ok (grad_enabled s, s).

End Monad.

Notation "x <- c ;; k" := (bind c (fun x => k))
  (at level 61, c at next level, right associativity).
Notation "c ;;; k" := (bind c (fun _ => k))
  (at level 61, right associativity).

(** ** Library modules the source instantiates *)

Section Library.
Context `{TorchBackend}.

(** What a module call can hand back: a tensor, or Python's [None]. *)
Inductive pyvalue : Type :=
| PyNone
| PyTensor (t : Tensor float).

(** A new parameter tensor: its contents come from the generator. *)
Definition fresh_parameter (s : list nat) : M (Tensor float) :=
  fun st =>
    let '(f, g) := init_values (default_generator st) s in
    Ok ({| shape := s; at_ := f |},
        {| default_generator := g; grad_enabled := grad_enabled st |}).

(** [torch.empty]/[torch.zeros] refuse a negative size. *)
Definition check_sizes (l : list Z) : result (list nat) :=
  if forallb (fun z => (0 <=? z)%Z) l then Ok (map Z.to_nat l)
  else Raise RuntimeError.

(** *** [nn.Linear] *)

Record Linear : Type := mkLinear {
  in_features : nat;
  out_features : nat;
  weight : Tensor float;          (* [out_features, in_features] *)
  bias : option (Tensor float)    (* [out_features] *)
}.

(** Default of the keyword [bias] of [nn.Linear]. *)
Definition nn_Linear_default_bias : bool := true.

Definition nn_Linear (in_f out_f : Z) (with_bias : bool) : M Linear :=
  s <- lift (check_sizes [out_f; in_f]) ;;
  w <- fresh_parameter s ;;
  b <- (if with_bias
        then (t <- fresh_parameter [Z.to_nat out_f] ;; ret (Some t))
        else ret None) ;;
  ret {| in_features := Z.to_nat in_f; out_features := Z.to_nat out_f;
         weight := w; bias := b |}.

Definition Linear_forward (l : Linear) (x : Tensor float) : result (Tensor float) :=
  match rev (shape x) with
  | [] => Raise RuntimeError
  | d :: _ =>
      if d =? in_features l
      then Ok {| shape := removelast (shape x) ++ [out_features l];
                 at_ := fun idx =>
                   let pre := removelast idx in
                   let o := last idx 0 in
                   let dot := fsum (map (fun k =>
                                fmul (at_ x (pre ++ [k])) (at_ (weight l) [o; k]))
                                (seq 0 (in_features l))) in
                   match bias l with
                   | Some b => fadd dot (at_ b [o])
                   | None => dot
                   end |}
      else Raise RuntimeError
  end.

(** *** [nn.Embedding] *)

Record Embedding : Type := mkEmbedding {
  num_embeddings : nat;
  embedding_dim : nat;
  table : Tensor float            (* [num_embeddings, embedding_dim] *)
}.

Definition nn_Embedding (n_vocab d_model : Z) : M Embedding :=
  s <- lift (check_sizes [n_vocab; d_model]) ;;
  w <- fresh_parameter s ;;
  ret {| num_embeddings := Z.to_nat n_vocab; embedding_dim := Z.to_nat d_model;
         table := w |}.

Definition Embedding_forward (e : Embedding) (x : Tensor Z) : result (Tensor float) :=
  if forallb (fun idx => (0 <=? at_ x idx)%Z
                         && (at_ x idx <? Z.of_nat (num_embeddings e))%Z)
             (all_indices (shape x))
  then Ok {| shape := shape x ++ [embedding_dim e];
             at_ := fun idx =>
               at_ (table e) [Z.to_nat (at_ x (removelast idx)); last idx 0] |}
  else Raise IndexError.

(** *** [nn.Dropout] *)

Record Dropout : Type := mkDropout {
  p : Q;
  training : bool
}.

Definition nn_Dropout (prob : Q) : result Dropout :=
  if Qlt_le_dec prob 0 then Raise ValueError
  else if Qlt_le_dec 1 prob then Raise ValueError
  else Ok {| p := prob; training := true |}.

Definition Dropout_forward (d : Dropout) (v : pyvalue) : M (Tensor float) :=
  match v with
  | PyNone => raise TypeError
  | PyTensor t =>
      if negb (training d) || Qeq_bool (p d) 0 || (numel (shape t) =? 0)
      then ret t
      else fun st =>
        let '(noise, g) := dropout_noise (default_generator st) (p d) (shape t) in
        Ok ({| shape := shape t; at_ := fun idx => fmul (at_ t idx) (noise idx) |},
            {| default_generator := g; grad_enabled := grad_enabled st |})
  end.

(** *** [nn.LayerNorm] *)

Record LayerNorm : Type := mkLayerNorm {
  normalized_shape : list nat;
  ln_weight : Tensor float;
  ln_bias : Tensor float
}.

Definition nn_LayerNorm (s : list Z) : result LayerNorm :=
  rbind (check_sizes s) (fun ns =>
  Ok {| normalized_shape := ns;
        ln_weight := full ns (Fin 1);
        ln_bias := full ns (Fin 0) |}).

Definition LayerNorm_forward (n : LayerNorm) (x : Tensor float) : result (Tensor float) :=
  let k := List.length (normalized_shape n) in
  let r := List.length (shape x) in
  if (k <=? r) && shape_eqb (skipn (r - k) (shape x)) (normalized_shape n)
  then Ok {| shape := shape x;
             at_ := layer_norm_values (ln_weight n) (ln_bias n) x |}
  else Raise RuntimeError.

(** *** Tensors with their autograd flags *)

Record GradTensor : Type := mkGrad {
  data : Tensor float;
  requires_grad : bool;
  is_leaf : bool
}.

(** [nn.Parameter(t, requires_grad=r)] *)
Definition nn_Parameter (t : Tensor float) (r : bool) : GradTensor :=
  {| data := t; requires_grad := r; is_leaf := true |}.

(** A buffer: a plain tensor outside the graph. *)
Definition as_buffer (t : Tensor float) : GradTensor :=
  {| data := t; requires_grad := false; is_leaf := true |}.

(** [v[:n]]: the slice is recorded in the graph when gradients are being
    recorded and [v] requires one; it is then not a leaf. *)
Definition grad_slice_to (v : GradTensor) (n : nat) : M GradTensor :=
  g <- is_grad_enabled ;;
  t <- lift (slice_to (data v) n) ;;
  let r := g && requires_grad v in
  ret {| data := t; requires_grad := r; is_leaf := negb r |}.

(** [v.requires_grad_(flag)]: only a leaf can stop requiring a gradient. *)
Definition requires_grad_ (v : GradTensor) (flag : bool) : result GradTensor :=
  if negb (is_leaf v) && negb flag then Raise RuntimeError
  else Ok {| data := data v; requires_grad := flag; is_leaf := is_leaf v |}.

(** The attributes of [torch.Tensor] that the source names. *)
Inductive tensor_attr : Type :=
| attr_shape | attr_view | attr_unsqueeze | attr_masked_fill
| attr_requires_grad_ | attr_clone | attr_dim.

Definition Tensor_getattr (name : string) : result tensor_attr :=
  if String.eqb name "shape" then Ok attr_shape
  else if String.eqb name "view" then Ok attr_view
  else if String.eqb name "unsqueeze" then Ok attr_unsqueeze
  else if String.eqb name "masked_fill" then Ok attr_masked_fill
  else if String.eqb name "requires_grad_" then Ok attr_requires_grad_
  else if String.eqb name "clone" then Ok attr_clone
  else if String.eqb name "dim" then Ok attr_dim
  else Raise (AttributeError "Tensor" name).

(** [a(flag)] for an attribute looked up on [v]. *)
Definition call_with_flag (a : tensor_attr) (v : GradTensor) (flag : bool)
  : result GradTensor :=
  match a with
  | attr_requires_grad_ => requires_grad_ v flag
  | _ => Raise TypeError
  end.

(** [math.sqrt(n)] of a Python integer. *)
Definition math_sqrt (n : Z) : result R :=
  if (n <? 0)%Z then Raise ValueError else Ok (sqrt (IZR n)).

End Library.

(** ** Python helpers *)

(** [l[i]] on a tuple of sizes. *)
Definition py_index (l : list nat) (i : nat) : result nat :=
  match nth_error l i with
  | Some d => Ok d
  | None => Raise IndexError
  end.

(** [a, b, c = l] *)
Definition unpack3 (l : list nat) : result (nat * nat * nat) :=
  match l with
  | [a; b; c] => Ok (a, b, c)
  | _ => Raise ValueError
  end.

(** [a // b] on integers: Python rounds to the floor, as [Z.div] does. *)
Definition py_floordiv (a b : Z) : result Z :=
  if (b =? 0)%Z then Raise ZeroDivisionError else Ok (a / b)%Z.

(** [a / b] on Python floats. *)
Definition py_truediv (a b : R) : result R :=
  if Req_dec_T b 0 then Raise ZeroDivisionError else Ok (a / b)%R.

(** [t.view( *head, *sizes)] with integer sizes: a negative size is
    refused.  (A size of -1 asks torch to infer it; in the one call of the
    source the last axis has [heads * d_k] entries, so a -1 can only come
    with a second negative size or with a size 0, and both are refused.) *)
Definition view_sizes {A} (t : Tensor A) (head : list nat) (sizes : list Z)
  : result (Tensor A) :=
  rbind (check_sizes sizes) (fun s => view t (head ++ s)).

(** ** mha.py *)

Module PrepareForMultiHeadAttention.
Section Defs.
Context `{TorchBackend}.

Record t : Type := mk {
  linear : Linear;
  heads : Z;
  d_k : Z
}.

(** The argument [bias] is accepted and not used: [nn.Linear] is called
    without it. *)
Definition init (d_model heads d_k : Z) (bias : bool) : M t :=
  l <- nn_Linear d_model (heads * d_k) nn_Linear_default_bias ;;
  ret {| linear := l; heads := heads; d_k := d_k |}.

Definition forward (self : t) (x : Tensor float) : result (Tensor float) :=
  let head_shape := removelast (shape x) in
  rbind (Linear_forward (linear self) x) (fun x =>
  view_sizes x head_shape [heads self; d_k self]).

End Defs.
End PrepareForMultiHeadAttention.

Module MultiHeadAttention.
Section Defs.
Context `{TorchBackend}.

Record t : Type := mk {
  d_k : Z;
  heads : Z;
  query : PrepareForMultiHeadAttention.t;
  key : PrepareForMultiHeadAttention.t;
  value : PrepareForMultiHeadAttention.t;
  softmax : Softmax;
  output : Linear;
  dropout : Dropout;
  scale : R;
  attn : pyvalue
}.

Definition default_dropout_prob : Q := (1 # 10)%Q.
Definition default_bias : bool := true.

Definition init (heads d_model : Z) (dropout_prob : Q) (bias : bool) : M t :=
  d_k <- lift (py_floordiv d_model heads) ;;
  query <- PrepareForMultiHeadAttention.init d_model heads d_k bias ;;
  key <- PrepareForMultiHeadAttention.init d_model heads d_k bias ;;
  value <- PrepareForMultiHeadAttention.init d_model heads d_k true ;;
  let softmax := {| dim := 1 |} in
  output <- nn_Linear d_model d_model nn_Linear_default_bias ;;
  dropout <- lift (nn_Dropout dropout_prob) ;;
  root <- lift (math_sqrt d_k) ;;
  scale <- lift (py_truediv 1 root) ;;
  ret {| d_k := d_k; heads := heads; query := query; key := key;
         value := value; softmax := softmax; output := output;
         dropout := dropout; scale := scale; attn := PyNone |}.

Definition get_scores (self : t) (query key : Tensor float) : result (Tensor float) :=
  einsum_ibhd_jbhd_ijbh query key.

Definition prepare_mask (self : t) (mask : Tensor Z) (query_shape key_shape : list nat)
  : result (Tensor Z) :=
  rbind (shape_at mask 0) (fun m0 =>
  rbind (if m0 =? 1 then Ok true
         else rbind (shape_at mask 0) (fun m0 =>
              rbind (py_index query_shape 0) (fun q0 => Ok (m0 =? q0)))) (fun c0 =>
  rbind (py_assert c0) (fun _ =>
  rbind (shape_at mask 1) (fun m1 =>
  rbind (py_index key_shape 0) (fun k0 =>
  rbind (py_assert (m1 =? k0)) (fun _ =>
  rbind (shape_at mask 2) (fun m2 =>
  rbind (if m2 =? 1 then Ok true
         else rbind (shape_at mask 2) (fun m2 =>
              rbind (py_index query_shape 1) (fun q1 => Ok (m2 =? q1)))) (fun c2 =>
  rbind (py_assert c2) (fun _ =>
  Ok (unsqueeze_last mask)))))))))).

(** [forward] up to the softmax (lines 50 to 62): the attention weights,
    with the projected value that the rest of [forward] combines them with. *)
Definition attention_weights (self : t) (query_in key_in value_in : Tensor float)
  (mask : option (Tensor Z)) : result (Tensor float * Tensor float) :=
  rbind (unpack3 (shape query_in)) (fun _ =>
  rbind (PrepareForMultiHeadAttention.forward (query self) query_in) (fun query =>
  rbind (PrepareForMultiHeadAttention.forward (key self) key_in) (fun key =>
  rbind (PrepareForMultiHeadAttention.forward (value self) value_in) (fun value =>
  rbind (get_scores self query key) (fun scores =>
  let scores := tmap (fun x => fmul x (Fin (scale self))) scores in
  rbind (match mask with
         | Some m => rmap Some (prepare_mask self m (shape query) (shape key))
         | None => Ok None
         end) (fun mask =>
  rbind (match mask with
         | Some m => masked_fill scores (eq_zero m) NInf
         | None => Ok scores
         end) (fun scores =>
  rbind (Softmax_forward (softmax self) scores) (fun attn =>
  Ok (attn, value))))))))).

(** The function ends after the second einsum: nothing is returned, so the
    call evaluates to [None]. *)
Definition forward (self : t) (query_in key_in value_in : Tensor float)
  (mask : option (Tensor Z)) : M pyvalue :=
  av <- lift (attention_weights self query_in key_in value_in mask) ;;
  attn <- Dropout_forward (dropout self) (PyTensor (fst av)) ;;
  x <- lift (einsum_ijbh_jbhd_ibhd attn (snd av)) ;;
  ret PyNone.

End Defs.
End MultiHeadAttention.

(** ** FFN.py *)

(** [a * b] where [a] is what a callable returned. *)
Definition py_mul `{FloatFormat} (a : pyvalue) (b : Tensor float)
  : result (Tensor float) :=
  match a with
  | PyNone => Raise TypeError
  | PyTensor a => broadcast_op fmul a b
  end.

(** [nn.ReLU()] *)
Definition relu (x : float) : float :=
  match x with
  | Fin r => Fin (Rmax 0 r)
  | PInf => PInf
  | NInf => Fin 0
  | NaN => NaN
  end.

Module FeedForward.
Section Defs.
Context `{TorchBackend}.

Record t : Type := mk {
  layer1 : Linear;
  layer2 : Linear;
  dropout : Dropout;
  activation : Tensor float -> M pyvalue;
  is_gated : bool;
  linear_v : option Linear
}.

Definition default_dropout : Q := (1 # 10)%Q.
Definition default_activation : Tensor float -> M pyvalue :=
  fun x => ret (PyTensor (tmap relu x)).

Definition init (d_model d_ff : Z) (dropout : Q)
  (activation : Tensor float -> M pyvalue)
  (is_gated bias1 bias2 bias_gate : bool) : M t :=
  layer1 <- nn_Linear d_model d_ff bias1 ;;
  layer2 <- nn_Linear d_ff d_model bias2 ;;
  dropout <- lift (nn_Dropout dropout) ;;
  linear_v <- (if is_gated
               then (l <- nn_Linear d_model d_ff bias_gate ;; ret (Some l))
               else ret None) ;;
  ret {| layer1 := layer1; layer2 := layer2; dropout := dropout;
         activation := activation; is_gated := is_gated; linear_v := linear_v |}.

Definition forward (self : t) (x : Tensor float) : M (Tensor float) :=
  h <- lift (Linear_forward (layer1 self) x) ;;
  g <- activation self h ;;
  x <- (if is_gated self
        then match linear_v self with
             | Some l =>
                 v <- lift (Linear_forward l x) ;;
                 x <- lift (py_mul g v) ;;
                 ret (PyTensor x)
             | None => raise (AttributeError "FeedForward" "linear_v")
             end
        else ret g) ;;
  x <- Dropout_forward (dropout self) x ;;
  lift (Linear_forward (layer2 self) x).

End Defs.
End FeedForward.

(** ** models.py *)

(** [x * c] for a Python float [c]. *)
Definition scale_tensor `{FloatFormat} (x : Tensor float) (c : R) : Tensor float :=
  tmap (fun a => fmul a (Fin c)) x.

(** [x + y] on tensors. *)
Definition tensor_add `{FloatFormat} (x y : Tensor float) : result (Tensor float) :=
  broadcast_op fadd x y.

(** [torch.zeros( *sizes)] *)
Definition torch_zeros (sizes : list Z) : result (Tensor float) :=
  rmap (fun s => full s (Fin 0)) (check_sizes sizes).

Module EmbeddingsWithPositionalEncoding.
Section Defs.
Context `{TorchBackend}.

(** [get_positional_encoding] comes from [positional_encoding.py], which is
    not among the sources: it is an argument of the constructor here. *)
Variable get_positional_encoding : Z -> Z -> result (Tensor float).

Record t : Type := mk {
  linear : Embedding;
  d_model : Z;
  positional_encodings : GradTensor
}.

Definition default_max_len : Z := 5000.

Definition init (d_model n_vocab max_len : Z) : M t :=
  linear <- nn_Embedding n_vocab d_model ;;
  pe <- lift (get_positional_encoding d_model max_len) ;;
  ret {| linear := linear; d_model := d_model;
         positional_encodings := as_buffer pe |}.

Definition forward (self : t) (x : Tensor Z) : M (Tensor float) :=
  n <- lift (shape_at x 0) ;;
  sliced <- grad_slice_to (positional_encodings self) n ;;
  method <- lift (Tensor_getattr "required_grad_") ;;
  pe <- lift (call_with_flag method sliced false) ;;
  e <- lift (Embedding_forward (linear self) x) ;;
  root <- lift (math_sqrt (d_model self)) ;;
  lift (tensor_add (scale_tensor e root) (data pe)).

End Defs.
End EmbeddingsWithPositionalEncoding.

Module EmbeddingsWithLearnedPositionalEncoding.
Section Defs.
Context `{TorchBackend}.

Record t : Type := mk {
  linear : Embedding;
  d_model : Z;
  positional_encodings : GradTensor
}.

Definition default_max_len : Z := 5000.

Definition init (d_model n_vocab max_len : Z) : M t :=
  linear <- nn_Embedding n_vocab d_model ;;
  zeros <- lift (torch_zeros [max_len; 1%Z; d_model]) ;;
  ret {| linear := linear; d_model := d_model;
         positional_encodings := nn_Parameter zeros true |}.

Definition forward (self : t) (x : Tensor Z) : M (Tensor float) :=
  n <- lift (shape_at x 0) ;;
  sliced <- grad_slice_to (positional_encodings self) n ;;
  method <- lift (Tensor_getattr "requires_grad_") ;;
  pe <- lift (call_with_flag method sliced false) ;;
  e <- lift (Embedding_forward (linear self) x) ;;
  root <- lift (math_sqrt (d_model self)) ;;
  lift (tensor_add (scale_tensor e root) (data pe)).

End Defs.
End EmbeddingsWithLearnedPositionalEncoding.

Module TransformerLayer.
Section Defs.
Context `{TorchBackend}.

(** An attention module as the layer calls it:
    [m(query=.., key=.., value=.., mask=..)]. *)
Definition attention : Type :=
  Tensor float -> Tensor float -> Tensor float -> option (Tensor Z) -> M pyvalue.

(** What [z.clone] evaluates to: the method bound to [z], not a copy. *)
Inductive bound_method : Type :=
| clone_of (z : Tensor float).

Record t : Type := mk {
  size : Z;
  self_attn : attention;
  src_attn : option attention;
  feed_forward : Tensor float -> M pyvalue;
  dropout : Dropout;
  norm_self_attn : LayerNorm;
  norm_src_attn : option LayerNorm;
  norm_ff : LayerNorm;
  is_save_ff_input : bool;
  ff_input : option bound_method
}.

Definition init (d_model : Z) (self_attn : attention) (src_attn : option attention)
  (feed_forward : Tensor float -> M pyvalue) (dropout_prob : Q) : result t :=
  rbind (nn_Dropout dropout_prob) (fun dropout =>
  rbind (nn_LayerNorm [d_model]) (fun norm_self_attn =>
  rbind (match src_attn with
         | Some _ => rmap Some (nn_LayerNorm [d_model])
         | None => Ok None
         end) (fun norm_src_attn =>
  rbind (nn_LayerNorm [d_model]) (fun norm_ff =>
  Ok {| size := d_model; self_attn := self_attn; src_attn := src_attn;
        feed_forward := feed_forward; dropout := dropout;
        norm_self_attn := norm_self_attn; norm_src_attn := norm_src_attn;
        norm_ff := norm_ff; is_save_ff_input := false; ff_input := None |})))).

Definition save_ff_input (self : t) (z : Tensor float) : t :=
  {| size := size self; self_attn := self_attn self; src_attn := src_attn self;
     feed_forward := feed_forward self; dropout := dropout self;
     norm_self_attn := norm_self_attn self; norm_src_attn := norm_src_attn self;
     norm_ff := norm_ff self; is_save_ff_input := is_save_ff_input self;
     ff_input := Some (clone_of z) |}.

(** The cross-attention stage, entered when [src] is not [None]. *)
Definition cross_attention (self : t) (x src : Tensor float)
  (src_mask : option (Tensor Z)) : M (Tensor float) :=
  match norm_src_attn self with
  | None => raise (AttributeError "TransformerLayer" "norm_src_attn")
  | Some norm =>
      z <- lift (LayerNorm_forward norm x) ;;
      match src_attn self with
      | Some attend =>
          attn_src <- attend z src src src_mask ;;
          d <- Dropout_forward (dropout self) attn_src ;;
          lift (tensor_add x d)
      | None => ret x
      end
  end.

(** Returns the output together with the layer, whose [ff_input] the call
    may have assigned. *)
Definition forward (self : t) (x : Tensor float) (mask : option (Tensor Z))
  (src : option (Tensor float)) (src_mask : option (Tensor Z))
  : M (Tensor float * t) :=
  z <- lift (LayerNorm_forward (norm_self_attn self) x) ;;
  a <- self_attn self z z z mask ;;
  d <- Dropout_forward (dropout self) a ;;
  x <- lift (tensor_add x d) ;;
  x <- (match src with
        | Some src => cross_attention self x src src_mask
        | None => ret x
        end) ;;
  z <- lift (LayerNorm_forward (norm_ff self) x) ;;
  let self' := if is_save_ff_input self then save_ff_input self z else self in
  ff <- feed_forward self z ;;
  d <- Dropout_forward (dropout self) ff ;;
  x <- lift (tensor_add x d) ;;
  ret (x, self').

End Defs.
End TransformerLayer.

(** [clone_module_list(module, n)] of [labml_nn.utils]: [n] deep copies. *)
Definition clone_module_list {A} (module : A) (n : Z) : list A :=
  repeat module (Z.to_nat n).

Module Encoder.
Section Defs.
Context `{TorchBackend}.

Record t : Type := mk {
  layers : list TransformerLayer.t;
  norm : LayerNorm
}.

Definition init (layer : TransformerLayer.t) (n_layers : Z) : result t :=
  rbind (nn_LayerNorm [TransformerLayer.size layer]) (fun norm =>
  Ok {| layers := clone_module_list layer n_layers; norm := norm |}).

Fixpoint run (ls : list TransformerLayer.t) (x : Tensor float)
  (mask : option (Tensor Z)) : M (Tensor float * list TransformerLayer.t) :=
  match ls with
  | [] => ret (x, [])
  | layer :: rest =>
      r <- TransformerLayer.forward layer x mask None None ;;
      r' <- run rest (fst r) mask ;;
      ret (fst r', snd r :: snd r')
  end.

Definition forward (self : t) (x : Tensor float) (mask : option (Tensor Z))
  : M (Tensor float * t) :=
  r <- run (layers self) x mask ;;
  y <- lift (LayerNorm_forward (norm self) (fst r)) ;;
  ret (y, {| layers := snd r; norm := norm self |}).

End Defs.
End Encoder.

Module Decoder.
Section Defs.
Context `{TorchBackend}.

Record t : Type := mk {
  layers : list TransformerLayer.t;
  norm : LayerNorm
}.

Definition init (layer : TransformerLayer.t) (n_layers : Z) : result t :=
  rbind (nn_LayerNorm [TransformerLayer.size layer]) (fun norm =>
  Ok {| layers := clone_module_list layer n_layers; norm := norm |}).

Fixpoint run (ls : list TransformerLayer.t) (x memory : Tensor float)
  (src_mask tgt_mask : option (Tensor Z))
  : M (Tensor float * list TransformerLayer.t) :=
  match ls with
  | [] => ret (x, [])
  | layer :: rest =>
      r <- TransformerLayer.forward layer x tgt_mask (Some memory) src_mask ;;
      r' <- run rest (fst r) memory src_mask tgt_mask ;;
      ret (fst r', snd r :: snd r')
  end.

Definition forward (self : t) (x memory : Tensor float)
  (src_mask tgt_mask : option (Tensor Z)) : M (Tensor float * t) :=
  r <- run (layers self) x memory src_mask tgt_mask ;;
  y <- lift (LayerNorm_forward (norm self) (fst r)) ;;
  ret (y, {| layers := snd r; norm := norm self |}).

End Defs.
End Decoder.

Module Generator.
Section Defs.
Context `{TorchBackend}.

Record t : Type := mk { projection : Linear }.

Definition init (n_vocab d_model : Z) : M t :=
  l <- nn_Linear d_model n_vocab nn_Linear_default_bias ;;
  ret {| projection := l |}.

Definition forward (self : t) (x : Tensor float) : result (Tensor float) :=
  Linear_forward (projection self) x.

End Defs.
End Generator.

Module EncoderDecoder.
Section Defs.
Context `{TorchBackend}.

(** The five sub-modules are whatever the caller hands to the constructor;
    [forward] only passes objects to them, so objects are left abstract. *)
Variable object : Type.

Definition callable : Type := list object -> M object.

Record t : Type := mk {
  encoder : callable;
  decoder : callable;
  src_embed : callable;
  tgt_embed : callable;
  generator : callable
}.

(** [self.name] for a callable attribute: the instance holds the five
    attributes that [__init__] assigns; the class defines [__init__] and
    [forward], and nothing here or in [nn.Module] is called [encode] or
    [decode]. *)
Definition getattr (self : t) (name : string) : result callable :=
  if String.eqb name "encoder" then Ok (encoder self)
  else if String.eqb name "decoder" then Ok (decoder self)
  else if String.eqb name "src_embed" then Ok (src_embed self)
  else if String.eqb name "tgt_embed" then Ok (tgt_embed self)
  else if String.eqb name "generator" then Ok (generator self)
  else Raise (AttributeError "EncoderDecoder" name).

(** The sub-modules are stored as they come.  (The constructor also
    re-initialises every parameter of two or more axes; the parameters
    live inside the callables, which this record does not open.) *)
Definition init (encoder decoder src_embed tgt_embed generator : callable) : t :=
  {| encoder := encoder; decoder := decoder; src_embed := src_embed;
     tgt_embed := tgt_embed; generator := generator |}.

Definition forward (self : t) (src tgt src_mask tgt_mask : object) : M object :=
  (* the two functions defined inside forward are local names *)
  let encode := fun (self : t) (src src_mask : object) =>
    e <- src_embed self [src] ;; encoder self [e; src_mask] in
  let decode := fun (self : t) (memory src_mask tgt tgt_mask : object) =>
    e <- tgt_embed self [tgt] ;; decoder self [e; memory; src_mask; tgt_mask] in
  enc <- encoder self [src; src_mask] ;;
  self_decode <- lift (getattr self "decode") ;;
  self_decode [enc; src_mask; tgt; tgt_mask].

End Defs.
End EncoderDecoder.

(** ** The contracts of the specification, as predicates *)

(** The mask contract: first size 1 or [query_len], second size
    [key_len], third size 1 or [batch_size]. *)
Definition mask_contract (mask_shape : list nat) (query_len key_len batch_size : nat)
  : bool :=
  match mask_shape with
  | m0 :: m1 :: m2 :: _ =>
      ((m0 =? 1) || (m0 =? query_len)) && (m1 =? key_len)
      && ((m2 =? 1) || (m2 =? batch_size))
  | _ => false
  end.

(** Whether a mask of three axes excludes key [j] for query [i] in batch
    entry [b], the axes of size 1 being broadcast. *)
Definition masked_at (mask : Tensor Z) (i j b : nat) : bool :=
  Z.eqb (at_ mask [bcomp (nth 0 (shape mask) 0) i;
                    bcomp (nth 1 (shape mask) 0) j;
                    bcomp (nth 2 (shape mask) 0) b]) 0%Z.

Definition excluded (mask : option (Tensor Z)) (i j b : nat) : bool :=
  match mask with
  | Some m => masked_at m i j b
  | None => false
  end.

(** A score after masking: a finite number, or minus infinity. *)
Definition score_like (x : float) : Prop := is_finite x \/ x = NInf.

Definition Rsum (l : list R) : R := fold_right Rplus 0%R l.

(** *** What rounding leaves of "the weights sum to 1" *)

Section Tolerances.
Context `{FloatFormat}.

(** A number between 0 and 1 that the format holds. *)
Definition unit_float (x : float) : Prop :=
  exists e, x = Fin e /\ (0 <= e <= 1)%R /\ round e = Fin e.

(** Every number up to [b] in absolute value is within the range of the
    format. *)
Definition representable_up_to (b : R) : Prop :=
  forall r, (Rabs r <= b)%R -> is_finite (round r).

(** What the sum of [n] numbers between 0 and 1 can reach while it is
    being added up. *)
Definition sum_cap (n : nat) : R :=
  (INR n * (1 + underflow_unit) * (1 + unit_roundoff) ^ n)%R.

(** A key length over which the format can normalise: the sum of a line
    stays in range, and underflow stays below what rounding leaves of
    it. *)
Definition line_fits (n : nat) : Prop :=
  representable_up_to (sum_cap n) /\
  (INR n * underflow_unit < (1 - unit_roundoff) ^ n)%R.

(** The bounds between which the weights over [n] keys add up: one
    rounding for each term of the sum of the line, one for the quotient,
    and one to spare for a library that multiplies by the inverse of the
    sum.  Both are 1 when nothing is rounded. *)
Definition softmax_sum_lower (n : nat) : R :=
  ((1 - unit_roundoff) ^ 2
   / ((1 + unit_roundoff) ^ n * (1 + INR n * underflow_unit))
   - INR n * underflow_unit)%R.

Definition softmax_sum_upper (n : nat) : R :=
  ((1 + unit_roundoff) ^ 2
   / ((1 - unit_roundoff) ^ n - INR n * underflow_unit)
   + INR n * underflow_unit)%R.

End Tolerances.

(** ** Shorthands for the properties of the sub-layers *)

(** Output [o] of a linear map on one row of features. *)
Definition linear_at `{FloatFormat} (l : Linear) (row : nat -> float) (o : nat)
  : float :=
  let dot := fsum (map (fun k => fmul (row k) (at_ (weight l) [o; k]))
                       (seq 0 (in_features l))) in
  match bias l with
  | Some b => fadd dot (at_ b [o])
  | None => dot
  end.

Section SubLayerContracts.
Context `{TorchBackend}.

(** An attention module that, on a query of shape [s], hands back a
    tensor of shape [s]. *)
Definition attention_keeps_shape (a : TransformerLayer.attention) (s : list nat)
  : Prop :=
  forall q k v m st, shape q = s ->
    exists t st', a q k v m st = Ok (PyTensor t, st') /\ shape t = s.

(** A feed-forward module that, on an input of shape [s], hands back a
    tensor of shape [s]. *)
Definition feed_forward_keeps_shape (f : Tensor float -> M pyvalue) (s : list nat)
  : Prop :=
  forall x st, shape x = s ->
    exists t st', f x st = Ok (PyTensor t, st') /\ shape t = s.

(** A layer whose sub-layers keep the shape [s]. *)
Definition layer_keeps_shape (l : TransformerLayer.t) (s : list nat) : Prop :=
  attention_keeps_shape (TransformerLayer.self_attn l) s /\
  feed_forward_keeps_shape (TransformerLayer.feed_forward l) s /\
  match TransformerLayer.src_attn l with
  | Some a => attention_keeps_shape a s
  | None => True
  end.


End SubLayerContracts.

(** ** A backend and concrete objects to run the model on *)

(** The format that neither rounds nor overflows. *)
Definition exact_format : FloatFormat.
Proof.
  refine {| round := Fin; exp_value := fun r => Fin (exp r);
            unit_roundoff := 0; underflow_unit := 0; exp_roundoff := 0 |}.
  - lra.
  - lra.
  - intros a b L. exact L.
  - intros r r' E. injection E as <-.
    replace (r - r)%R with 0%R by lra. rewrite Rabs_R0. lra.
  - intros r r' E. injection E as <-. reflexivity.
  - reflexivity.
  - reflexivity.
  - f_equal. apply exp_0.
  - intros r L. exists (exp r). split; [reflexivity|]. split; [|reflexivity].
    split; [left; apply exp_pos|].
    rewrite <- exp_0. destruct L as [L|L].
    + left. apply exp_increasing. exact L.
    + right. f_equal. exact L.
  - intros r e E. injection E as <-.
    replace (exp r - exp r)%R with 0%R by lra. rewrite Rabs_R0. lra.
Defined.

Definition fsqrt `{FloatFormat} (x : float) : float :=
  match x with
  | Fin r => if Rlt_dec r 0 then NaN else round (sqrt r)
  | PInf => PInf
  | _ => NaN
  end.

(** Layer normalisation over the last axis. *)
Definition layer_norm_last_axis `{FloatFormat} (w b x : Tensor float)
  (idx : list nat) : float :=
  let line := axis_line x (List.length (shape x) - 1) idx in
  let n := Fin (INR (List.length line)) in
  let mean := fdiv (fsum line) n in
  let dev := fun a => fadd a (fneg mean) in
  let var := fdiv (fsum (map (fun a => fmul (dev a) (dev a)) line)) n in
  fadd (fmul (fdiv (dev (at_ x idx)) (fsqrt (fadd var (Fin (/ 100000)))))
             (at_ w [last idx 0]))
       (at_ b [last idx 0]).

(** Exact arithmetic; the generator counts the numbers drawn; parameters
    start at 1 and dropout keeps every entry. *)
Definition reference_backend : TorchBackend := {|
  float_format := exact_format;
  Generator := nat;
  init_values := fun g s => (fun _ => Fin 1, g + numel s);
  dropout_noise := fun g prob s => (fun _ => Fin (/ (1 - Q2R prob)), g + numel s);
  layer_norm_values := @layer_norm_last_axis exact_format
|}.

(** A format that does not round but holds only the numbers up to
    [limit] in absolute value: a result beyond it is an infinity. *)
Definition saturate (limit r : R) : float :=
  if Rle_dec (Rabs r) limit then Fin r
  else if Rlt_dec 0 r then PInf else NInf.

Definition saturating_format (limit : R) (L : (1 <= limit)%R) : FloatFormat.
Proof.
  refine {| round := saturate limit;
            exp_value := fun r => saturate limit (exp r);
            unit_roundoff := 0; underflow_unit := 0; exp_roundoff := 0 |}.
  - lra.
  - lra.
  - intros a b Hab. unfold saturate.
    destruct (Rle_dec (Rabs a) limit) as [La|La],
             (Rle_dec (Rabs b) limit) as [Lb|Lb];
      try destruct (Rlt_dec 0 a) as [Pa|Pa]; try destruct (Rlt_dec 0 b) as [Pb|Pb];
      simpl; try exact I; try exact Hab;
      exfalso; unfold Rabs in *;
      destruct (Rcase_abs a), (Rcase_abs b); lra.
  - intros r r' E. unfold saturate in E.
    destruct (Rle_dec (Rabs r) limit); [|destruct (Rlt_dec 0 r); discriminate].
    injection E as <-. replace (r - r)%R with 0%R by lra. rewrite Rabs_R0. lra.
  - intros r r' E. unfold saturate in *.
    destruct (Rle_dec (Rabs r) limit) as [Lr|Lr];
      [|destruct (Rlt_dec 0 r); discriminate].
    injection E as <-.
    destruct (Rle_dec (Rabs r) limit); [reflexivity|contradiction].
  - unfold saturate. destruct (Rle_dec (Rabs 0) limit) as [_|N]; [reflexivity|].
    exfalso. apply N. rewrite Rabs_R0. lra.
  - unfold saturate. destruct (Rle_dec (Rabs 1) limit) as [_|N]; [reflexivity|].
    exfalso. apply N. rewrite Rabs_R1. exact L.
  - rewrite exp_0.
    unfold saturate. destruct (Rle_dec (Rabs 1) limit) as [_|N]; [reflexivity|].
    exfalso. apply N. rewrite Rabs_R1. exact L.
  - intros r Hr.
    assert (He : (0 < exp r <= 1)%R).
    { split; [apply exp_pos|]. rewrite <- exp_0. destruct Hr as [Hr|Hr].
      - left. apply exp_increasing. exact Hr.
      - right. f_equal. exact Hr. }
    assert (Es : saturate limit (exp r) = Fin (exp r)).
    { unfold saturate.
      destruct (Rle_dec (Rabs (exp r)) limit) as [_|N]; [reflexivity|].
      exfalso. apply N. rewrite Rabs_pos_eq by lra. lra. }
    exists (exp r). split; [exact Es|]. split; [lra|exact Es].
  - intros r e E. unfold saturate in E.
    destruct (Rle_dec (Rabs (exp r)) limit);
      [|destruct (Rlt_dec 0 (exp r)); discriminate].
    injection E as <-.
    replace (exp r - exp r)%R with 0%R by lra. rewrite Rabs_R0. lra.
Defined.

(** The format that holds the numbers up to 2. *)
Definition format_up_to_2 : FloatFormat := @saturating_format 2 ltac:(lra).

(** The reference backend on that format. *)
Definition overflowing_backend : TorchBackend := {|
  float_format := format_up_to_2;
  Generator := nat;
  init_values := fun g s => (fun _ => Fin 1, g + numel s);
  dropout_noise := fun g prob s => (fun _ => Fin (/ (1 - Q2R prob)), g + numel s);
  layer_norm_values := @layer_norm_last_axis format_up_to_2
|}.

Module Examples.
#[local] Existing Instance reference_backend.

Definition training_state : torch_state :=
  {| default_generator := 0; grad_enabled := true |}.

Definition inference_state : torch_state :=
  {| default_generator := 0; grad_enabled := false |}.

Definition ones (s : list nat) : Tensor float := full s (Fin 1).

Definition linear_1_1 : Linear :=
  {| in_features := 1; out_features := 1;
     weight := ones [1; 1]; bias := Some (ones [1]) |}.

Definition prepare_1_1 : PrepareForMultiHeadAttention.t :=
  {| PrepareForMultiHeadAttention.linear := linear_1_1;
     PrepareForMultiHeadAttention.heads := 1;
     PrepareForMultiHeadAttention.d_k := 1 |}.

(** What [MultiHeadAttention(heads=1, d_model=1, dropout_prob=0.1, bias=False)]
    builds. *)
Definition mha_1_1 : MultiHeadAttention.t :=
  {| MultiHeadAttention.d_k := 1;
     MultiHeadAttention.heads := 1;
     MultiHeadAttention.query := prepare_1_1;
     MultiHeadAttention.key := prepare_1_1;
     MultiHeadAttention.value := prepare_1_1;
     MultiHeadAttention.softmax := {| dim := 1 |};
     MultiHeadAttention.output := linear_1_1;
     MultiHeadAttention.dropout := {| p := (1 # 10)%Q; training := true |};
     MultiHeadAttention.scale := (1 / sqrt (IZR 1))%R;
     MultiHeadAttention.attn := PyNone |}.

(** One position, one batch entry, model dimension 1. *)
Definition x_1_1_1 : Tensor float := ones [1; 1; 1].

(** Two key positions. *)
Definition x_2_1_1 : Tensor float := ones [2; 1; 1].

(** A mask over one query and one key that excludes the key. *)
Definition mask_all_zero : Tensor Z := full [1; 1; 1] 0%Z.

(** A mask over one query and two keys that excludes the second key. *)
Definition mask_first_only : Tensor Z :=
  {| shape := [1; 2; 1];
     at_ := fun idx => match idx with
                       | [_; 0; _] => 1%Z
                       | _ => 0%Z
                       end |}.

(** A mask with three key positions. *)
Definition mask_three_keys : Tensor Z := full [1; 3; 1] 1%Z.

(** Two tokens, one batch entry, every token index 0. *)
Definition tokens_2_1 : Tensor Z := full [2; 1] 0%Z.

(** One token, one batch entry. *)
Definition tokens_1_1 : Tensor Z := full [1; 1] 0%Z.

(** A positional table of [max_len] rows. *)
Definition table_of_ones (d_model max_len : Z) : result (Tensor float) :=
  rmap (fun s => full s (Fin 1)) (check_sizes [max_len; 1%Z; d_model]).

(** Sub-layers for a Transformer layer: attention that returns its query,
    a feed-forward that returns its input. *)
Definition echo_attention : TransformerLayer.attention :=
  fun query key value mask => ret (PyTensor query).

Definition echo_feed_forward : Tensor float -> M pyvalue :=
  fun x => ret (PyTensor x).

(** One position, one batch entry, model dimension 1, every entry 2. *)
Definition twos_1_1_1 : Tensor float := full [1; 1; 1] (Fin 2).

(** The state a program starts in, for the overflowing backend. *)
Definition overflowing_state : @torch_state overflowing_backend :=
  @mkState overflowing_backend 0 true.

End Examples.

(** * Properties *)

(** ** Inversion of the monads *)

Section MonadFacts.
Context `{TorchBackend}.

Lemma rbind_Ok_inv {A B} (r : result A) (k : A -> result B) (b : B) :
  rbind r k = Ok b -> exists a, r = Ok a /\ k a = Ok b.
Proof.
  destruct r as [a|e]; simpl; intros E; [eauto | discriminate].
Qed.

Lemma rmap_Ok_inv {A B} (f : A -> B) (r : result A) (b : B) :
  rmap f r = Ok b -> exists a, r = Ok a /\ b = f a.
Proof.
  destruct r as [a|e]; simpl; intros E; [|discriminate].
  injection E as <-. eauto.
Qed.

Lemma bind_Ok_inv {A B} (m : M A) (k : A -> M B) s b s' :
  bind m k s = Ok (b, s') ->
  exists a s1, m s = Ok (a, s1) /\ k a s1 = Ok (b, s').
Proof.
  unfold bind. destruct (m s) as [[a s1]|e]; intros E; [eauto | discriminate].
Qed.

Lemma lift_Ok_inv {A} (r : result A) s a s' :
  lift r s = Ok (a, s') -> r = Ok a /\ s' = s.
Proof.
  unfold lift. destruct r as [x|e]; intros E; [|discriminate].
  injection E as <- <-. auto.
Qed.

Lemma ret_Ok_inv {A} (x : A) s a s' :
  ret x s = Ok (a, s') -> a = x /\ s' = s.
Proof.
  unfold ret. intros E. injection E as <- <-. auto.
Qed.

Lemma bind_Ok {A B} (m : M A) (k : A -> M B) s a s1 :
  m s = Ok (a, s1) -> bind m k s = k a s1.
Proof.
  unfold bind. intros ->. reflexivity.
Qed.

Lemma bind_lift_Ok {A B} (r : result A) (k : A -> M B) s a :
  r = Ok a -> bind (lift r) k s = k a s.
Proof.
  intros ->. reflexivity.
Qed.

Lemma py_assert_Ok_inv c u : py_assert c = Ok u -> c = true.
Proof.
  destruct c; simpl; [reflexivity | discriminate].
Qed.

End MonadFacts.

(** Take a successful run apart, one call at a time. *)
Ltac inv_run :=
  repeat match goal with
  | E : bind _ _ _ = Ok (_, _) |- _ =>
      let a := fresh "a" in let s := fresh "s" in
      let E1 := fresh "E" in let E2 := fresh "E" in
      apply bind_Ok_inv in E; destruct E as (a & s & E1 & E2)
  | E : lift _ _ = Ok (_, _) |- _ =>
      let E1 := fresh "E" in
      apply lift_Ok_inv in E; destruct E as (E1 & ->)
  | E : ret _ _ = Ok (_, _) |- _ =>
      apply ret_Ok_inv in E; destruct E as (-> & ->)
  | E : rbind _ _ = Ok _ |- _ =>
      let a := fresh "a" in
      let E1 := fresh "E" in let E2 := fresh "E" in
      apply rbind_Ok_inv in E; destruct E as (a & E1 & E2)
  | E : raise _ _ = Ok _ |- _ => discriminate E
  | E : Raise _ = Ok _ |- _ => discriminate E
  end.

(** Run a call on concrete arguments, one bind at a time. *)
Ltac run_step :=
  cbv zeta;
  first [ erewrite bind_lift_Ok; [|reflexivity]
        | erewrite bind_Ok; [|reflexivity] ].

(** ** Encoder-decoder composition *)

Section EncoderDecoderFacts.
Context `{TorchBackend}.

(** C1. [EncoderDecoder.forward] hands the source tokens to the encoder
    as they are, then looks up [self.decode], an attribute that does not
    exist: the call raises whatever the encoder raised, or else
    [AttributeError], and no input makes it return.  Neither embedding,
    the decoder nor the generator takes part. *)
Theorem EncoderDecoder_forward_never_returns :
  forall (object : Type) (self : EncoderDecoder.t object)
         (src tgt src_mask tgt_mask : object) (st : torch_state),
    EncoderDecoder.forward self src tgt src_mask tgt_mask st
    = match EncoderDecoder.encoder self [src; src_mask] st with
      | Ok _ => Raise (AttributeError "EncoderDecoder" "decode")
      | Raise e => Raise e
      end
    /\ forall r, EncoderDecoder.forward self src tgt src_mask tgt_mask st <> Ok r.
Proof.
  intros object self src tgt src_mask tgt_mask st.
  assert (E : EncoderDecoder.forward self src tgt src_mask tgt_mask st
    = match EncoderDecoder.encoder self [src; src_mask] st with
      | Ok _ => Raise (AttributeError "EncoderDecoder" "decode")
      | Raise e => Raise e
      end).
  { unfold EncoderDecoder.forward, bind.
    destruct (EncoderDecoder.encoder self [src; src_mask] st) as [[enc s]|e];
      reflexivity. }
  split; [exact E|].
  intros r. rewrite E.
  destruct (EncoderDecoder.encoder self [src; src_mask] st); discriminate.
Qed.

End EncoderDecoderFacts.

(** ** Multi-head attention: what [forward] hands back *)

Section AttentionResult.
Context `{TorchBackend}.

Lemma MultiHeadAttention_forward_Ok_None self q k v mask st r st' :
  MultiHeadAttention.forward self q k v mask st = Ok (r, st') -> r = PyNone.
Proof.
  unfold MultiHeadAttention.forward. intros E. inv_run. reflexivity.
Qed.

End AttentionResult.

(** ** Construction of the library modules *)

Section ConstructionFacts.
Context `{TorchBackend}.

Lemma fresh_parameter_Ok s st :
  exists t st', fresh_parameter s st = Ok (t, st') /\ shape t = s.
Proof.
  unfold fresh_parameter.
  destruct (init_values (default_generator st) s) as [f g]. eauto.
Qed.

Lemma check_sizes_Ok l :
  Forall (fun z => (0 <= z)%Z) l -> check_sizes l = Ok (map Z.to_nat l).
Proof.
  intros F. unfold check_sizes.
  replace (forallb (fun z => (0 <=? z)%Z) l) with true; [reflexivity|].
  symmetry. apply forallb_forall. intros z Hz.
  apply Z.leb_le. rewrite Forall_forall in F. auto.
Qed.

Lemma check_sizes_Ok_inv l s :
  check_sizes l = Ok s ->
  Forall (fun z => (0 <= z)%Z) l /\ s = map Z.to_nat l.
Proof.
  unfold check_sizes.
  destruct (forallb (fun z => (0 <=? z)%Z) l) eqn:E; [|discriminate].
  intros E'. injection E' as <-. split; [|reflexivity].
  apply Forall_forall. intros z Hz. apply Z.leb_le.
  rewrite forallb_forall in E. auto.
Qed.

Lemma nn_Linear_Ok_inv i o b st l st' :
  nn_Linear i o b st = Ok (l, st') ->
  (0 <= i)%Z /\ (0 <= o)%Z /\
  in_features l = Z.to_nat i /\ out_features l = Z.to_nat o /\
  (bias l = None <-> b = false).
Proof.
  unfold nn_Linear. intros E.
  apply bind_Ok_inv in E as (s & s1 & Es & E).
  apply lift_Ok_inv in Es as (Es & ->).
  apply bind_Ok_inv in E as (w & s2 & Ew & E).
  apply bind_Ok_inv in E as (ob & s3 & Eb & E).
  apply ret_Ok_inv in E as (-> & ->).
  apply check_sizes_Ok_inv in Es. destruct Es as (F & ->).
  inversion F as [|? ? Ho F']; subst. inversion F' as [|? ? Hi ?]; subst.
  simpl. repeat split; auto.
  - intros ->. destruct b; [|reflexivity].
    apply bind_Ok_inv in Eb as (t & s4 & _ & Eb).
    apply ret_Ok_inv in Eb as (Eb & _). discriminate.
  - intros ->. apply ret_Ok_inv in Eb as (-> & _). reflexivity.
Qed.

Lemma nn_Linear_Ok i o b st :
  (0 <= i)%Z -> (0 <= o)%Z ->
  exists l st', nn_Linear i o b st = Ok (l, st').
Proof.
  intros Hi Ho. unfold nn_Linear.
  erewrite bind_lift_Ok; [|apply check_sizes_Ok; auto].
  destruct (fresh_parameter_Ok (map Z.to_nat [o; i]) st) as (w & s1 & Ew & _).
  erewrite bind_Ok; [|exact Ew].
  destruct b.
  - destruct (fresh_parameter_Ok [Z.to_nat o] s1) as (t & s2 & Et & _).
    unfold bind at 1. unfold bind at 1. rewrite Et. simpl.
    unfold ret. eauto.
  - unfold bind, ret. eauto.
Qed.

Lemma nn_Dropout_Ok_inv prob d :
  nn_Dropout prob = Ok d ->
  (0 <= prob)%Q /\ (prob <= 1)%Q /\ p d = prob /\ training d = true.
Proof.
  unfold nn_Dropout.
  destruct (Qlt_le_dec prob 0); [discriminate|].
  destruct (Qlt_le_dec 1 prob); [discriminate|].
  intros E. injection E as <-. auto.
Qed.

Lemma nn_Dropout_Ok prob :
  (0 <= prob)%Q -> (prob <= 1)%Q ->
  nn_Dropout prob = Ok {| p := prob; training := true |}.
Proof.
  intros H0 H1. unfold nn_Dropout.
  destruct (Qlt_le_dec prob 0) as [L|_].
  - exfalso. apply (Qlt_not_le _ _ L H0).
  - destruct (Qlt_le_dec 1 prob) as [L|_]; [|reflexivity].
    exfalso. apply (Qlt_not_le _ _ L H1).
Qed.

Lemma sqrt_IZR_zero z : (0 <= z)%Z -> sqrt (IZR z) = 0%R -> z = 0%Z.
Proof.
  intros Hz E. apply eq_IZR_R0. apply sqrt_eq_0; [|exact E].
  apply IZR_le in Hz. exact Hz.
Qed.

Lemma sqrt_IZR_pos z : (0 < z)%Z -> sqrt (IZR z) <> 0%R.
Proof.
  intros Hz E. apply sqrt_IZR_zero in E; lia.
Qed.

End ConstructionFacts.

(** ** Construction of multi-head attention *)

Section AttentionConstruction.
Context `{TorchBackend}.

Lemma Prepare_init_Ok_inv d h dk b st pm st' :
  PrepareForMultiHeadAttention.init d h dk b st = Ok (pm, st') ->
  (0 <= d)%Z /\ (0 <= h * dk)%Z /\
  PrepareForMultiHeadAttention.heads pm = h /\
  PrepareForMultiHeadAttention.d_k pm = dk /\
  in_features (PrepareForMultiHeadAttention.linear pm) = Z.to_nat d /\
  out_features (PrepareForMultiHeadAttention.linear pm) = Z.to_nat (h * dk) /\
  bias (PrepareForMultiHeadAttention.linear pm) <> None.
Proof.
  unfold PrepareForMultiHeadAttention.init. intros E.
  apply bind_Ok_inv in E as (l & s1 & El & E).
  apply ret_Ok_inv in E as (-> & ->).
  apply nn_Linear_Ok_inv in El as (Hd & Ho & Ei & Eo & Eb).
  simpl. repeat split; auto.
  intros N. apply Eb in N. discriminate N.
Qed.

Lemma Prepare_init_Ok d h dk b st :
  (0 <= d)%Z -> (0 <= h * dk)%Z ->
  exists pm st', PrepareForMultiHeadAttention.init d h dk b st = Ok (pm, st').
Proof.
  intros Hd Ho. unfold PrepareForMultiHeadAttention.init.
  destruct (nn_Linear_Ok nn_Linear_default_bias st Hd Ho) as (l & s1 & El).
  erewrite bind_Ok; [|exact El]. unfold ret. eauto.
Qed.

Lemma MultiHeadAttention_init_Ok_inv heads d_model prob b st m st' :
  MultiHeadAttention.init heads d_model prob b st = Ok (m, st') ->
  (0 < heads <= d_model)%Z /\ (0 <= prob)%Q /\ (prob <= 1)%Q /\
  MultiHeadAttention.heads m = heads /\
  MultiHeadAttention.d_k m = (d_model / heads)%Z /\
  (0 < MultiHeadAttention.d_k m)%Z /\
  MultiHeadAttention.scale m = (1 / sqrt (IZR (MultiHeadAttention.d_k m)))%R /\
  dim (MultiHeadAttention.softmax m) = 1 /\
  bias (PrepareForMultiHeadAttention.linear (MultiHeadAttention.query m)) <> None /\
  bias (PrepareForMultiHeadAttention.linear (MultiHeadAttention.key m)) <> None /\
  bias (PrepareForMultiHeadAttention.linear (MultiHeadAttention.value m)) <> None.
Proof.
  unfold MultiHeadAttention.init. intros E.
  apply bind_Ok_inv in E as (dk & s1 & Edk & E).
  apply lift_Ok_inv in Edk as (Edk & ->).
  apply bind_Ok_inv in E as (q & s2 & Eq & E).
  apply bind_Ok_inv in E as (k & s3 & Ek & E).
  apply bind_Ok_inv in E as (v & s4 & Ev & E).
  apply bind_Ok_inv in E as (o & s5 & Eo & E).
  apply bind_Ok_inv in E as (dr & s6 & Edr & E).
  apply lift_Ok_inv in Edr as (Edr & ->).
  apply bind_Ok_inv in E as (root & s7 & Eroot & E).
  apply lift_Ok_inv in Eroot as (Eroot & ->).
  apply bind_Ok_inv in E as (sc & s8 & Esc & E).
  apply lift_Ok_inv in Esc as (Esc & ->).
  apply ret_Ok_inv in E as (-> & ->). simpl.
  unfold py_floordiv in Edk.
  destruct (heads =? 0)%Z eqn:Hh; [discriminate|].
  injection Edk as <-. apply Z.eqb_neq in Hh.
  apply Prepare_init_Ok_inv in Eq as (Hd & Hhd & _ & _ & _ & _ & Bq).
  apply Prepare_init_Ok_inv in Ek as (_ & _ & _ & _ & _ & _ & Bk).
  apply Prepare_init_Ok_inv in Ev as (_ & _ & _ & _ & _ & _ & Bv).
  apply nn_Dropout_Ok_inv in Edr as (P0 & P1 & _ & _).
  unfold math_sqrt in Eroot.
  destruct (d_model / heads <? 0)%Z eqn:Hneg; [discriminate|].
  injection Eroot as <-. apply Z.ltb_ge in Hneg.
  unfold py_truediv in Esc.
  destruct (Req_dec_T (sqrt (IZR (d_model / heads))) 0) as [Z0|NZ]; [discriminate|].
  injection Esc as <-.
  assert (Hpos : (0 < d_model / heads)%Z).
  { destruct (Z.eq_dec (d_model / heads) 0) as [E0|]; [|lia].
    exfalso. apply NZ. rewrite E0. apply sqrt_0. }
  assert (Hheads : (0 < heads)%Z) by nia.
  repeat split; auto; try lia.
  destruct (Z_le_gt_dec heads d_model) as [L|G]; [exact L|].
  rewrite Z.div_small in Hpos; lia.
Qed.

Lemma MultiHeadAttention_init_Ok heads d_model prob b st :
  (0 < heads <= d_model)%Z -> (0 <= prob)%Q -> (prob <= 1)%Q ->
  exists m st', MultiHeadAttention.init heads d_model prob b st = Ok (m, st').
Proof.
  intros Hh P0 P1. unfold MultiHeadAttention.init.
  assert (Hdk : (0 < d_model / heads)%Z).
  { apply Z.div_str_pos. lia. }
  assert (E0 : py_floordiv d_model heads = Ok (d_model / heads)%Z).
  { unfold py_floordiv. destruct (heads =? 0)%Z eqn:E; [|reflexivity].
    apply Z.eqb_eq in E. lia. }
  erewrite bind_lift_Ok; [|exact E0].
  assert (Hd : (0 <= d_model)%Z) by lia.
  assert (Ho : (0 <= heads * (d_model / heads))%Z) by nia.
  destruct (Prepare_init_Ok heads (d_model / heads) b st Hd Ho) as (q & s1 & Eq).
  erewrite bind_Ok; [|exact Eq].
  destruct (Prepare_init_Ok heads (d_model / heads) b s1 Hd Ho) as (k & s2 & Ek).
  erewrite bind_Ok; [|exact Ek].
  destruct (Prepare_init_Ok heads (d_model / heads) true s2 Hd Ho) as (v & s3 & Ev).
  erewrite bind_Ok; [|exact Ev].
  destruct (nn_Linear_Ok nn_Linear_default_bias s3 Hd Hd) as (o & s4 & Eo).
  erewrite bind_Ok; [|exact Eo].
  erewrite bind_lift_Ok; [|apply nn_Dropout_Ok; assumption].
  assert (E1 : math_sqrt (d_model / heads) = Ok (sqrt (IZR (d_model / heads)))).
  { unfold math_sqrt. destruct (d_model / heads <? 0)%Z eqn:E; [|reflexivity].
    apply Z.ltb_lt in E. lia. }
  erewrite bind_lift_Ok; [|exact E1].
  assert (E2 : py_truediv 1 (sqrt (IZR (d_model / heads)))
               = Ok (1 / sqrt (IZR (d_model / heads)))%R).
  { unfold py_truediv.
    destruct (Req_dec_T (sqrt (IZR (d_model / heads))) 0) as [Z0|_]; [|reflexivity].
    exfalso. revert Z0. apply sqrt_IZR_pos. exact Hdk. }
  erewrite bind_lift_Ok; [|exact E2].
  unfold ret. eauto.
Qed.

(** C6, as amended.  Construction makes no divisibility check: whenever
    0 < heads <= model_dim and the dropout probability lies in [0, 1],
    it succeeds and fixes head_dim as the floor of model_dim / heads;
    when model_dim is divisible by heads this is the exact quotient. *)
Theorem MultiHeadAttention_init_head_dim :
  forall heads d_model prob b st,
    (0 < heads <= d_model)%Z -> (0 <= prob)%Q -> (prob <= 1)%Q ->
    exists m st',
      MultiHeadAttention.init heads d_model prob b st = Ok (m, st') /\
      MultiHeadAttention.d_k m = (d_model / heads)%Z /\
      ((d_model mod heads = 0)%Z ->
       (heads * MultiHeadAttention.d_k m = d_model)%Z).
Proof.
  intros heads d_model prob b st Hh P0 P1.
  destruct (MultiHeadAttention_init_Ok b st Hh P0 P1) as (m & st' & E).
  exists m, st'. split; [exact E|].
  apply MultiHeadAttention_init_Ok_inv in E as (_ & _ & _ & _ & Edk & _).
  split; [exact Edk|].
  intros Hmod. rewrite Edk.
  pose proof (Z.div_mod d_model heads ltac:(lia)). lia.
Qed.

(** C10.  Every construction that succeeds gives all three projections a
    bias, whatever the argument [bias]: [PrepareForMultiHeadAttention]
    receives the argument and calls [nn.Linear] without it.  With
    [bias=False] the query and key projections still carry a bias. *)
Theorem MultiHeadAttention_init_projections_biased :
  forall heads d_model prob b st m st',
    MultiHeadAttention.init heads d_model prob b st = Ok (m, st') ->
    bias (PrepareForMultiHeadAttention.linear (MultiHeadAttention.query m)) <> None /\
    bias (PrepareForMultiHeadAttention.linear (MultiHeadAttention.key m)) <> None /\
    bias (PrepareForMultiHeadAttention.linear (MultiHeadAttention.value m)) <> None.
Proof.
  intros heads d_model prob b st m st' E.
  apply MultiHeadAttention_init_Ok_inv in E
    as (_ & _ & _ & _ & _ & _ & _ & _ & Bq & Bk & Bv).
  auto.
Qed.

End AttentionConstruction.

(** ** Shapes through the attention projections *)

Section AttentionShapes.
Context `{TorchBackend}.

Lemma Linear_forward_Ok_inv l x y :
  Linear_forward l x = Ok y ->
  shape y = removelast (shape x) ++ [out_features l] /\
  shape x <> [] /\
  forall idx,
    at_ y idx =
    let dot := fsum (map (fun k =>
                 fmul (at_ x (removelast idx ++ [k]))
                      (at_ (weight l) [last idx 0; k]))
                 (seq 0 (in_features l))) in
    match bias l with
    | Some b => fadd dot (at_ b [last idx 0])
    | None => dot
    end.
Proof.
  unfold Linear_forward.
  destruct (shape x) as [|d0 s] eqn:Es; [discriminate|].
  destruct (rev (d0 :: s)) as [|d r]; [discriminate|].
  destruct (d =? in_features l); [|discriminate].
  intros E. injection E as <-. simpl.
  split; [reflexivity|]. split; [discriminate|]. reflexivity.
Qed.

Lemma view_Ok_inv {A} (t : Tensor A) s y :
  view t s = Ok y ->
  shape y = s /\
  forall idx, at_ y idx = at_ t (unravel (shape t) (ravel s idx)).
Proof.
  unfold view. destruct (numel (shape t) =? numel s); [|discriminate].
  intros E. injection E as <-. simpl. auto.
Qed.

Lemma Prepare_forward_Ok_inv pm x y :
  PrepareForMultiHeadAttention.forward pm x = Ok y ->
  exists h d y0,
    Linear_forward (PrepareForMultiHeadAttention.linear pm) x = Ok y0 /\
    shape y = removelast (shape x) ++ [h; d] /\
    forall idx, exists idx0, at_ y idx = at_ y0 idx0.
Proof.
  unfold PrepareForMultiHeadAttention.forward, view_sizes. intros E.
  apply rbind_Ok_inv in E as (y0 & E0 & E).
  apply rbind_Ok_inv in E as (hs & Ehs & E).
  apply check_sizes_Ok_inv in Ehs as (_ & ->).
  apply view_Ok_inv in E as (Es & Ev).
  exists (Z.to_nat (PrepareForMultiHeadAttention.heads pm)),
         (Z.to_nat (PrepareForMultiHeadAttention.d_k pm)), y0.
  split; [exact E0|]. split; [exact Es|].
  intros idx. rewrite Ev. eauto.
Qed.

Lemma prepare_mask_decided self mask lq b qrest lk krest :
  3 <= List.length (shape mask) ->
  MultiHeadAttention.prepare_mask self mask (lq :: b :: qrest) (lk :: krest)
  = if mask_contract (shape mask) lq lk b
    then Ok (unsqueeze_last mask)
    else Raise AssertionError.
Proof.
  intros L. unfold MultiHeadAttention.prepare_mask, shape_at, mask_contract.
  destruct (shape mask) as [|m0 [|m1 [|m2 mrest]]]; simpl in L; try lia.
  simpl.
  destruct (m0 =? 1) eqn:E0; simpl.
  - destruct (m1 =? lk) eqn:E1; simpl; [|reflexivity].
    destruct (m2 =? 1) eqn:E2; simpl; [reflexivity|].
    destruct (m2 =? b); reflexivity.
  - destruct (m0 =? lq) eqn:E0'; simpl; [|reflexivity].
    destruct (m1 =? lk) eqn:E1; simpl; [|reflexivity].
    destruct (m2 =? 1) eqn:E2; simpl; [reflexivity|].
    destruct (m2 =? b); reflexivity.
Qed.

Lemma prepare_mask_short self mask qs ks :
  List.length (shape mask) < 3 ->
  exists e, MultiHeadAttention.prepare_mask self mask qs ks = Raise e.
Proof.
  intros L. unfold MultiHeadAttention.prepare_mask, shape_at.
  destruct (shape mask) as [|m0 [|m1 [|m2 mrest]]]; simpl in L; try lia; simpl.
  - eauto.
  - destruct (m0 =? 1); simpl.
    + eauto.
    + destruct (py_index qs 0) as [q0|e]; simpl; [|eauto].
      destruct (m0 =? q0); simpl; eauto.
  - destruct (m0 =? 1); simpl.
    + destruct (py_index ks 0) as [k0|e]; simpl; [|eauto].
      destruct (m1 =? k0); simpl; eauto.
    + destruct (py_index qs 0) as [q0|e]; simpl; [|eauto].
      destruct (m0 =? q0); simpl; [|eauto].
      destruct (py_index ks 0) as [k0|e]; simpl; [|eauto].
      destruct (m1 =? k0); simpl; eauto.
Qed.

Lemma einsum_scores_Ok_inv x y s :
  einsum_ibhd_jbhd_ijbh x y = Ok s ->
  exists xi xb xh xd yj yb yh yd nb nh nd,
    shape x = [xi; xb; xh; xd] /\ shape y = [yj; yb; yh; yd] /\
    einsum_dim xb yb = Ok nb /\ einsum_dim xh yh = Ok nh /\
    einsum_dim xd yd = Ok nd /\
    shape s = [xi; yj; nb; nh] /\
    forall idx,
      at_ s idx =
      match idx with
      | [i; j; b; h] =>
          fsum (map (fun d =>
            fmul (at_ x [i; bcomp xb b; bcomp xh h; bcomp xd d])
                 (at_ y [j; bcomp yb b; bcomp yh h; bcomp yd d]))
            (seq 0 nd))
      | _ => Fin 0
      end.
Proof.
  unfold einsum_ibhd_jbhd_ijbh.
  destruct (shape x) as [|xi [|xb [|xh [|xd [|]]]]]; try discriminate.
  destruct (shape y) as [|yj [|yb [|yh [|yd [|]]]]]; try discriminate.
  intros E.
  apply rbind_Ok_inv in E as (nb & Eb & E).
  apply rbind_Ok_inv in E as (nh & Eh & E).
  apply rbind_Ok_inv in E as (nd & Ed & E).
  injection E as <-. simpl.
  exists xi, xb, xh, xd, yj, yb, yh, yd, nb, nh, nd.
  repeat split; auto.
Qed.

End AttentionShapes.

(** ** The mask contract *)

Section MaskContract.
Context `{TorchBackend}.

Lemma attention_weights_Ok_inv self q k v mask attn vp :
  MultiHeadAttention.attention_weights self q k v mask = Ok (attn, vp) ->
  exists qp kp scores scores',
    List.length (shape q) = 3 /\
    PrepareForMultiHeadAttention.forward (MultiHeadAttention.query self) q = Ok qp /\
    PrepareForMultiHeadAttention.forward (MultiHeadAttention.key self) k = Ok kp /\
    PrepareForMultiHeadAttention.forward (MultiHeadAttention.value self) v = Ok vp /\
    einsum_ibhd_jbhd_ijbh qp kp = Ok scores /\
    match mask with
    | Some m =>
        exists m',
          MultiHeadAttention.prepare_mask self m (shape qp) (shape kp) = Ok m' /\
          masked_fill (tmap (fun x => fmul x (Fin (MultiHeadAttention.scale self))) scores)
                      (eq_zero m') NInf = Ok scores'
    | None =>
        scores' = tmap (fun x => fmul x (Fin (MultiHeadAttention.scale self))) scores
    end /\
    softmax_along (dim (MultiHeadAttention.softmax self)) scores' = Ok attn.
Proof.
  unfold MultiHeadAttention.attention_weights, MultiHeadAttention.get_scores,
    Softmax_forward.
  intros E.
  apply rbind_Ok_inv in E as (u & Eu & E).
  apply rbind_Ok_inv in E as (qp & Eq & E).
  apply rbind_Ok_inv in E as (kp & Ek & E).
  apply rbind_Ok_inv in E as (vp' & Ev & E).
  apply rbind_Ok_inv in E as (scores & Es & E).
  apply rbind_Ok_inv in E as (om & Em & E).
  apply rbind_Ok_inv in E as (scores' & Ef & E).
  apply rbind_Ok_inv in E as (attn' & Ea & E).
  injection E as <- <-.
  exists qp, kp, scores, scores'.
  split.
  { unfold unpack3 in Eu.
    destruct (shape q) as [|? [|? [|? [|]]]]; try discriminate. reflexivity. }
  repeat (split; [assumption|]).
  split; [|exact Ea].
  destruct mask as [m|].
  - apply rmap_Ok_inv in Em as (m' & Em & ->). exists m'. auto.
  - injection Em as <-. injection Ef as <-. reflexivity.
Qed.

(** C8.  A mask that meets the contract is accepted and comes back with
    one more axis, of size 1, for the heads; a mask of three or more
    axes that breaks it fails the assertion, and [forward] then raises
    before the softmax is reached. *)
Theorem MultiHeadAttention_mask_contract :
  forall self mask lq lk b,
    (mask_contract (shape mask) lq lk b = true ->
     forall qrest krest,
       MultiHeadAttention.prepare_mask self mask (lq :: b :: qrest) (lk :: krest)
       = Ok (unsqueeze_last mask)
       /\ shape (unsqueeze_last mask) = shape mask ++ [1])
    /\
    (mask_contract (shape mask) lq lk b = false ->
     (3 <= List.length (shape mask) ->
      forall qrest krest,
        MultiHeadAttention.prepare_mask self mask (lq :: b :: qrest) (lk :: krest)
        = Raise AssertionError)
     /\
     forall q k v d bk dk st,
       shape q = [lq; b; d] -> shape k = [lk; bk; dk] ->
       (exists e, MultiHeadAttention.attention_weights self q k v (Some mask) = Raise e)
       /\ (exists e, MultiHeadAttention.forward self q k v (Some mask) st = Raise e)).
Proof.
  intros self mask lq lk b. split.
  - intros C qrest krest. split; [|reflexivity].
    assert (L : 3 <= List.length (shape mask)).
    { unfold mask_contract in C.
      destruct (shape mask) as [|? [|? [|? ?]]]; try discriminate; simpl; lia. }
    rewrite (prepare_mask_decided self mask lq b qrest lk krest L), C.
    reflexivity.
  - intros C. split.
    + intros L qrest krest.
      rewrite (prepare_mask_decided self mask lq b qrest lk krest L), C.
      reflexivity.
    + intros q k v d bk dk st Sq Sk.
      assert (R : exists e,
        MultiHeadAttention.attention_weights self q k v (Some mask) = Raise e).
      { destruct (MultiHeadAttention.attention_weights self q k v (Some mask))
          as [[attn vp]|e] eqn:E; [|eauto].
        exfalso.
        apply attention_weights_Ok_inv in E
          as (qp & kp & s & s' & _ & Eq & Ek & _ & _ & (m' & Em & _) & _).
        apply Prepare_forward_Ok_inv in Eq as (h1 & d1 & _ & _ & Sqp & _).
        apply Prepare_forward_Ok_inv in Ek as (h2 & d2 & _ & _ & Skp & _).
        rewrite Sq in Sqp. rewrite Sk in Skp. simpl in Sqp, Skp.
        rewrite Sqp, Skp in Em.
        destruct (le_lt_dec 3 (List.length (shape mask))) as [L|L].
        * rewrite (prepare_mask_decided self mask lq b [h1; d1] lk [bk; h2; d2] L), C
            in Em.
          discriminate.
        * destruct (prepare_mask_short self mask [lq; b; h1; d1] [lk; bk; h2; d2] L)
            as (e & Ee).
          rewrite Ee in Em. discriminate. }
      split; [exact R|].
      destruct R as (e & Ee). exists e.
      unfold MultiHeadAttention.forward, bind, lift. rewrite Ee. reflexivity.
Qed.

End MaskContract.

(** ** Broadcasting facts *)

Section BroadcastFacts.

Lemma broadcast_rev_same a : broadcast_rev a a = Ok a.
Proof.
  induction a as [|x a IH]; simpl; [reflexivity|].
  rewrite Nat.eqb_refl, IH. reflexivity.
Qed.

Lemma broadcast_shapes_same s : broadcast_shapes s s = Ok s.
Proof.
  unfold broadcast_shapes. rewrite broadcast_rev_same. simpl.
  rewrite rev_involutive. reflexivity.
Qed.

Lemma in_boundsb_length idx s :
  in_boundsb idx s = true -> List.length idx = List.length s.
Proof.
  revert s. induction idx as [|i idx IH]; intros [|d s]; simpl;
    try discriminate; [reflexivity|].
  intros E. apply andb_prop in E as (_ & E). f_equal. auto.
Qed.

Lemma bindex_in_bounds s idx :
  in_boundsb idx s = true -> bindex s idx = idx.
Proof.
  intros B. unfold bindex.
  rewrite (in_boundsb_length _ _ B), Nat.sub_diag. simpl.
  revert s B. induction idx as [|i idx IH]; intros [|d s]; simpl;
    try discriminate; [reflexivity|].
  intros E. apply andb_prop in E as (Hi & E).
  rewrite (IH s E). f_equal.
  destruct (d =? 1) eqn:D; [|reflexivity].
  apply Nat.eqb_eq in D. apply Nat.ltb_lt in Hi. lia.
Qed.

Lemma broadcast_op_Ok_inv {A B C} (f : A -> B -> C) x y z :
  broadcast_op f x y = Ok z ->
  broadcast_shapes (shape x) (shape y) = Ok (shape z) /\
  forall idx,
    at_ z idx = f (at_ x (bindex (shape x) idx)) (at_ y (bindex (shape y) idx)).
Proof.
  unfold broadcast_op. intros E.
  apply rbind_Ok_inv in E as (s & Es & E). injection E as <-. simpl. auto.
Qed.

(** On operands of one shape the operation is entry by entry. *)
Lemma broadcast_op_same_shape {A B C} (f : A -> B -> C) x y z :
  broadcast_op f x y = Ok z -> shape x = shape y ->
  shape z = shape x /\
  forall idx, in_boundsb idx (shape x) = true ->
    at_ z idx = f (at_ x idx) (at_ y idx).
Proof.
  intros E S. apply broadcast_op_Ok_inv in E as (Es & Ev).
  rewrite <- S, broadcast_shapes_same in Es. injection Es as Es.
  split; [auto|].
  intros idx Hb. rewrite Ev, <- S, (bindex_in_bounds _ _ Hb). reflexivity.
Qed.

End BroadcastFacts.

(** ** The feed-forward sublayer *)

Section FeedForwardFacts.
Context `{TorchBackend}.

Lemma Dropout_forward_Ok_inv d v st t st' :
  Dropout_forward d v st = Ok (t, st') -> exists t0, v = PyTensor t0.
Proof.
  destruct v as [|t0]; simpl; [discriminate|eauto].
Qed.

(** C9.  A feed-forward module comes out of its constructor with a gate
    projection exactly when gating was asked for, and its [forward]
    returns exactly when these steps do, in this order: the hidden
    projection, the activation, with gating the product by the gate
    projection of the same input (entry by entry when the two have one
    shape), dropout, and the output projection. *)
Theorem FeedForward_forward_order :
  forall d_model d_ff dr act gated b1 b2 bg st0 self st1,
    FeedForward.init d_model d_ff dr act gated b1 b2 bg st0 = Ok (self, st1) ->
    (FeedForward.is_gated self = gated /\
     in_features (FeedForward.layer1 self) = Z.to_nat d_model /\
     out_features (FeedForward.layer1 self) = Z.to_nat d_ff /\
     in_features (FeedForward.layer2 self) = Z.to_nat d_ff /\
     out_features (FeedForward.layer2 self) = Z.to_nat d_model /\
     (gated = false -> FeedForward.linear_v self = None) /\
     (gated = true -> exists lv,
        FeedForward.linear_v self = Some lv /\
        in_features lv = Z.to_nat d_model /\ out_features lv = Z.to_nat d_ff))
    /\
    forall x st out st',
      FeedForward.forward self x st = Ok (out, st') <->
      exists h a s1 pre dropped,
        Linear_forward (FeedForward.layer1 self) x = Ok h /\
        act h st = Ok (PyTensor a, s1) /\
        (if gated
         then exists lv v,
                FeedForward.linear_v self = Some lv /\
                Linear_forward lv x = Ok v /\
                broadcast_op fmul a v = Ok pre /\
                (shape a = shape v ->
                 shape pre = shape a /\
                 forall idx, in_boundsb idx (shape a) = true ->
                   at_ pre idx = fmul (at_ a idx) (at_ v idx))
         else pre = a) /\
        Dropout_forward (FeedForward.dropout self) (PyTensor pre) s1
          = Ok (dropped, st') /\
        Linear_forward (FeedForward.layer2 self) dropped = Ok out.
Proof.
  intros d_model d_ff dr act gated b1 b2 bg st0 self st1 E.
  unfold FeedForward.init in E.
  apply bind_Ok_inv in E as (l1 & s1 & E1 & E).
  apply bind_Ok_inv in E as (l2 & s2 & E2 & E).
  apply bind_Ok_inv in E as (dp & s3 & Ed & E).
  apply lift_Ok_inv in Ed as (Ed & ->).
  apply bind_Ok_inv in E as (lv & s4 & Ev & E).
  apply ret_Ok_inv in E as (-> & ->).
  apply nn_Linear_Ok_inv in E1 as (_ & _ & I1 & O1 & _).
  apply nn_Linear_Ok_inv in E2 as (_ & _ & I2 & O2 & _).
  simpl. split.
  - repeat split; auto.
    + intros ->. apply ret_Ok_inv in Ev as (-> & _). reflexivity.
    + intros ->. apply bind_Ok_inv in Ev as (l & s5 & El & Ev).
      apply ret_Ok_inv in Ev as (-> & _).
      apply nn_Linear_Ok_inv in El as (_ & _ & Iv & Ov & _).
      exists l. auto.
  - intros x st out st'. unfold FeedForward.forward. simpl. split.
    + intros F.
      apply bind_Ok_inv in F as (h & t1 & Fh & F).
      apply lift_Ok_inv in Fh as (Fh & ->).
      apply bind_Ok_inv in F as (g & t2 & Fg & F).
      apply bind_Ok_inv in F as (pv & t3 & Fp & F).
      apply bind_Ok_inv in F as (dropped & t4 & Fd & F).
      apply lift_Ok_inv in F as (F & ->).
      destruct gated.
      * destruct lv as [lv|]; [|discriminate].
        apply bind_Ok_inv in Fp as (v & t5 & Fv & Fp).
        apply lift_Ok_inv in Fv as (Fv & ->).
        apply bind_Ok_inv in Fp as (m & t6 & Fm & Fp).
        apply lift_Ok_inv in Fm as (Fm & ->).
        apply ret_Ok_inv in Fp as (-> & ->).
        destruct g as [|a]; [discriminate|]. simpl in Fm.
        exists h, a. eexists. exists m, dropped.
        split; [exact Fh|]. split; [exact Fg|].
        split; [|split; [exact Fd|exact F]].
        exists lv, v.
        split; [reflexivity|]. split; [exact Fv|]. split; [exact Fm|].
        intros S. apply (broadcast_op_same_shape _ _ _ Fm S).
      * apply ret_Ok_inv in Fp as (-> & ->).
        destruct (Dropout_forward_Ok_inv _ _ _ Fd) as (a & ->).
        exists h, a. eexists. exists a, dropped.
        split; [exact Fh|]. split; [exact Fg|].
        split; [reflexivity|]. split; [exact Fd|exact F].
    + intros (h & a & t1 & pre & dropped & Fh & Fg & Fp & Fd & F).
      erewrite bind_lift_Ok; [|exact Fh].
      erewrite bind_Ok; [|exact Fg].
      destruct gated.
      * destruct Fp as (lv' & v & Elv & Fv & Fm & _).
        rewrite Elv.
        erewrite bind_Ok;
          [|erewrite bind_lift_Ok; [|exact Fv];
            erewrite bind_lift_Ok; [|exact Fm]; reflexivity].
        erewrite bind_Ok; [|exact Fd].
        rewrite F. reflexivity.
      * subst pre.
        erewrite bind_Ok; [|reflexivity].
        erewrite bind_Ok; [|exact Fd].
        rewrite F. reflexivity.
Qed.

End FeedForwardFacts.

(** ** The Transformer layer *)

Section LayerFacts.
Context `{TorchBackend}.

Lemma cross_attention_Ok_iff self x memory src_mask st x' st' :
  TransformerLayer.cross_attention self x memory src_mask st = Ok (x', st') <->
  exists norm z,
    TransformerLayer.norm_src_attn self = Some norm /\
    LayerNorm_forward norm x = Ok z /\
    match TransformerLayer.src_attn self with
    | Some attend =>
        exists a s d,
          attend z memory memory src_mask st = Ok (a, s) /\
          Dropout_forward (TransformerLayer.dropout self) a s = Ok (d, st') /\
          tensor_add x d = Ok x'
    | None => x' = x /\ st' = st
    end.
Proof.
  unfold TransformerLayer.cross_attention. split.
  - intros E.
    destruct (TransformerLayer.norm_src_attn self) as [norm|]; [|discriminate].
    apply bind_Ok_inv in E as (z & s1 & Ez & E).
    apply lift_Ok_inv in Ez as (Ez & ->).
    exists norm, z. split; [reflexivity|]. split; [exact Ez|].
    destruct (TransformerLayer.src_attn self) as [attend|].
    + apply bind_Ok_inv in E as (a & s2 & Ea & E).
      apply bind_Ok_inv in E as (d & s3 & Ed & E).
      apply lift_Ok_inv in E as (E & ->).
      exists a, s2, d. auto.
    + apply ret_Ok_inv in E as (-> & ->). auto.
  - intros (norm & z & -> & Ez & R).
    erewrite bind_lift_Ok; [|exact Ez].
    destruct (TransformerLayer.src_attn self) as [attend|].
    + destruct R as (a & s & d & Ea & Ed & Ex).
      erewrite bind_Ok; [|exact Ea]. erewrite bind_Ok; [|exact Ed].
      rewrite Ex. reflexivity.
    + destruct R as (-> & ->). reflexivity.
Qed.

(** C4.  [TransformerLayer.forward] returns exactly when each of these
    steps does, and returns what they produce: normalisation of [x],
    self-attention on the normalised value, dropout, and the sum with [x]
    itself; with a memory, normalisation of that sum, attention over the
    memory, dropout, and the sum with the value that was normalised;
    without a memory nothing at all, neither a call nor a change of
    state; then normalisation, feed-forward, dropout, and the sum with the
    value that was normalised. *)
Theorem TransformerLayer_forward_prenorm_residual :
  forall self x mask src src_mask st out self' st',
    TransformerLayer.forward self x mask src src_mask st = Ok ((out, self'), st') <->
    exists z1 a1 s1 d1 s2 x1 x2 s3 z3 f s4 d3,
      LayerNorm_forward (TransformerLayer.norm_self_attn self) x = Ok z1 /\
      TransformerLayer.self_attn self z1 z1 z1 mask st = Ok (a1, s1) /\
      Dropout_forward (TransformerLayer.dropout self) a1 s1 = Ok (d1, s2) /\
      tensor_add x d1 = Ok x1 /\
      match src with
      | None => x2 = x1 /\ s3 = s2
      | Some memory =>
          exists norm z2,
            TransformerLayer.norm_src_attn self = Some norm /\
            LayerNorm_forward norm x1 = Ok z2 /\
            match TransformerLayer.src_attn self with
            | Some attend =>
                exists a2 s d2,
                  attend z2 memory memory src_mask s2 = Ok (a2, s) /\
                  Dropout_forward (TransformerLayer.dropout self) a2 s = Ok (d2, s3) /\
                  tensor_add x1 d2 = Ok x2
            | None => x2 = x1 /\ s3 = s2
            end
      end /\
      LayerNorm_forward (TransformerLayer.norm_ff self) x2 = Ok z3 /\
      TransformerLayer.feed_forward self z3 s3 = Ok (f, s4) /\
      Dropout_forward (TransformerLayer.dropout self) f s4 = Ok (d3, st') /\
      tensor_add x2 d3 = Ok out /\
      self' = (if TransformerLayer.is_save_ff_input self
               then TransformerLayer.save_ff_input self z3 else self).
Proof.
  intros self x mask src src_mask st out self' st'. split.
  - intros E. unfold TransformerLayer.forward in E.
    apply bind_Ok_inv in E as (z1 & t1 & Ez1 & E).
    apply lift_Ok_inv in Ez1 as (Ez1 & ->).
    apply bind_Ok_inv in E as (a1 & s1 & Ea1 & E).
    apply bind_Ok_inv in E as (d1 & s2 & Ed1 & E).
    apply bind_Ok_inv in E as (x1 & t2 & Ex1 & E).
    apply lift_Ok_inv in Ex1 as (Ex1 & ->).
    apply bind_Ok_inv in E as (x2 & s3 & Ex2 & E).
    apply bind_Ok_inv in E as (z3 & t3 & Ez3 & E).
    apply lift_Ok_inv in Ez3 as (Ez3 & ->).
    apply bind_Ok_inv in E as (f & s4 & Ef & E).
    apply bind_Ok_inv in E as (d3 & s5 & Ed3 & E).
    apply bind_Ok_inv in E as (x3 & t4 & Ex3 & E).
    apply lift_Ok_inv in Ex3 as (Ex3 & ->).
    apply ret_Ok_inv in E as (E & ->). injection E as <- Es.
    exists z1, a1, s1, d1, s2, x1, x2, s3, z3, f, s4, d3.
    repeat (split; [assumption|]).
    split; [|auto].
    destruct src as [memory|].
    + apply cross_attention_Ok_iff in Ex2. exact Ex2.
    + apply ret_Ok_inv in Ex2 as (-> & ->). auto.
  - intros (z1 & a1 & s1 & d1 & s2 & x1 & x2 & s3 & z3 & f & s4 & d3
            & Ez1 & Ea1 & Ed1 & Ex1 & Ex2 & Ez3 & Ef & Ed3 & Ex3 & Es).
    subst self'. unfold TransformerLayer.forward.
    erewrite bind_lift_Ok; [|exact Ez1].
    erewrite bind_Ok; [|exact Ea1].
    erewrite bind_Ok; [|exact Ed1].
    erewrite bind_lift_Ok; [|exact Ex1].
    assert (B : match src with
                | Some memory => TransformerLayer.cross_attention self x1 memory src_mask
                | None => ret x1
                end s2 = Ok (x2, s3)).
    { destruct src as [memory|].
      - apply cross_attention_Ok_iff. exact Ex2.
      - destruct Ex2 as (-> & ->). reflexivity. }
    erewrite bind_Ok; [|exact B].
    erewrite bind_lift_Ok; [|exact Ez3].
    cbv zeta.
    erewrite bind_Ok; [|exact Ef].
    erewrite bind_Ok; [|exact Ed3].
    erewrite bind_lift_Ok; [|exact Ex3].
    reflexivity.
Qed.

(** With the attention module of [mha.py] as its self-attention, the layer
    never returns: the attention call evaluates to [None], which dropout
    refuses. *)
Lemma TransformerLayer_forward_with_MultiHeadAttention self m x mask src src_mask st :
  TransformerLayer.self_attn self = MultiHeadAttention.forward m ->
  exists e, TransformerLayer.forward self x mask src src_mask st = Raise e.
Proof.
  intros Em.
  destruct (TransformerLayer.forward self x mask src src_mask st)
    as [[[out self'] st']|e] eqn:E; [|eauto].
  exfalso. unfold TransformerLayer.forward in E.
  apply bind_Ok_inv in E as (z1 & t1 & Ez1 & E).
  apply bind_Ok_inv in E as (a1 & s1 & Ea & E).
  apply bind_Ok_inv in E as (d1 & s2 & Ed & _).
  rewrite Em in Ea. apply MultiHeadAttention_forward_Ok_None in Ea. subst a1.
  discriminate Ed.
Qed.

End LayerFacts.

(** ** The embedding front end *)

Section EmbeddingFacts.
Context `{TorchBackend}.

(** C5.  The fixed variant never returns: after the slice it asks the
    tensor for [required_grad_], a name [torch.Tensor] does not have (the
    learned variant spells it [requires_grad_]).  The call raises
    [AttributeError] on every token tensor with at least one axis. *)
Theorem EmbeddingsWithPositionalEncoding_forward_raises :
  forall (self : EmbeddingsWithPositionalEncoding.t) (x : Tensor Z) (st : torch_state),
    EmbeddingsWithPositionalEncoding.forward self x st
    = match shape x,
            shape (data (EmbeddingsWithPositionalEncoding.positional_encodings self))
      with
      | _ :: _, _ :: _ => Raise (AttributeError "Tensor" "required_grad_")
      | _, _ => Raise IndexError
      end.
Proof.
  intros self x st.
  unfold EmbeddingsWithPositionalEncoding.forward, bind, lift, shape_at,
    grad_slice_to, is_grad_enabled, slice_to, bind, lift, ret.
  destruct (shape x) as [|n xs]; simpl; [reflexivity|].
  destruct (shape (data (EmbeddingsWithPositionalEncoding.positional_encodings self)))
    as [|l ps]; simpl; reflexivity.
Qed.

(** The learned variant, while gradients are recorded: the slice of a
    parameter that requires a gradient is not a leaf, and
    [requires_grad_(False)] refuses it. *)
Lemma EmbeddingsWithLearnedPositionalEncoding_forward_grad self x st n xs l ps :
  shape x = n :: xs ->
  shape (data (EmbeddingsWithLearnedPositionalEncoding.positional_encodings self))
    = l :: ps ->
  grad_enabled st = true ->
  requires_grad (EmbeddingsWithLearnedPositionalEncoding.positional_encodings self)
    = true ->
  EmbeddingsWithLearnedPositionalEncoding.forward self x st = Raise RuntimeError.
Proof.
  intros Sx Sp G R.
  unfold EmbeddingsWithLearnedPositionalEncoding.forward, bind, lift, shape_at,
    grad_slice_to, is_grad_enabled, slice_to, bind, lift, ret.
  rewrite Sx. simpl. rewrite Sp, G, R. simpl. reflexivity.
Qed.

Lemma broadcast_shapes_rows n b d m :
  broadcast_shapes [n; b; d] [m; 1; d]
  = if n =? m then Ok [n; b; d]
    else if n =? 1 then Ok [m; b; d]
    else if m =? 1 then Ok [n; b; d]
    else Raise RuntimeError.
Proof.
  unfold broadcast_shapes. simpl. rewrite Nat.eqb_refl.
  destruct (b =? 1) eqn:Eb;
    [apply Nat.eqb_eq in Eb; subst b|];
    destruct (n =? m); [reflexivity| |reflexivity|];
    destruct (n =? 1); [reflexivity| |reflexivity|];
    destruct (m =? 1); reflexivity.
Qed.

Lemma tensor_add_rows_mismatch (e pe : Tensor float) n b d m :
  shape e = [n; b; d] -> shape pe = [m; 1; d] ->
  n <> m -> n <> 1 -> m <> 1 ->
  tensor_add e pe = Raise RuntimeError.
Proof.
  intros Se Sp Hnm Hn Hm.
  unfold tensor_add, broadcast_op. rewrite Se, Sp, broadcast_shapes_rows.
  apply Nat.eqb_neq in Hnm, Hn, Hm. rewrite Hnm, Hn, Hm. reflexivity.
Qed.

Lemma tensor_add_rows_broadcast (e pe : Tensor float) n b d m :
  shape e = [n; b; d] -> shape pe = [m; 1; d] ->
  m = n \/ m = 1 ->
  exists out,
    tensor_add e pe = Ok out /\ shape out = [n; b; d] /\
    forall i j c, i < n -> j < b -> c < d ->
      at_ out [i; j; c] = fadd (at_ e [i; j; c]) (at_ pe [bcomp m i; 0; c]).
Proof.
  intros Se Sp Hm.
  unfold tensor_add, broadcast_op. rewrite Se, Sp, broadcast_shapes_rows.
  assert (Es : (if n =? m then Ok [n; b; d]
                else if n =? 1 then Ok [m; b; d]
                else if m =? 1 then Ok [n; b; d]
                else Raise RuntimeError) = Ok [n; b; d]).
  { destruct Hm as [->| ->].
    - rewrite Nat.eqb_refl. reflexivity.
    - destruct (n =? 1); reflexivity. }
  rewrite Es. simpl. eexists. split; [reflexivity|]. split; [reflexivity|].
  intros i j c Hi Hj Hc. simpl. unfold bindex, bcomp. simpl.
  replace (if n =? 1 then 0 else i) with i
    by (destruct (n =? 1) eqn:E; [apply Nat.eqb_eq in E; lia | reflexivity]).
  replace (if b =? 1 then 0 else j) with j
    by (destruct (b =? 1) eqn:E; [apply Nat.eqb_eq in E; lia | reflexivity]).
  replace (if d =? 1 then 0 else c) with c
    by (destruct (d =? 1) eqn:E; [apply Nat.eqb_eq in E; lia | reflexivity]).
  reflexivity.
Qed.

Lemma Learned_init_Ok_inv d_model n_vocab max_len st0 self st1 :
  EmbeddingsWithLearnedPositionalEncoding.init d_model n_vocab max_len st0
    = Ok (self, st1) ->
  (0 <= d_model)%Z /\ (0 <= n_vocab)%Z /\ (0 <= max_len)%Z /\
  EmbeddingsWithLearnedPositionalEncoding.d_model self = d_model /\
  embedding_dim (EmbeddingsWithLearnedPositionalEncoding.linear self)
    = Z.to_nat d_model /\
  num_embeddings (EmbeddingsWithLearnedPositionalEncoding.linear self)
    = Z.to_nat n_vocab /\
  EmbeddingsWithLearnedPositionalEncoding.positional_encodings self
    = nn_Parameter (full [Z.to_nat max_len; 1; Z.to_nat d_model] (Fin 0)) true.
Proof.
  unfold EmbeddingsWithLearnedPositionalEncoding.init, nn_Embedding, torch_zeros.
  intros E.
  apply bind_Ok_inv in E as (l & s1 & El & E).
  apply bind_Ok_inv in El as (sz & s2 & Esz & El).
  apply lift_Ok_inv in Esz as (Esz & ->).
  apply bind_Ok_inv in El as (w & s3 & Ew & El).
  apply ret_Ok_inv in El as (-> & ->).
  apply bind_Ok_inv in E as (z & s4 & Ez & E).
  apply lift_Ok_inv in Ez as (Ez & ->).
  apply ret_Ok_inv in E as (-> & ->).
  apply check_sizes_Ok_inv in Esz as (F1 & _).
  apply rmap_Ok_inv in Ez as (zs & Ez & ->).
  apply check_sizes_Ok_inv in Ez as (F2 & ->).
  inversion F1 as [|? ? Hv F1']; subst. inversion F1' as [|? ? Hd _]; subst.
  inversion F2 as [|? ? Hm _]; subst.
  simpl. repeat split; auto.
Qed.

Lemma Embedding_forward_Ok_inv e x y :
  Embedding_forward e x = Ok y ->
  shape y = shape x ++ [embedding_dim e] /\
  forall idx,
    at_ y idx = at_ (table e) [Z.to_nat (at_ x (removelast idx)); last idx 0].
Proof.
  unfold Embedding_forward.
  destruct (forallb _ _); [|discriminate].
  intros E. injection E as <-. simpl. auto.
Qed.

(** C7, as amended.  No length is checked.  For a learned table built by
    the constructor, used with gradient recording off on tokens longer
    than the table: the slice is the whole table and raises nothing; the
    sum that follows raises when the table has two rows or more; when it
    has one row the call returns, that row added at every position. *)
Theorem EmbeddingsWithLearnedPositionalEncoding_beyond_table :
  forall d_model n_vocab max_len st0 self st1 x n b e st,
    EmbeddingsWithLearnedPositionalEncoding.init d_model n_vocab max_len st0
      = Ok (self, st1) ->
    grad_enabled st = false ->
    shape x = [n; b] ->
    Embedding_forward (EmbeddingsWithLearnedPositionalEncoding.linear self) x = Ok e ->
    (max_len < Z.of_nat n)%Z ->
    (exists sliced,
       grad_slice_to
         (EmbeddingsWithLearnedPositionalEncoding.positional_encodings self) n st
         = Ok (sliced, st) /\
       shape (data sliced) = [Z.to_nat max_len; 1; Z.to_nat d_model])
    /\
    ((2 <= max_len)%Z ->
     EmbeddingsWithLearnedPositionalEncoding.forward self x st = Raise RuntimeError)
    /\
    (max_len = 1%Z ->
     exists out,
       EmbeddingsWithLearnedPositionalEncoding.forward self x st = Ok (out, st) /\
       shape out = [n; b; Z.to_nat d_model] /\
       forall i j c, i < n -> j < b -> c < Z.to_nat d_model ->
         at_ out [i; j; c]
         = fadd (fmul (at_ (table (EmbeddingsWithLearnedPositionalEncoding.linear self))
                           [Z.to_nat (at_ x [i; j]); c])
                      (Fin (sqrt (IZR d_model))))
                (at_ (data (EmbeddingsWithLearnedPositionalEncoding.positional_encodings
                              self)) [0; 0; c])).
Proof.
  intros d_model n_vocab max_len st0 self st1 x n b e st I G Sx Ee Hlen.
  apply Learned_init_Ok_inv in I as (Hd & Hv & Hm & Ed & Edim & _ & Epe).
  pose proof (Embedding_forward_Ok_inv _ _ Ee) as (Se & Ve).
  rewrite Sx, Edim in Se. simpl in Se.
  assert (Emin : Nat.min n (Z.to_nat max_len) = Z.to_nat max_len) by lia.
  assert (Esl : grad_slice_to
            (EmbeddingsWithLearnedPositionalEncoding.positional_encodings self) n st
          = Ok ({| data := {| shape := [Z.to_nat max_len; 1; Z.to_nat d_model];
                              at_ := fun _ => Fin 0 |};
                   requires_grad := false; is_leaf := true |}, st)).
  { rewrite Epe.
    unfold grad_slice_to, is_grad_enabled, bind, lift, ret, slice_to. simpl.
    rewrite G, Emin. reflexivity. }
  assert (Eroot : math_sqrt d_model = Ok (sqrt (IZR d_model))).
  { unfold math_sqrt. destruct (d_model <? 0)%Z eqn:L; [|reflexivity].
    apply Z.ltb_lt in L. lia. }
  assert (Efw : EmbeddingsWithLearnedPositionalEncoding.forward self x st
          = lift (tensor_add (scale_tensor e (sqrt (IZR d_model)))
                    {| shape := [Z.to_nat max_len; 1; Z.to_nat d_model];
                       at_ := fun _ => Fin 0 |}) st).
  { unfold EmbeddingsWithLearnedPositionalEncoding.forward.
    unfold shape_at. rewrite Sx. simpl nth_error.
    erewrite bind_lift_Ok; [|reflexivity].
    erewrite bind_Ok; [|exact Esl].
    erewrite bind_lift_Ok; [|reflexivity].
    erewrite bind_lift_Ok; [|reflexivity].
    erewrite bind_lift_Ok; [|exact Ee].
    rewrite Ed.
    erewrite bind_lift_Ok; [|exact Eroot].
    reflexivity. }
  split; [eexists; split; [exact Esl|reflexivity]|].
  split.
  - intros H2. rewrite Efw.
    rewrite (tensor_add_rows_mismatch (scale_tensor e (sqrt (IZR d_model)))
               {| shape := [Z.to_nat max_len; 1; Z.to_nat d_model];
                  at_ := fun _ => Fin 0 |} Se eq_refl); [reflexivity|lia..].
  - intros H1. rewrite Efw. subst max_len.
    destruct (tensor_add_rows_broadcast (scale_tensor e (sqrt (IZR d_model)))
                {| shape := [Z.to_nat 1; 1; Z.to_nat d_model];
                   at_ := fun _ => Fin 0 |}
                Se eq_refl (or_intror eq_refl)) as (out & Eo & So & Vo).
    exists out. rewrite Eo. split; [reflexivity|]. split; [exact So|].
    intros i j c Hi Hj Hc. rewrite (Vo i j c Hi Hj Hc). simpl.
    rewrite Ve, Epe. simpl. reflexivity.
Qed.

End EmbeddingFacts.

(** ** Rounding *)

Section RoundingFacts.
Context `{FloatFormat}.
Local Open Scope R_scope.

Lemma Rsign_pos r : 0 < r -> Rsign r = Gt.
Proof.
  intros Hr. unfold Rsign.
  destruct (total_order_T 0 r) as [[L|E]|G]; [reflexivity|lra|lra].
Qed.

Lemma Rdiv_le_bound a c b : 0 < c -> a <= b * c -> a / c <= b.
Proof.
  intros Hc L. apply Rmult_le_reg_r with c; [exact Hc|].
  unfold Rdiv. rewrite Rmult_assoc, Rinv_l by lra. lra.
Qed.

Lemma Rdiv_ge_bound a c b : 0 < c -> b * c <= a -> b <= a / c.
Proof.
  intros Hc L. apply Rmult_le_reg_r with c; [exact Hc|].
  unfold Rdiv. rewrite Rmult_assoc, Rinv_l by lra. lra.
Qed.

Lemma Rabs_bound a b : Rabs a <= b -> - b <= a <= b.
Proof.
  unfold Rabs. destruct (Rcase_abs a); lra.
Qed.

Lemma round_nonneg r :
  0 <= r ->
  (exists r', round r = Fin r' /\ 0 <= r' /\ round r' = Fin r') \/ round r = PInf.
Proof.
  intros L. pose proof (@round_monotone _ 0 r L) as M. rewrite round_0 in M.
  destruct (round r) as [r'| | |] eqn:E; simpl in M; try contradiction.
  - left. exists r'. split; [reflexivity|]. split; [exact M|].
    exact (@round_idempotent _ r r' E).
  - right. reflexivity.
Qed.

Lemma round_nonpos r :
  r <= 0 -> (exists r', round r = Fin r' /\ r' <= 0) \/ round r = NInf.
Proof.
  intros L. pose proof (@round_monotone _ r 0 L) as M. rewrite round_0 in M.
  destruct (round r) as [r'| | |] eqn:E; simpl in M; try contradiction.
  - left. exists r'. split; [reflexivity|exact M].
  - right. reflexivity.
Qed.

Lemma round_unit r : 0 <= r <= 1 -> unit_float (round r).
Proof.
  intros [L0 L1].
  pose proof (@round_monotone _ 0 r L0) as M0. rewrite round_0 in M0.
  pose proof (@round_monotone _ r 1 L1) as M1. rewrite round_1 in M1.
  destruct (round r) as [r'| | |] eqn:E; simpl in M0, M1; try contradiction.
  exists r'. split; [reflexivity|]. split; [lra|].
  exact (@round_idempotent _ r r' E).
Qed.

Lemma round_le a b a' b' :
  a <= b -> round a = Fin a' -> round b = Fin b' -> a' <= b'.
Proof.
  intros L Ea Eb. pose proof (@round_monotone _ a b L) as M.
  rewrite Ea, Eb in M. exact M.
Qed.

Lemma pow_1_minus n : 0 < (1 - unit_roundoff) ^ n <= 1.
Proof.
  pose proof unit_roundoff_range as U. split.
  - apply pow_lt. lra.
  - apply Rle_trans with (1 ^ n); [apply pow_incr; lra|rewrite pow1; lra].
Qed.

Lemma pow_1_plus n : 1 <= (1 + unit_roundoff) ^ n.
Proof.
  pose proof unit_roundoff_range as U. apply pow_R1_Rle. lra.
Qed.

End RoundingFacts.

(** ** Softmax on a line of scores *)

Section SoftmaxFacts.
Context `{FloatFormat}.
Local Open Scope R_scope.

(** The greatest entry of a line of scores: minus infinity when every
    entry is, and else the greatest finite entry. *)
Lemma line_max_cases l :
  Forall score_like l ->
  (fold_right fmax NInf l = NInf /\ forall a, ~ In (Fin a) l) \/
  (exists m0, fold_right fmax NInf l = Fin m0 /\ In (Fin m0) l /\
              forall a, In (Fin a) l -> a <= m0).
Proof.
  induction 1 as [|x l Hx _ IH]; simpl.
  - left. split; [reflexivity|]. intros a [].
  - destruct Hx as [[a ->]| ->], IH as [(-> & N)|(m0 & -> & I & B)]; simpl.
    + right. exists a. split; [reflexivity|]. split; [left; reflexivity|].
      intros a' [E|I]; [injection E as <-; lra|destruct (N a' I)].
    + right. exists (Rmax a m0). split; [reflexivity|]. split.
      * unfold Rmax. destruct (Rle_dec a m0); [right; exact I|left; reflexivity].
      * intros a' [E|I'].
        -- injection E as <-. apply Rmax_l.
        -- pose proof (B a' I'). pose proof (Rmax_r a m0). lra.
    + left. split; [reflexivity|].
      intros a' [E|I]; [discriminate E|exact (N a' I)].
    + right. exists m0. split; [reflexivity|]. split; [right; exact I|].
      intros a' [E|I']; [discriminate E|exact (B a' I')].
Qed.

Lemma line_max l :
  Forall score_like l -> Exists is_finite l ->
  exists m0, fold_right fmax NInf l = Fin m0 /\ In (Fin m0) l /\
             forall a, In (Fin a) l -> a <= m0.
Proof.
  intros F X. destruct (line_max_cases F) as [(_ & N)|R]; [|exact R].
  apply Exists_exists in X as (x & I & (a & ->)). destruct (N a I).
Qed.

(** The exponential of a score minus the greatest score of its line. *)
Lemma fexp_shifted x m0 :
  score_like x -> (forall a, x = Fin a -> a <= m0) ->
  unit_float (fexp (fsub x (Fin m0))).
Proof.
  intros [[a ->]| ->] B.
  - specialize (B a eq_refl). unfold fsub. simpl fneg. simpl fadd.
    destruct (@round_nonpos _ (a + - m0)) as [(c & -> & Hc)| ->]; [lra| |].
    + simpl. destruct (exp_value_nonpos Hc) as (e & -> & He & Re).
      exists e. auto.
    + simpl. exists 0. split; [reflexivity|]. split; [lra|apply round_0].
  - simpl. exists 0. split; [reflexivity|]. split; [lra|apply round_0].
Qed.

Lemma fexp_shifted_max m0 : fexp (fsub (Fin m0) (Fin m0)) = Fin 1.
Proof.
  unfold fsub. simpl. replace (m0 + - m0) with 0 by lra.
  rewrite round_0. simpl. apply exp_value_0.
Qed.

Lemma fexp_shifted_NInf m0 : fexp (fsub NInf (Fin m0)) = Fin 0.
Proof.
  reflexivity.
Qed.

(** The sum of numbers between 0 and 1 is a number that is not below any
    of them, or it has overflowed. *)
Lemma fsum_unit es :
  Forall unit_float es ->
  (exists S, fsum es = Fin S /\ 0 <= S /\ round S = Fin S /\
             forall e, In (Fin e) es -> e <= S) \/
  fsum es = PInf.
Proof.
  induction 1 as [|x es (e & -> & He & Re) _ IH].
  - left. exists 0. split; [reflexivity|]. split; [lra|].
    split; [apply round_0|]. intros e [].
  - change (fsum (Fin e :: es)) with (fadd (Fin e) (fsum es)).
    destruct IH as [(s & Es & Hs & Rs & B)|Es]; rewrite Es; simpl fadd.
    + destruct (@round_nonneg _ (e + s)) as [(S & ES & HS & RS)|E]; [lra| |].
      * left. exists S. split; [exact ES|]. split; [exact HS|].
        split; [exact RS|].
        assert (L1 : e <= S) by (apply (@round_le _ e (e + s) e S); [lra|exact Re|exact ES]).
        assert (L2 : s <= S) by (apply (@round_le _ s (e + s) s S); [lra|exact Rs|exact ES]).
        intros e' [E|I]; [injection E as <-; exact L1|].
        pose proof (B e' I). lra.
      * right. exact E.
    + right. reflexivity.
Qed.

(** One weight: the exponential [e] of a shifted score over the sum of a
    line that holds the exponential 1 of its greatest score. *)
Lemma softmax_weight_unit es e :
  Forall unit_float es -> In (Fin 1) es ->
  unit_float (Fin e) -> e = 0 \/ In (Fin e) es ->
  exists w, fdiv (Fin e) (fsum es) = Fin w /\ 0 <= w <= 1 /\ (e = 0 -> w = 0).
Proof.
  intros F I1 (e0 & E0 & He & _) Ie. injection E0 as <-.
  destruct (fsum_unit F) as [(S & -> & HS & _ & B)| ->].
  - pose proof (B 1 I1) as H1.
    assert (LS : e <= S) by (destruct Ie as [->|Ie]; [lra|exact (B e Ie)]).
    simpl. rewrite Rsign_pos by lra.
    assert (Hq : 0 <= e / S <= 1).
    { split; [apply Rdiv_ge_bound|apply Rdiv_le_bound]; lra. }
    destruct (round_unit Hq) as (w & Ew & Hw & _).
    exists w. split; [exact Ew|]. split; [exact Hw|].
    intros ->. replace (0 / S) with 0 in Ew by (unfold Rdiv; lra).
    rewrite round_0 in Ew. injection Ew as <-. reflexivity.
  - exists 0. split; [reflexivity|]. split; [lra|reflexivity].
Qed.

(** The exponentials of the shifted scores of a line. *)
Lemma shifted_line l m0 :
  Forall score_like l -> In (Fin m0) l -> (forall a, In (Fin a) l -> a <= m0) ->
  Forall unit_float (map (fun y => fexp (fsub y (Fin m0))) l) /\
  In (Fin 1) (map (fun y => fexp (fsub y (Fin m0))) l).
Proof.
  intros F I B. split.
  - apply Forall_forall. intros x Hx. apply in_map_iff in Hx as (y & <- & Iy).
    apply fexp_shifted.
    + rewrite Forall_forall in F. exact (F y Iy).
    + intros a ->. exact (B a Iy).
  - apply in_map_iff. exists (Fin m0). split; [apply fexp_shifted_max|exact I].
Qed.

(** Softmax on a line that has a finite score: every weight is a number
    between 0 and 1, and a score of minus infinity weighs 0. *)
Lemma softmax_value_unit l x :
  Forall score_like l -> Exists is_finite l -> x = NInf \/ In x l ->
  exists w, softmax_value l x = Fin w /\ 0 <= w <= 1 /\ (x = NInf -> w = 0).
Proof.
  intros F X Ix.
  destruct (line_max F X) as (m0 & Em & Im & B).
  destruct (shifted_line F Im B) as (Fe & I1).
  unfold softmax_value. rewrite Em. cbv zeta.
  destruct Ix as [->|Ix].
  - rewrite fexp_shifted_NInf.
    destruct (@softmax_weight_unit _ 0 Fe I1) as (w & Ew & Hw & Z).
    + exists 0. split; [reflexivity|]. split; [lra|apply round_0].
    + left. reflexivity.
    + exists w. auto.
  - assert (U : unit_float (fexp (fsub x (Fin m0)))).
    { apply fexp_shifted.
      - rewrite Forall_forall in F. exact (F x Ix).
      - intros a ->. exact (B a Ix). }
    destruct U as (e & Ee & He & Re).
    destruct (@softmax_weight_unit _ e Fe I1) as (w & Ew & Hw & Z).
    + exists e. auto.
    + right. rewrite <- Ee.
      apply (in_map (fun y => fexp (fsub y (Fin m0)))). exact Ix.
    + exists w. rewrite Ee. split; [exact Ew|]. split; [exact Hw|].
      intros ->. rewrite fexp_shifted_NInf in Ee. injection Ee as <-.
      apply Z. reflexivity.
Qed.

(** A line without any finite score: minus infinity minus itself. *)
Lemma softmax_value_all_masked : softmax_value [NInf] NInf = NaN.
Proof.
  reflexivity.
Qed.

(** *** A line with an overflowed score *)

Lemma fsum_NaN l : In NaN l -> fsum l = NaN.
Proof.
  induction l as [|x l IH]; intros I; [destruct I|].
  change (fsum (x :: l)) with (fadd x (fsum l)).
  destruct I as [->|I].
  - destruct (fsum l); reflexivity.
  - rewrite (IH I). destruct x; reflexivity.
Qed.

Lemma fmax_NaN l : In NaN l -> fold_right fmax NInf l = NaN.
Proof.
  induction l as [|x l IH]; intros I; [destruct I|]. simpl.
  destruct I as [->|I].
  - destruct (fold_right fmax NInf l); reflexivity.
  - rewrite (IH I). destruct x; reflexivity.
Qed.

Lemma fmax_PInf l :
  In PInf l -> fold_right fmax NInf l = PInf \/ fold_right fmax NInf l = NaN.
Proof.
  induction l as [|x l IH]; intros I; [destruct I|]. simpl.
  destruct I as [->|I].
  - destruct (fold_right fmax NInf l); auto.
  - destruct (IH I) as [-> | ->]; destruct x; auto.
Qed.

(** Softmax on a line that holds plus infinity or NaN: every weight is
    NaN. *)
Lemma softmax_value_poisoned l y x :
  In y l -> y = PInf \/ y = NaN -> softmax_value l x = NaN.
Proof.
  intros I P. unfold softmax_value.
  set (m := fold_right fmax NInf l).
  assert (Ey : fexp (fsub y m) = NaN).
  { destruct P as [-> | ->].
    - destruct (fmax_PInf _ I) as [Em|Em]; fold m in Em; rewrite Em; reflexivity.
    - reflexivity. }
  rewrite (@fsum_NaN (map (fun y => fexp (fsub y m)) l)).
  - destruct (fexp (fsub x m)); reflexivity.
  - rewrite <- Ey. apply (in_map (fun y => fexp (fsub y m))). exact I.
Qed.

(** *** A line with one finite score *)

Lemma fsum_indicator j0 n a :
  fsum (map (fun j => if (j =? j0)%nat then Fin 1 else Fin 0) (seq a n))
  = if ((a <=? j0) && (j0 <? a + n))%nat then Fin 1 else Fin 0.
Proof.
  revert a. induction n as [|n IH]; intros a.
  - replace ((a <=? j0) && (j0 <? a + 0))%nat with false; [reflexivity|].
    symmetry. apply not_true_iff_false.
    rewrite andb_true_iff, Nat.leb_le, Nat.ltb_lt. lia.
  - change (fsum (map (fun j => if (j =? j0)%nat then Fin 1 else Fin 0) (seq a (S n))))
      with (fadd (if (a =? j0)%nat then Fin 1 else Fin 0)
                 (fsum (map (fun j => if (j =? j0)%nat then Fin 1 else Fin 0)
                            (seq (S a) n)))).
    rewrite IH.
    destruct (a =? j0)%nat eqn:Ea.
    + apply Nat.eqb_eq in Ea. subst a.
      replace ((S j0 <=? j0) && (j0 <? S j0 + n))%nat with false.
      * replace ((j0 <=? j0) && (j0 <? j0 + S n))%nat with true.
        -- simpl. replace (1 + 0) with 1 by lra. apply round_1.
        -- symmetry. rewrite andb_true_iff, Nat.leb_le, Nat.ltb_lt. lia.
      * symmetry. apply not_true_iff_false.
        rewrite andb_true_iff, Nat.leb_le, Nat.ltb_lt. lia.
    + apply Nat.eqb_neq in Ea.
      replace ((a <=? j0) && (j0 <? a + S n))%nat
        with ((S a <=? j0) && (j0 <? S a + n))%nat.
      * destruct ((S a <=? j0) && (j0 <? S a + n))%nat; simpl.
        -- replace (0 + 1) with 1 by lra. apply round_1.
        -- replace (0 + 0) with 0 by lra. apply round_0.
      * apply eq_true_iff_eq.
        rewrite !andb_true_iff, !Nat.leb_le, !Nat.ltb_lt. lia.
Qed.

(** Softmax on a line whose only finite score is at [j0]: that score
    weighs exactly 1. *)
Lemma softmax_value_single (f : nat -> float) lk j0 r0 :
  (j0 < lk)%nat -> f j0 = Fin r0 ->
  (forall j, (j < lk)%nat -> j <> j0 -> f j = NInf) ->
  softmax_value (map f (seq 0 lk)) (f j0) = Fin 1.
Proof.
  intros Hj0 E0 Ej.
  assert (F : Forall score_like (map f (seq 0 lk))).
  { apply Forall_forall. intros x Hx. apply in_map_iff in Hx as (j & <- & Hj).
    apply in_seq in Hj. destruct (Nat.eq_dec j j0) as [->|N].
    - left. exists r0. exact E0.
    - right. apply Ej; [lia|exact N]. }
  assert (X : Exists is_finite (map f (seq 0 lk))).
  { apply Exists_exists. exists (f j0). split.
    - apply in_map. apply in_seq. lia.
    - exists r0. exact E0. }
  destruct (line_max F X) as (m0 & Em & Im & _).
  assert (Em0 : m0 = r0).
  { apply in_map_iff in Im as (j & Ej' & Hj). apply in_seq in Hj.
    destruct (Nat.eq_dec j j0) as [->|N].
    - rewrite E0 in Ej'. injection Ej' as ->. reflexivity.
    - rewrite (Ej j) in Ej' by (lia || exact N). discriminate Ej'. }
  subst m0. unfold softmax_value. rewrite Em. cbv zeta.
  rewrite map_map.
  assert (Es : map (fun j => fexp (fsub (f j) (Fin r0))) (seq 0 lk)
               = map (fun j => if (j =? j0)%nat then Fin 1 else Fin 0) (seq 0 lk)).
  { apply map_ext_in. intros j Hj. apply in_seq in Hj.
    destruct (j =? j0)%nat eqn:E.
    - apply Nat.eqb_eq in E. subst j. rewrite E0. apply fexp_shifted_max.
    - apply Nat.eqb_neq in E. rewrite (Ej j) by (lia || exact E).
      apply fexp_shifted_NInf. }
  rewrite Es, fsum_indicator, E0, fexp_shifted_max.
  replace ((0 <=? j0) && (j0 <? 0 + lk))%nat with true
    by (symmetry; apply andb_true_iff; split;
        [apply Nat.leb_le|apply Nat.ltb_lt]; lia).
  simpl. rewrite Rsign_pos by lra.
  replace (1 / 1) with 1 by (unfold Rdiv; rewrite Rinv_1; lra).
  apply round_1.
Qed.

(** *** The sum of the weights *)

Lemma finite_list l : Forall unit_float l ->
  exists rs, l = map Fin rs /\ Forall (fun r => 0 <= r <= 1) rs.
Proof.
  induction 1 as [|x l (e & -> & He & _) _ (rs & -> & Frs)].
  - exists []. split; [reflexivity|constructor].
  - exists (e :: rs). split; [reflexivity|]. constructor; assumption.
Qed.

Lemma Rsum_unit rs : Forall (fun r => 0 <= r <= 1) rs ->
  0 <= Rsum rs <= INR (List.length rs).
Proof.
  induction 1 as [|r rs Hr _ IH].
  - simpl. lra.
  - change (Rsum (r :: rs)) with (r + Rsum rs).
    change (List.length (r :: rs)) with (S (List.length rs)).
    rewrite S_INR. lra.
Qed.

(** A sum that has not overflowed is the exact sum up to one rounding
    for each term. *)
Lemma fsum_bounds rs :
  Forall (fun r => 0 <= r <= 1) rs ->
  forall S, fsum (map Fin rs) = Fin S ->
    0 <= S /\
    (1 - unit_roundoff) ^ List.length rs * Rsum rs
      - INR (List.length rs) * underflow_unit <= S /\
    S <= (1 + unit_roundoff) ^ List.length rs
         * (Rsum rs + INR (List.length rs) * underflow_unit).
Proof.
  pose proof unit_roundoff_range as U. pose proof underflow_unit_range as V.
  induction 1 as [|e rs He Frs IH]; intros S ES.
  - simpl in ES. injection ES as <-. simpl. lra.
  - change (fsum (map Fin (e :: rs))) with (fadd (Fin e) (fsum (map Fin rs))) in ES.
    destruct (fsum (map Fin rs)) as [s| | |] eqn:Es; simpl in ES; try discriminate.
    destruct (IH s eq_refl) as (Hs & Lo & Hi).
    pose proof (@round_error _ (e + s) S ES) as Err.
    destruct (@round_nonneg _ (e + s)) as [(S' & ES' & HS' & _)|E']; [lra| |];
      [|rewrite E' in ES; discriminate].
    rewrite ES in ES'. injection ES' as <-.
    rewrite (Rabs_pos_eq (e + s)) in Err by lra.
    apply Rabs_bound in Err.
    pose proof (Rsum_unit Frs) as HE.
    set (n := List.length rs) in *.
    change (List.length (e :: rs)) with (Datatypes.S n).
    change (Rsum (e :: rs)) with (e + Rsum rs).
    rewrite S_INR. simpl pow.
    pose proof (pow_1_minus n) as Pm. pose proof (pow_1_plus n) as Pp.
    pose proof (pos_INR n) as Hn.
    set (E := Rsum rs) in *. set (pm := (1 - unit_roundoff) ^ n) in *.
    set (pp := (1 + unit_roundoff) ^ n) in *.
    set (u := unit_roundoff) in *. set (h := underflow_unit) in *.
    set (N := INR n) in *.
    split; [exact HS'|]. split.
    + assert (A1 : (1 - u) * (pm * E - N * h) <= (1 - u) * s) by nra.
      assert (Y : 0 <= (1 - u) * e) by nra.
      assert (A2 : pm * ((1 - u) * e) <= (1 - u) * e) by nra.
      assert (Z : 0 <= N * h) by nra.
      assert (A3 : (1 - u) * (N * h) <= N * h) by nra.
      lra.
    + assert (B1 : (1 + u) * s <= (1 + u) * (pp * (E + N * h))) by nra.
      assert (Y : 0 <= (1 + u) * e) by nra.
      assert (B2 : (1 + u) * e <= pp * ((1 + u) * e)) by nra.
      assert (C : 1 <= (1 + u) * pp) by nra.
      assert (B3 : h <= (1 + u) * pp * h) by nra.
      lra.
Qed.

Lemma sum_cap_step n : 1 + sum_cap n <= sum_cap (S n).
Proof.
  pose proof unit_roundoff_range as U. pose proof underflow_unit_range as V.
  unfold sum_cap. rewrite S_INR. simpl pow.
  pose proof (pow_1_plus n) as Pp. pose proof (pos_INR n) as Hn.
  set (pp := (1 + unit_roundoff) ^ n) in *.
  set (u := unit_roundoff) in *. set (h := underflow_unit) in *.
  set (N := INR n) in *.
  assert (Y : 0 <= N * (1 + h)) by nra.
  assert (C : pp <= (1 + u) * pp) by nra.
  assert (A : N * (1 + h) * pp <= N * (1 + h) * ((1 + u) * pp)) by nra.
  assert (B : 1 <= (1 + h) * ((1 + u) * pp)) by nra.
  lra.
Qed.

(** A line that fits in the format does not overflow its sum. *)
Lemma fsum_in_range rs :
  Forall (fun r => 0 <= r <= 1) rs ->
  representable_up_to (sum_cap (List.length rs)) ->
  exists S, fsum (map Fin rs) = Fin S.
Proof.
  pose proof unit_roundoff_range as U. pose proof underflow_unit_range as V.
  induction 1 as [|e rs He Frs IH]; intros Rep.
  - exists 0. reflexivity.
  - change (List.length (e :: rs)) with (S (List.length rs)) in Rep.
    pose proof (sum_cap_step (List.length rs)) as Step.
    destruct IH as (s & Es).
    { intros r Hr. apply Rep. lra. }
    destruct (fsum_bounds Frs Es) as (Hs & _ & Hi).
    change (fsum (map Fin (e :: rs))) with (fadd (Fin e) (fsum (map Fin rs))).
    rewrite Es. simpl. apply Rep.
    rewrite Rabs_pos_eq by lra.
    pose proof (Rsum_unit Frs) as HE.
    pose proof (pow_1_plus (List.length rs)) as Pp.
    unfold sum_cap in *.
    set (pp := (1 + unit_roundoff) ^ List.length rs) in *.
    set (N := INR (List.length rs)) in *. set (E := Rsum rs) in *.
    set (h := underflow_unit) in *.
    assert (A : pp * (E + N * h) <= pp * (N + N * h)) by nra.
    nra.
Qed.

(** The weights of a line, each the rounded quotient of an exponential by
    the sum [S]. *)
Lemma weights_bounds S rs :
  0 < S -> Forall (fun r => 0 <= r <= S) rs ->
  exists ws,
    map (fun r => fdiv (Fin r) (Fin S)) rs = map Fin ws /\
    (1 - unit_roundoff) * (Rsum rs / S) - INR (List.length rs) * underflow_unit
      <= Rsum ws
      <= (1 + unit_roundoff) * (Rsum rs / S)
         + INR (List.length rs) * underflow_unit.
Proof.
  pose proof unit_roundoff_range as U. pose proof underflow_unit_range as V.
  intros HS. induction 1 as [|r rs Hr _ (ws & Ews & Bws)].
  - exists []. split; [reflexivity|]. simpl. unfold Rdiv. lra.
  - assert (Hq : 0 <= r / S <= 1).
    { split; [apply Rdiv_ge_bound|apply Rdiv_le_bound]; lra. }
    destruct (round_unit Hq) as (w & Ew & Hw & _).
    pose proof (@round_error _ (r / S) w Ew) as Err.
    rewrite (Rabs_pos_eq (r / S)) in Err by lra. apply Rabs_bound in Err.
    exists (w :: ws). split.
    + change (fdiv (Fin r) (Fin S) :: map (fun r => fdiv (Fin r) (Fin S)) rs
              = Fin w :: map Fin ws).
      rewrite Ews. f_equal. simpl. rewrite Rsign_pos by exact HS. exact Ew.
    + change (Rsum (w :: ws)) with (w + Rsum ws).
      change (Rsum (r :: rs)) with (r + Rsum rs).
      change (List.length (r :: rs)) with (Datatypes.S (List.length rs)).
      rewrite S_INR.
      replace ((r + Rsum rs) / S) with (r / S + Rsum rs / S)
        by (unfold Rdiv; lra).
      lra.
Qed.

(** Softmax on a line that has a finite score and fits in the format: the
    weights are numbers that add up to 1 within the bounds that
    rounding leaves. *)
Lemma softmax_line_sum l :
  Forall score_like l -> Exists is_finite l -> line_fits (List.length l) ->
  exists ws,
    map (softmax_value l) l = map Fin ws /\
    softmax_sum_lower (List.length l) <= Rsum ws <= softmax_sum_upper (List.length l).
Proof.
  pose proof unit_roundoff_range as U. pose proof underflow_unit_range as V.
  intros F X (Rep & Small).
  destruct (line_max F X) as (m0 & Em & Im & B).
  destruct (shifted_line F Im B) as (Fe & I1).
  destruct (finite_list Fe) as (rs & Ers & Frs).
  assert (Len : List.length rs = List.length l).
  { rewrite <- (length_map Fin rs), <- Ers. apply length_map. }
  rewrite <- Len in *.
  destruct (fsum_in_range Frs Rep) as (S & ES).
  destruct (fsum_bounds Frs ES) as (HS & Lo & Hi).
  destruct (fsum_unit Fe) as [(S' & ES' & _ & _ & BS)|EP];
    rewrite Ers, ES in *; [|discriminate EP].
  injection ES' as <-.
  assert (In1 : In 1 rs).
  { apply in_map_iff in I1 as (r & Er & Ir). injection Er as ->. exact Ir. }
  assert (HE : 1 <= Rsum rs).
  { clear - In1 Frs. induction Frs as [|r rs Hr Frs IH]; [destruct In1|].
    change (Rsum (r :: rs)) with (r + Rsum rs).
    pose proof (Rsum_unit Frs). destruct In1 as [->|I]; [lra|].
    specialize (IH I). lra. }
  pose proof (pow_1_minus (List.length rs)) as Pm.
  pose proof (pow_1_plus (List.length rs)) as Pp.
  pose proof (pos_INR (List.length rs)) as Hn.
  assert (S1 : 1 <= S) by (apply BS; apply in_map; exact In1).
  destruct (@weights_bounds S rs) as (ws & Ews & Bws); [lra| |].
  { apply Forall_forall. intros r Ir. rewrite Forall_forall in Frs.
    pose proof (Frs r Ir). pose proof (BS r (in_map Fin rs r Ir)). lra. }
  exists ws. split.
  - rewrite <- Ews.
    assert (Ew : forall x, softmax_value l x
                 = fdiv (fexp (fsub x (Fin m0))) (Fin S)).
    { intros x. unfold softmax_value. rewrite Em. cbv zeta.
      rewrite Ers, ES. reflexivity. }
    rewrite (map_ext _ _ Ew).
    rewrite <- (map_map (fun y => fexp (fsub y (Fin m0)))
                        (fun e => fdiv e (Fin S))).
    rewrite Ers, map_map. reflexivity.
  - unfold softmax_sum_lower, softmax_sum_upper.
    set (n := List.length rs) in *. set (E := Rsum rs) in *.
    set (pm := (1 - unit_roundoff) ^ n) in *.
    set (pp := (1 + unit_roundoff) ^ n) in *.
    set (u := unit_roundoff) in *. set (h := underflow_unit) in *.
    set (N := INR n) in *.
    assert (Ha : 0 < pm - N * h) by lra.
    assert (Z : 0 <= N * h) by nra.
    assert (W : N * h <= N * h * E) by nra.
    assert (Hb : 0 < pp * (1 + N * h)) by nra.
    assert (Q1 : E / S <= 1 / (pm - N * h)).
    { apply Rdiv_le_bound; [lra|].
      assert (T : (pm - N * h) * E <= S) by lra.
      unfold Rdiv. rewrite Rmult_1_l.
      apply Rmult_le_reg_l with (pm - N * h); [exact Ha|].
      rewrite <- Rmult_assoc, Rinv_r by lra. lra. }
    assert (Q2 : 1 / (pp * (1 + N * h)) <= E / S).
    { apply Rdiv_ge_bound; [lra|].
      assert (T0 : pp * (E + N * h) <= pp * (E + N * h * E)) by nra.
      assert (T : S <= pp * (1 + N * h) * E) by lra.
      unfold Rdiv. rewrite Rmult_1_l.
      apply Rmult_le_reg_l with (pp * (1 + N * h)); [exact Hb|].
      rewrite <- Rmult_assoc, Rinv_r by lra. lra. }
    assert (P1 : 0 <= 1 / (pm - N * h)).
    { unfold Rdiv. rewrite Rmult_1_l. left. apply Rinv_0_lt_compat. exact Ha. }
    assert (P2 : 0 <= 1 / (pp * (1 + N * h))).
    { unfold Rdiv. rewrite Rmult_1_l. left. apply Rinv_0_lt_compat. exact Hb. }
    replace ((1 + u) ^ 2 / (pm - N * h))
      with ((1 + u) * ((1 + u) * (1 / (pm - N * h))))
      by (unfold Rdiv; simpl; lra).
    replace ((1 - u) ^ 2 / (pp * (1 + N * h)))
      with ((1 - u) * ((1 - u) * (1 / (pp * (1 + N * h)))))
      by (unfold Rdiv; simpl; lra).
    assert (C1 : (1 + u) * (E / S) <= (1 + u) * (1 / (pm - N * h))) by nra.
    assert (C2 : (1 + u) * (1 / (pm - N * h))
                 <= (1 + u) * ((1 + u) * (1 / (pm - N * h)))) by nra.
    assert (D1 : (1 - u) * (1 / (pp * (1 + N * h))) <= (1 - u) * (E / S)) by nra.
    assert (D0 : 0 <= (1 - u) * (1 / (pp * (1 + N * h)))) by nra.
    assert (D2 : (1 - u) * ((1 - u) * (1 / (pp * (1 + N * h))))
                 <= (1 - u) * (1 / (pp * (1 + N * h)))) by nra.
    split; lra.
Qed.

End SoftmaxFacts.

(** ** Attention weights *)

Section AttentionWeights.
Context `{TorchBackend}.

Lemma broadcast_rev_absorb a b :
  Forall2 (fun x y => y = x \/ y = 1) a b -> broadcast_rev a b = Ok a.
Proof.
  induction 1 as [|x y a b Hxy _ IH]; simpl; [reflexivity|].
  rewrite IH. simpl.
  destruct (x =? y) eqn:E; [reflexivity|].
  destruct Hxy as [->| ->]; [rewrite Nat.eqb_refl in E; discriminate|].
  rewrite E. reflexivity.
Qed.

Lemma einsum_dim_Ok_inv x y n :
  einsum_dim x y = Ok n -> (n = x /\ (y = x \/ y = 1)) \/ (x = 1 /\ n = y).
Proof.
  unfold einsum_dim.
  destruct (x =? y) eqn:E.
  - apply Nat.eqb_eq in E. intros E'. injection E' as <-. auto.
  - destruct (x =? 1) eqn:E1.
    + apply Nat.eqb_eq in E1. intros E'. injection E' as <-. auto.
    + destruct (y =? 1) eqn:E2; [|discriminate].
      apply Nat.eqb_eq in E2. intros E'. injection E' as <-. auto.
Qed.

(** A mask that meets the contract leaves the shape of the scores as it is. *)
Lemma broadcast_shapes_mask lq lk b bk nb nh m0 m1 m2 :
  mask_contract [m0; m1; m2] lq lk b = true ->
  einsum_dim b bk = Ok nb ->
  broadcast_shapes [lq; lk; nb; nh] [m0; m1; m2; 1] = Ok [lq; lk; nb; nh].
Proof.
  intros C E. unfold mask_contract in C.
  apply andb_prop in C as (C & C2). apply andb_prop in C as (C0 & C1).
  apply Nat.eqb_eq in C1. apply orb_prop in C0, C2.
  apply einsum_dim_Ok_inv in E.
  unfold broadcast_shapes. simpl rev.
  rewrite broadcast_rev_absorb; [reflexivity|].
  constructor; [right; reflexivity|].
  constructor; [destruct C2 as [C2|C2]; apply Nat.eqb_eq in C2; lia|].
  constructor; [left; exact C1|].
  constructor; [destruct C0 as [C0|C0]; apply Nat.eqb_eq in C0; lia|].
  constructor.
Qed.

End AttentionWeights.

Section AttentionRows.
Context `{TorchBackend}.

(** Softmax along axis 1 of a tensor of four axes: the entries of the
    result on the line through query [i], batch entry [bb] and head [h]
    are the softmax of that line of the argument. *)
Lemma softmax_rows scores attn i bb h lk :
  softmax_along 1 scores = Ok attn ->
  nth 1 (shape scores) 0 = lk ->
  (forall j, at_ attn [i; j; bb; h]
             = softmax_value (map (fun j' => at_ scores [i; j'; bb; h]) (seq 0 lk))
                             (at_ scores [i; j; bb; h])) /\
  axis_line attn 1 [i; 0; bb; h]
  = map (softmax_value (map (fun j' => at_ scores [i; j'; bb; h]) (seq 0 lk)))
        (map (fun j' => at_ scores [i; j'; bb; h]) (seq 0 lk)).
Proof.
  intros E L. unfold softmax_along in E.
  destruct (1 <? List.length (shape scores)); [|discriminate].
  injection E as <-.
  assert (Eline : forall j, axis_line scores 1 [i; j; bb; h]
                            = map (fun j' => at_ scores [i; j'; bb; h]) (seq 0 lk)).
  { intros j. unfold axis_line. rewrite L. reflexivity. }
  split.
  - intros j. simpl at_. rewrite Eline. reflexivity.
  - unfold axis_line at 1. simpl shape. rewrite L. simpl at_.
    rewrite map_map. apply map_ext. intros j. simpl set_axis.
    rewrite Eline. reflexivity.
Qed.

(** Reading a tensor operand at an index within the shape of the
    broadcast result that it already has. *)
Lemma bindex_in_shape lq lk nb nh i j bb h :
  i < lq -> j < lk -> bb < nb -> h < nh ->
  bindex [lq; lk; nb; nh] [i; j; bb; h] = [i; j; bb; h].
Proof.
  intros Hi Hj Hb Hh. unfold bindex. simpl.
  repeat match goal with
         | |- context [?d =? 1] =>
             destruct (d =? 1) eqn:?E;
             [apply Nat.eqb_eq in E; subst d|clear E]
         end;
    repeat f_equal; lia.
Qed.

(** The scores that reach the softmax in [forward], on the line through
    query [i], batch entry [bb] and head [h]: minus infinity where the
    mask excludes the key, and elsewhere the product of the score by the
    scale. *)
Lemma attention_lines heads d_model prob bias_arg st0 self st1
    q k v mask qh kh scores attn vp lq b d lk bk dk :
  MultiHeadAttention.init heads d_model prob bias_arg st0 = Ok (self, st1) ->
  shape q = [lq; b; d] -> shape k = [lk; bk; dk] ->
  (forall m, mask = Some m -> List.length (shape m) = 3) ->
  PrepareForMultiHeadAttention.forward (MultiHeadAttention.query self) q = Ok qh ->
  PrepareForMultiHeadAttention.forward (MultiHeadAttention.key self) k = Ok kh ->
  MultiHeadAttention.get_scores self qh kh = Ok scores ->
  MultiHeadAttention.attention_weights self q k v mask = Ok (attn, vp) ->
  exists nb nh,
    shape attn = [lq; lk; nb; nh] /\
    forall i bb h, i < lq -> bb < nb -> h < nh ->
      (forall j, excluded mask i j bb = true ->
         at_ attn [i; j; bb; h]
         = softmax_value
             (map (fun j' => if excluded mask i j' bb then NInf
                             else fmul (at_ scores [i; j'; bb; h])
                                       (Fin (MultiHeadAttention.scale self)))
                  (seq 0 lk))
             NInf) /\
      (forall j, j < lk ->
         at_ attn [i; j; bb; h]
         = softmax_value
             (map (fun j' => if excluded mask i j' bb then NInf
                             else fmul (at_ scores [i; j'; bb; h])
                                       (Fin (MultiHeadAttention.scale self)))
                  (seq 0 lk))
             (if excluded mask i j bb then NInf
              else fmul (at_ scores [i; j; bb; h])
                        (Fin (MultiHeadAttention.scale self)))) /\
      axis_line attn 1 [i; 0; bb; h]
      = map (softmax_value
               (map (fun j' => if excluded mask i j' bb then NInf
                               else fmul (at_ scores [i; j'; bb; h])
                                         (Fin (MultiHeadAttention.scale self)))
                    (seq 0 lk)))
            (map (fun j' => if excluded mask i j' bb then NInf
                            else fmul (at_ scores [i; j'; bb; h])
                                      (Fin (MultiHeadAttention.scale self)))
                 (seq 0 lk)).
Proof.
  intros I Sq Sk Rm Eqh Ekh Esc E.
  apply MultiHeadAttention_init_Ok_inv in I
    as (_ & _ & _ & _ & _ & _ & _ & Edim & _).
  apply attention_weights_Ok_inv in E
    as (qp & kp & scores0 & scores' & _ & Eq & Ek & _ & Es & Em & Ea).
  rewrite Edim in Ea.
  rewrite Eqh in Eq. injection Eq as <-.
  rewrite Ekh in Ek. injection Ek as <-.
  unfold MultiHeadAttention.get_scores in Esc.
  rewrite Esc in Es. injection Es as <-.
  apply Prepare_forward_Ok_inv in Eqh as (h1 & d1 & _ & _ & Sqp & _).
  apply Prepare_forward_Ok_inv in Ekh as (h2 & d2 & _ & _ & Skp & _).
  rewrite Sq in Sqp. rewrite Sk in Skp. simpl in Sqp, Skp.
  apply einsum_scores_Ok_inv in Esc
    as (xi & xb & xh & xd & yj & yb & yh & yd & nb & nh & nd
        & Sx & Sy & Eb & _ & _ & Ss & _).
  rewrite Sqp in Sx. injection Sx as <- <- <- <-.
  rewrite Skp in Sy. injection Sy as <- <- <- <-.
  set (scaled := tmap (fun x => fmul x (Fin (MultiHeadAttention.scale self))) scores)
    in *.
  assert (Sa : shape attn = shape scores').
  { unfold softmax_along in Ea.
    destruct (1 <? List.length (shape scores')); [|discriminate].
    injection Ea as <-. reflexivity. }
  assert (G : shape scores' = [lq; lk; nb; nh] /\
              forall i j bb h,
                (excluded mask i j bb = true -> at_ scores' [i; j; bb; h] = NInf) /\
                (i < lq -> j < lk -> bb < nb -> h < nh ->
                 at_ scores' [i; j; bb; h]
                 = if excluded mask i j bb then NInf
                   else fmul (at_ scores [i; j; bb; h])
                             (Fin (MultiHeadAttention.scale self)))).
  { destruct mask as [m|].
    - destruct Em as (m' & Em & Ef).
      pose proof (Rm m eq_refl) as Lm.
      rewrite Sqp, Skp in Em.
      rewrite (prepare_mask_decided self m lq b [h1; d1] lk [bk; h2; d2]) in Em
        by lia.
      destruct (mask_contract (shape m) lq lk b) eqn:C; [|discriminate].
      injection Em as <-.
      destruct (shape m) as [|m0 [|m1 [|m2 [|]]]] eqn:Sm; try discriminate Lm.
      apply broadcast_op_Ok_inv in Ef as (Esh & V).
      simpl shape in Esh. rewrite Sm in Esh. simpl app in Esh.
      change (shape scaled) with (shape scores) in Esh. rewrite Ss in Esh.
      rewrite (@broadcast_shapes_mask lq lk b bk nb nh m0 m1 m2 C Eb) in Esh.
      injection Esh as Esh.
      split; [symmetry; exact Esh|].
      assert (Vm : forall i j bb h,
                at_ scores' [i; j; bb; h]
                = if masked_at m i j bb then NInf
                  else at_ scaled (bindex [lq; lk; nb; nh] [i; j; bb; h])).
      { intros i j bb h. rewrite V. simpl shape. rewrite Sm. simpl app.
        change (shape scaled) with (shape scores). rewrite Ss.
        unfold masked_at. rewrite Sm. reflexivity. }
      intros i j bb h. split.
      + intros Ex. rewrite Vm. simpl in Ex. rewrite Ex. reflexivity.
      + intros Hi Hj Hb Hh. rewrite Vm, bindex_in_shape by assumption.
        reflexivity.
    - subst scores'. split; [exact Ss|]. intros i j bb h.
      split; [discriminate|reflexivity]. }
  destruct G as (Ss' & V).
  exists nb, nh. split; [congruence|].
  intros i bb h Hi Hb Hh.
  destruct (@softmax_rows scores' attn i bb h lk Ea) as (R1 & R2).
  { rewrite Ss'. reflexivity. }
  assert (El : map (fun j' => at_ scores' [i; j'; bb; h]) (seq 0 lk)
               = map (fun j' => if excluded mask i j' bb then NInf
                                else fmul (at_ scores [i; j'; bb; h])
                                          (Fin (MultiHeadAttention.scale self)))
                     (seq 0 lk)).
  { apply map_ext_in. intros j Hj. apply in_seq in Hj.
    apply (V i j bb h); [exact Hi|lia|exact Hb|exact Hh]. }
  rewrite El in R1, R2. split; [|split; [|exact R2]].
  - intros j Ex. rewrite R1. rewrite (proj1 (V i j bb h) Ex). reflexivity.
  - intros j Hj. rewrite R1.
    rewrite (proj2 (V i j bb h) Hi Hj Hb Hh). reflexivity.
Qed.

(** The line of scores behind a line of weights: entries like scores,
    one of them finite. *)
Lemma attention_line_scores (mask : option (Tensor Z)) (sc : nat -> float) i bb lk :
  (forall j, j < lk -> excluded mask i j bb = false -> is_finite (sc j)) ->
  (exists j0, j0 < lk /\ excluded mask i j0 bb = false) ->
  Forall score_like
    (map (fun j => if excluded mask i j bb then NInf else sc j) (seq 0 lk)) /\
  Exists is_finite
    (map (fun j => if excluded mask i j bb then NInf else sc j) (seq 0 lk)).
Proof.
  intros Fs (j0 & Hj0 & Ej0). split.
  - apply Forall_forall. intros x Hx. apply in_map_iff in Hx as (j & <- & Hj).
    apply in_seq in Hj. destruct (excluded mask i j bb) eqn:E.
    + right. reflexivity.
    + left. apply Fs; [lia|exact E].
  - apply Exists_exists.
    exists (if excluded mask i j0 bb then NInf else sc j0). split.
    + apply (in_map (fun j => if excluded mask i j bb then NInf else sc j)).
      apply in_seq. lia.
    + rewrite Ej0. apply Fs; [exact Hj0|exact Ej0].
Qed.

End AttentionRows.

Section AttentionSoftmax.
Context `{TorchBackend}.

(** C3, as amended.  In a module built by the constructor the attention
    weights have the shape [query_len, key_len, batch, heads] and are
    normalised along the key axis.  On every line that keeps at least
    one key, and whose scores at the kept keys are finite numbers (the
    products have not overflowed): every key that the mask excludes
    weighs exactly 0, and, when the key length fits the format, the
    weights over the keys are numbers that add up to 1 within the
    bounds that rounding leaves, which are both 1 when nothing is
    rounded. *)
Theorem MultiHeadAttention_softmax_over_keys :
  forall heads d_model prob bias_arg st0 self st1
         q k v mask qh kh scores attn vp lq b d lk bk dk,
    MultiHeadAttention.init heads d_model prob bias_arg st0 = Ok (self, st1) ->
    shape q = [lq; b; d] -> shape k = [lk; bk; dk] ->
    (forall m, mask = Some m -> List.length (shape m) = 3) ->
    PrepareForMultiHeadAttention.forward (MultiHeadAttention.query self) q = Ok qh ->
    PrepareForMultiHeadAttention.forward (MultiHeadAttention.key self) k = Ok kh ->
    MultiHeadAttention.get_scores self qh kh = Ok scores ->
    MultiHeadAttention.attention_weights self q k v mask = Ok (attn, vp) ->
    exists nb nh,
      shape attn = [lq; lk; nb; nh] /\
      forall i bb h, i < lq -> bb < nb -> h < nh ->
        (forall j, j < lk -> excluded mask i j bb = false ->
           is_finite (fmul (at_ scores [i; j; bb; h])
                           (Fin (MultiHeadAttention.scale self)))) ->
        (exists j0, j0 < lk /\ excluded mask i j0 bb = false) ->
        (forall j, excluded mask i j bb = true -> at_ attn [i; j; bb; h] = Fin 0) /\
        (line_fits lk ->
         exists ws,
           axis_line attn 1 [i; 0; bb; h] = map Fin ws /\
           (softmax_sum_lower lk <= Rsum ws <= softmax_sum_upper lk)%R).
Proof.
  intros heads d_model prob bias_arg st0 self st1 q k v mask qh kh scores attn vp
    lq b d lk bk dk I Sq Sk Rm Eqh Ekh Esc E.
  edestruct attention_lines as (nb & nh & Sh & L);
    [exact I|exact Sq|exact Sk|exact Rm|exact Eqh|exact Ekh|exact Esc|exact E|].
  exists nb, nh. split; [exact Sh|].
  intros i bb h Hi Hb Hh Fs X.
  destruct (L i bb h Hi Hb Hh) as (R0 & _ & R2).
  destruct (@attention_line_scores mask
              (fun j => fmul (at_ scores [i; j; bb; h])
                             (Fin (MultiHeadAttention.scale self)))
              i bb lk Fs X) as (F & Xl).
  split.
  - intros j Ej. rewrite (R0 j Ej).
    destruct (softmax_value_unit F Xl (or_introl eq_refl)) as (w & -> & _ & Z).
    rewrite (Z eq_refl). reflexivity.
  - intros Fit.
    destruct (softmax_line_sum F Xl) as (ws & Ews & B).
    { rewrite length_map, length_seq. exact Fit. }
    rewrite length_map, length_seq in B.
    exists ws. split; [|exact B]. rewrite R2. exact Ews.
Qed.

End AttentionSoftmax.

Section LearnedEmbedding.
Context `{TorchBackend}.

(** The learned variant with gradient recording off, on tokens no longer
    than the table: the looked-up rows scaled by the square root of the
    model dimension, plus the first rows of the table. *)
Lemma EmbeddingsWithLearnedPositionalEncoding_within_table
  (self : EmbeddingsWithLearnedPositionalEncoding.t) x st n b l d e :
  grad_enabled st = false ->
  shape x = [n; b] ->
  shape (data (EmbeddingsWithLearnedPositionalEncoding.positional_encodings self))
    = [l; 1; d] ->
  embedding_dim (EmbeddingsWithLearnedPositionalEncoding.linear self) = d ->
  (0 <= EmbeddingsWithLearnedPositionalEncoding.d_model self)%Z ->
  Embedding_forward (EmbeddingsWithLearnedPositionalEncoding.linear self) x = Ok e ->
  n <= l ->
  exists out,
    EmbeddingsWithLearnedPositionalEncoding.forward self x st = Ok (out, st) /\
    shape out = [n; b; d] /\
    forall i j c, i < n -> j < b -> c < d ->
      at_ out [i; j; c]
      = fadd (fmul (at_ (table (EmbeddingsWithLearnedPositionalEncoding.linear self))
                        [Z.to_nat (at_ x [i; j]); c])
                   (Fin (sqrt (IZR (EmbeddingsWithLearnedPositionalEncoding.d_model
                                      self)))))
             (at_ (data (EmbeddingsWithLearnedPositionalEncoding.positional_encodings
                           self)) [i; 0; c]).
Proof.
  intros G Sx Sp Edim Hd Ee Hn.
  pose proof (Embedding_forward_Ok_inv _ _ Ee) as (Se & Ve).
  rewrite Sx, Edim in Se. simpl in Se.
  set (pe := EmbeddingsWithLearnedPositionalEncoding.positional_encodings self) in *.
  set (root := sqrt (IZR (EmbeddingsWithLearnedPositionalEncoding.d_model self))).
  assert (Emin : Nat.min n l = n) by lia.
  assert (Efw : EmbeddingsWithLearnedPositionalEncoding.forward self x st
          = lift (tensor_add (scale_tensor e root)
                    {| shape := [n; 1; d]; at_ := at_ (data pe) |}) st).
  { unfold EmbeddingsWithLearnedPositionalEncoding.forward.
    unfold shape_at. rewrite Sx. simpl nth_error.
    erewrite bind_lift_Ok; [|reflexivity].
    assert (Esl : grad_slice_to pe n st
              = Ok ({| data := {| shape := [n; 1; d]; at_ := at_ (data pe) |};
                       requires_grad := false; is_leaf := true |}, st)).
    { unfold grad_slice_to, is_grad_enabled, bind, lift, ret, slice_to.
      rewrite Sp, G, Emin. reflexivity. }
    fold pe. erewrite bind_Ok; [|exact Esl].
    erewrite bind_lift_Ok; [|reflexivity].
    erewrite bind_lift_Ok; [|reflexivity].
    erewrite bind_lift_Ok; [|exact Ee].
    assert (Eroot : math_sqrt (EmbeddingsWithLearnedPositionalEncoding.d_model self)
                    = Ok root).
    { unfold math_sqrt.
      destruct (EmbeddingsWithLearnedPositionalEncoding.d_model self <? 0)%Z eqn:L;
        [|reflexivity].
      apply Z.ltb_lt in L. lia. }
    erewrite bind_lift_Ok; [|exact Eroot].
    reflexivity. }
  destruct (tensor_add_rows_broadcast (scale_tensor e root)
              {| shape := [n; 1; d]; at_ := at_ (data pe) |}
              Se eq_refl (or_introl eq_refl)) as (out & Eo & So & Vo).
  exists out. rewrite Efw, Eo. split; [reflexivity|]. split; [exact So|].
  intros i j c Hi Hj Hc. rewrite (Vo i j c Hi Hj Hc). simpl.
  rewrite Ve. simpl. unfold bcomp.
  destruct (n =? 1) eqn:E1; [|reflexivity].
  apply Nat.eqb_eq in E1. replace i with 0 by lia. reflexivity.
Qed.

End LearnedEmbedding.

Section AttentionTotal.
Context `{TorchBackend}.

Lemma MultiHeadAttention_init_projections heads d_model prob b st m st' :
  MultiHeadAttention.init heads d_model prob b st = Ok (m, st') ->
  forall pm,
    pm = MultiHeadAttention.query m \/ pm = MultiHeadAttention.key m
    \/ pm = MultiHeadAttention.value m ->
    PrepareForMultiHeadAttention.heads pm = heads /\
    PrepareForMultiHeadAttention.d_k pm = (d_model / heads)%Z /\
    in_features (PrepareForMultiHeadAttention.linear pm) = Z.to_nat d_model /\
    out_features (PrepareForMultiHeadAttention.linear pm)
      = Z.to_nat (heads * (d_model / heads)).
Proof.
  unfold MultiHeadAttention.init. intros E.
  apply bind_Ok_inv in E as (dk & s1 & Edk & E).
  apply lift_Ok_inv in Edk as (Edk & ->).
  apply bind_Ok_inv in E as (q & s2 & Eq & E).
  apply bind_Ok_inv in E as (k & s3 & Ek & E).
  apply bind_Ok_inv in E as (v & s4 & Ev & E).
  apply bind_Ok_inv in E as (o & s5 & Eo & E).
  apply bind_Ok_inv in E as (dr & s6 & Edr & E).
  apply bind_Ok_inv in E as (root & s7 & Eroot & E).
  apply bind_Ok_inv in E as (sc & s8 & Esc & E).
  apply ret_Ok_inv in E as (-> & ->). simpl.
  unfold py_floordiv in Edk.
  destruct (heads =? 0)%Z; [discriminate|]. injection Edk as <-.
  apply Prepare_init_Ok_inv in Eq as (_ & _ & Hq & Dq & Iq & Oq & _).
  apply Prepare_init_Ok_inv in Ek as (_ & _ & Hk & Dk & Ik & Ok' & _).
  apply Prepare_init_Ok_inv in Ev as (_ & _ & Hv & Dv & Iv & Ov & _).
  intros pm [->|[->| ->]]; auto.
Qed.

Lemma Prepare_forward_Ok pm x l b dm :
  shape x = [l; b; dm] ->
  in_features (PrepareForMultiHeadAttention.linear pm) = dm ->
  (0 <= PrepareForMultiHeadAttention.heads pm)%Z ->
  (0 <= PrepareForMultiHeadAttention.d_k pm)%Z ->
  out_features (PrepareForMultiHeadAttention.linear pm)
    = Z.to_nat (PrepareForMultiHeadAttention.heads pm
                * PrepareForMultiHeadAttention.d_k pm) ->
  exists y,
    PrepareForMultiHeadAttention.forward pm x = Ok y /\
    shape y = [l; b; Z.to_nat (PrepareForMultiHeadAttention.heads pm);
               Z.to_nat (PrepareForMultiHeadAttention.d_k pm)].
Proof.
  intros Sx Ein Hh Hd Eout.
  unfold PrepareForMultiHeadAttention.forward, Linear_forward, view_sizes.
  rewrite Sx. simpl rev. simpl app. rewrite <- Ein, Nat.eqb_refl. simpl rbind.
  rewrite check_sizes_Ok by (repeat constructor; assumption).
  simpl rbind. unfold view. simpl shape. simpl app. simpl map.
  replace (numel [l; b; out_features (PrepareForMultiHeadAttention.linear pm)]
           =? numel [l; b; Z.to_nat (PrepareForMultiHeadAttention.heads pm);
                     Z.to_nat (PrepareForMultiHeadAttention.d_k pm)])
    with true.
  - eexists. split; reflexivity.
  - symmetry. apply Nat.eqb_eq. rewrite Eout, Z2Nat.inj_mul by assumption.
    simpl. lia.
Qed.

Lemma Dropout_forward_tensor_Ok d x st :
  exists t st', Dropout_forward d (PyTensor x) st = Ok (t, st') /\ shape t = shape x.
Proof.
  simpl.
  destruct (negb (training d) || Qeq_bool (p d) 0 || (numel (shape x) =? 0)).
  - exists x, st. split; reflexivity.
  - destruct (dropout_noise (default_generator st) (p d) (shape x)) as [noise g].
    eexists. eexists. split; reflexivity.
Qed.

(** On inputs of the documented shapes, with no mask or a mask of three
    axes that meets the contract, a module built by the constructor runs
    to the end: the attention weights have the shape
    [query_len, key_len, batch, heads], and [forward] returns [None]. *)
Lemma MultiHeadAttention_forward_total heads d_model prob bias_arg st0 self st1
    q k v mask lq lk b st :
  MultiHeadAttention.init heads d_model prob bias_arg st0 = Ok (self, st1) ->
  shape q = [lq; b; Z.to_nat d_model] ->
  shape k = [lk; b; Z.to_nat d_model] ->
  shape v = [lk; b; Z.to_nat d_model] ->
  match mask with
  | Some m => List.length (shape m) = 3 /\ mask_contract (shape m) lq lk b = true
  | None => True
  end ->
  (exists attn vp,
     MultiHeadAttention.attention_weights self q k v mask = Ok (attn, vp) /\
     shape attn = [lq; lk; b; Z.to_nat heads])
  /\ exists st', MultiHeadAttention.forward self q k v mask st = Ok (PyNone, st').
Proof.
  intros I Sq Sk Sv Hm.
  pose proof (MultiHeadAttention_init_projections _ _ _ _ _ I) as P.
  apply MultiHeadAttention_init_Ok_inv in I
    as (Hh & _ & _ & _ & Edk & Hdk & _ & Edim & _).
  rewrite Edk in Hdk.
  destruct (P _ (or_introl eq_refl)) as (Hq & Dq & Iq & Oq).
  destruct (P _ (or_intror (or_introl eq_refl))) as (Hk & Dk & Ik & Ok').
  destruct (P _ (or_intror (or_intror eq_refl))) as (Hv & Dv & Iv & Ov).
  destruct (@Prepare_forward_Ok (MultiHeadAttention.query self) q lq b
              (Z.to_nat d_model) Sq Iq) as (qp & Eq & Sqp);
    [rewrite Hq; lia | rewrite Dq; lia | rewrite Hq, Dq; exact Oq |].
  destruct (@Prepare_forward_Ok (MultiHeadAttention.key self) k lk b
              (Z.to_nat d_model) Sk Ik) as (kp & Ek & Skp);
    [rewrite Hk; lia | rewrite Dk; lia | rewrite Hk, Dk; exact Ok' |].
  destruct (@Prepare_forward_Ok (MultiHeadAttention.value self) v lk b
              (Z.to_nat d_model) Sv Iv) as (vp & Ev & Svp);
    [rewrite Hv; lia | rewrite Dv; lia | rewrite Hv, Dv; exact Ov |].
  rewrite Hq, Dq in Sqp. rewrite Hk, Dk in Skp. rewrite Hv, Dv in Svp.
  set (nh := Z.to_nat heads) in *. set (nd := Z.to_nat (d_model / heads)) in *.
  assert (A : exists attn,
    MultiHeadAttention.attention_weights self q k v mask = Ok (attn, vp) /\
    shape attn = [lq; lk; b; nh]).
  { unfold MultiHeadAttention.attention_weights, MultiHeadAttention.get_scores,
      Softmax_forward.
    rewrite Sq. simpl unpack3. simpl rbind at 1.
    rewrite Eq. simpl rbind at 1. rewrite Ek. simpl rbind at 1.
    rewrite Ev. simpl rbind at 1.
    unfold einsum_ibhd_jbhd_ijbh. rewrite Sqp, Skp.
    unfold einsum_dim. rewrite !Nat.eqb_refl. simpl rbind at 1.
    cbv zeta. rewrite Edim.
    destruct mask as [m|].
    - destruct Hm as (Lm & C).
      rewrite (prepare_mask_decided self m lq b [nh; nd] lk [b; nh; nd]) by lia.
      rewrite C. simpl rmap. simpl rbind at 1.
      unfold masked_fill, broadcast_op. simpl shape.
      destruct (shape m) as [|m0 [|m1 [|m2 [|]]]] eqn:Sm; try discriminate Lm.
      simpl app.
      rewrite (@broadcast_shapes_mask lq lk b b b nh m0 m1 m2 C)
        by (unfold einsum_dim; rewrite Nat.eqb_refl; reflexivity).
      simpl. eexists. split; reflexivity.
    - simpl. eexists. split; reflexivity. }
  destruct A as (attn & Ea & Sa).
  split; [exists attn, vp; auto|].
  unfold MultiHeadAttention.forward.
  erewrite bind_lift_Ok; [|exact Ea]. simpl fst. simpl snd.
  destruct (Dropout_forward_tensor_Ok (MultiHeadAttention.dropout self) attn st)
    as (t & st' & Ed & St).
  erewrite bind_Ok; [|exact Ed].
  unfold einsum_ijbh_jbhd_ibhd. rewrite St, Sa, Svp.
  unfold einsum_dim. rewrite !Nat.eqb_refl. simpl.
  exists st'. reflexivity.
Qed.

End AttentionTotal.

(** * Further properties of the modules *)

(** ** Splitting the projection into heads *)

Section SplitHeads.
Context `{TorchBackend}.

Lemma numel_app a b : numel (a ++ b) = numel a * numel b.
Proof.
  unfold numel. induction a as [|x a IH]; simpl; [lia|].
  rewrite IH. lia.
Qed.

Lemma in_boundsb_numel_pos idx s : in_boundsb idx s = true -> 0 < numel s.
Proof.
  revert s. induction idx as [|i idx IH]; intros [|d s]; simpl;
    try discriminate; [unfold numel; simpl; lia|].
  intros E. apply andb_prop in E as (Hi & E). apply Nat.ltb_lt in Hi.
  specialize (IH s E). change (numel (d :: s)) with (d * numel s). nia.
Qed.

Lemma ravel_lt idx s : in_boundsb idx s = true -> ravel s idx < numel s.
Proof.
  revert s. induction idx as [|i idx IH]; intros [|d s]; simpl;
    try discriminate; [unfold numel; simpl; lia|].
  intros E. apply andb_prop in E as (Hi & E). apply Nat.ltb_lt in Hi.
  specialize (IH s E). change (numel (d :: s)) with (d * numel s). nia.
Qed.

Lemma unravel_ravel idx s :
  in_boundsb idx s = true -> unravel s (ravel s idx) = idx.
Proof.
  revert s. induction idx as [|i idx IH]; intros [|d s]; simpl;
    try discriminate; [reflexivity|].
  intros E. apply andb_prop in E as (Hi & E).
  pose proof (ravel_lt _ _ E) as L.
  assert (N : numel s <> 0) by lia.
  rewrite Nat.div_add_l by exact N.
  rewrite (Nat.div_small _ _ L), Nat.add_0_r.
  rewrite Nat.add_comm, Nat.Div0.mod_add, (Nat.mod_small _ _ L).
  rewrite (IH s E). reflexivity.
Qed.

Lemma in_boundsb_app a b s t :
  in_boundsb a s = true -> in_boundsb b t = true ->
  in_boundsb (a ++ b) (s ++ t) = true.
Proof.
  revert s. induction a as [|i a IH]; intros [|d s]; simpl; try discriminate;
    [auto|].
  intros E Eb. apply andb_prop in E as (Hi & E).
  rewrite Hi, (IH s E Eb). reflexivity.
Qed.

Lemma ravel_split_last head pre nh nd h d :
  in_boundsb pre head = true ->
  ravel (head ++ [nh; nd]) (pre ++ [h; d])
  = ravel (head ++ [nh * nd]) (pre ++ [h * nd + d]).
Proof.
  revert head. induction pre as [|i pre IH]; intros [|x head]; simpl;
    try discriminate.
  - intros _. unfold numel. simpl. lia.
  - intros E. apply andb_prop in E as (_ & E).
    rewrite (IH head E), !numel_app. unfold numel. simpl. lia.
Qed.

(** X1.  The projection is cut into heads along its last axis: the result
    has the axes of the input but the last, then [heads] and [d_k], and its
    entry for head [h] and feature [d] is output [h * d_k + d] of the linear
    map at the same position. *)
Theorem PrepareForMultiHeadAttention_forward_heads :
  forall pm x y,
    PrepareForMultiHeadAttention.forward pm x = Ok y ->
    shape y = removelast (shape x)
              ++ [Z.to_nat (PrepareForMultiHeadAttention.heads pm);
                  Z.to_nat (PrepareForMultiHeadAttention.d_k pm)]
    /\
    forall pre h d,
      in_boundsb pre (removelast (shape x)) = true ->
      h < Z.to_nat (PrepareForMultiHeadAttention.heads pm) ->
      d < Z.to_nat (PrepareForMultiHeadAttention.d_k pm) ->
      at_ y (pre ++ [h; d])
      = let o := h * Z.to_nat (PrepareForMultiHeadAttention.d_k pm) + d in
        let dot := fsum (map (fun k =>
                     fmul (at_ x (pre ++ [k]))
                          (at_ (weight (PrepareForMultiHeadAttention.linear pm)) [o; k]))
                     (seq 0 (in_features (PrepareForMultiHeadAttention.linear pm)))) in
        match bias (PrepareForMultiHeadAttention.linear pm) with
        | Some b => fadd dot (at_ b [o])
        | None => dot
        end.
Proof.
  intros pm x y E.
  unfold PrepareForMultiHeadAttention.forward, view_sizes in E.
  apply rbind_Ok_inv in E as (y0 & E0 & E).
  apply rbind_Ok_inv in E as (hs & Ehs & E).
  apply check_sizes_Ok_inv in Ehs as (_ & ->).
  simpl map in E.
  set (nh := Z.to_nat (PrepareForMultiHeadAttention.heads pm)) in *.
  set (nd := Z.to_nat (PrepareForMultiHeadAttention.d_k pm)) in *.
  apply Linear_forward_Ok_inv in E0 as (S0 & _ & V0).
  unfold view in E.
  destruct (numel (shape y0) =? numel (removelast (shape x) ++ [nh; nd])) eqn:N;
    [|discriminate].
  injection E as <-. simpl. split; [reflexivity|].
  intros pre h d B Hh Hd.
  apply Nat.eqb_eq in N. rewrite S0, !numel_app in N.
  pose proof (in_boundsb_numel_pos _ _ B) as P.
  assert (Eo : out_features (PrepareForMultiHeadAttention.linear pm) = nh * nd).
  { unfold numel in N at 2 4. simpl in N. nia. }
  rewrite (ravel_split_last _ _ nh nd h d B), S0, Eo.
  rewrite unravel_ravel.
  - rewrite V0. cbv zeta. rewrite removelast_last, last_last. reflexivity.
  - apply in_boundsb_app; [exact B|]. simpl.
    replace (h * nd + d <? nh * nd) with true; [reflexivity|].
    symmetry. apply Nat.ltb_lt. nia.
Qed.

End SplitHeads.

(** ** How the construction of attention fails *)

Section AttentionConstructionErrors.
Context `{TorchBackend}.

Lemma bind_Raise {A B} (m : M A) (k : A -> M B) s e :
  m s = Raise e -> bind m k s = Raise e.
Proof.
  unfold bind. intros ->. reflexivity.
Qed.

Lemma nn_Dropout_Raise prob :
  (prob < 0)%Q \/ (1 < prob)%Q -> nn_Dropout prob = Raise ValueError.
Proof.
  intros Hp. unfold nn_Dropout.
  destruct (Qlt_le_dec prob 0) as [_|L0]; [reflexivity|].
  destruct (Qlt_le_dec 1 prob) as [_|L1]; [reflexivity|].
  exfalso. destruct Hp as [Hp|Hp].
  - apply (Qlt_not_le _ _ Hp L0).
  - apply (Qlt_not_le _ _ Hp L1).
Qed.

(** The constructor up to the dropout module: the four linear maps are
    built whenever the sizes are not negative. *)
Lemma MultiHeadAttention_init_prefix heads d_model prob b st :
  heads <> 0%Z -> (0 <= d_model)%Z -> (0 <= heads * (d_model / heads))%Z ->
  exists q k v o s,
    MultiHeadAttention.init heads d_model prob b st
    = (dropout <- lift (nn_Dropout prob) ;;
       root <- lift (math_sqrt (d_model / heads)) ;;
       scale <- lift (py_truediv 1 root) ;;
       ret {| MultiHeadAttention.d_k := (d_model / heads)%Z;
              MultiHeadAttention.heads := heads;
              MultiHeadAttention.query := q;
              MultiHeadAttention.key := k;
              MultiHeadAttention.value := v;
              MultiHeadAttention.softmax := {| dim := 1 |};
              MultiHeadAttention.output := o;
              MultiHeadAttention.dropout := dropout;
              MultiHeadAttention.scale := scale;
              MultiHeadAttention.attn := PyNone |}) s.
Proof.
  intros Hh Hd Ho. unfold MultiHeadAttention.init.
  assert (E0 : py_floordiv d_model heads = Ok (d_model / heads)%Z).
  { unfold py_floordiv. destruct (heads =? 0)%Z eqn:E; [|reflexivity].
    apply Z.eqb_eq in E. contradiction. }
  erewrite bind_lift_Ok; [|exact E0].
  destruct (Prepare_init_Ok heads (d_model / heads) b st Hd Ho) as (q & s1 & Eq).
  erewrite bind_Ok; [|exact Eq].
  destruct (Prepare_init_Ok heads (d_model / heads) b s1 Hd Ho) as (k & s2 & Ek).
  erewrite bind_Ok; [|exact Ek].
  destruct (Prepare_init_Ok heads (d_model / heads) true s2 Hd Ho) as (v & s3 & Ev).
  erewrite bind_Ok; [|exact Ev].
  destruct (nn_Linear_Ok nn_Linear_default_bias s3 Hd Hd) as (o & s4 & Eo).
  erewrite bind_Ok; [|exact Eo].
  exists q, k, v, o, s4. reflexivity.
Qed.

(** X2.  [MultiHeadAttention(heads, d_model, dropout_prob, bias)] is built
    exactly when 0 < heads <= d_model and 0 <= dropout_prob <= 1.  With
    heads = 0 the division raises [ZeroDivisionError]; with more heads
    than model dimensions the head dimension is 0 and the scale
    [1 / sqrt(d_k)] raises [ZeroDivisionError]; a dropout probability
    outside [0, 1] raises [ValueError]. *)
Theorem MultiHeadAttention_init_outcomes :
  forall heads d_model prob b st,
    ((exists m st', MultiHeadAttention.init heads d_model prob b st = Ok (m, st'))
     <-> (0 < heads <= d_model)%Z /\ (0 <= prob)%Q /\ (prob <= 1)%Q)
    /\
    (heads = 0%Z ->
     MultiHeadAttention.init heads d_model prob b st = Raise ZeroDivisionError)
    /\
    ((0 <= d_model < heads)%Z -> (0 <= prob)%Q -> (prob <= 1)%Q ->
     MultiHeadAttention.init heads d_model prob b st = Raise ZeroDivisionError)
    /\
    ((0 < heads)%Z -> (0 <= d_model)%Z -> (prob < 0)%Q \/ (1 < prob)%Q ->
     MultiHeadAttention.init heads d_model prob b st = Raise ValueError).
Proof.
  intros heads d_model prob b st. split; [|split; [|split]].
  - split.
    + intros (m & st' & E).
      apply MultiHeadAttention_init_Ok_inv in E as (Hh & P0 & P1 & _). auto.
    + intros (Hh & P0 & P1). apply MultiHeadAttention_init_Ok; assumption.
  - intros ->. reflexivity.
  - intros Hd P0 P1.
    assert (E0 : (d_model / heads = 0)%Z) by (apply Z.div_small; lia).
    destruct (@MultiHeadAttention_init_prefix heads d_model prob b st)
      as (q & k & v & o & s & ->); [lia|lia|rewrite E0; lia|].
    erewrite bind_lift_Ok; [|apply nn_Dropout_Ok; assumption].
    rewrite E0.
    erewrite bind_lift_Ok; [|reflexivity].
    apply bind_Raise. unfold lift, py_truediv.
    destruct (Req_dec_T (sqrt (IZR 0)) 0) as [_|N]; [reflexivity|].
    exfalso. apply N. apply sqrt_0.
  - intros Hh Hd Hp.
    destruct (@MultiHeadAttention_init_prefix heads d_model prob b st)
      as (q & k & v & o & s & ->); [lia|lia| |].
    + pose proof (Z.div_pos d_model heads Hd Hh). nia.
    + apply bind_Raise. unfold lift. rewrite (nn_Dropout_Raise Hp). reflexivity.
Qed.

(** X3.  In a module that was built, the query, key and value projections
    map [d_model] features to [heads * d_k] features; that is never more
    than [d_model], and equal to it exactly when [heads] divides
    [d_model]. *)
Theorem MultiHeadAttention_projection_width :
  forall heads d_model prob b st m st',
    MultiHeadAttention.init heads d_model prob b st = Ok (m, st') ->
    forall pm,
      pm = MultiHeadAttention.query m \/ pm = MultiHeadAttention.key m
      \/ pm = MultiHeadAttention.value m ->
      in_features (PrepareForMultiHeadAttention.linear pm) = Z.to_nat d_model /\
      out_features (PrepareForMultiHeadAttention.linear pm)
        = Z.to_nat heads * Z.to_nat (MultiHeadAttention.d_k m) /\
      out_features (PrepareForMultiHeadAttention.linear pm) <= Z.to_nat d_model /\
      (out_features (PrepareForMultiHeadAttention.linear pm) = Z.to_nat d_model
       <-> (d_model mod heads = 0)%Z).
Proof.
  intros heads d_model prob b st m st' E pm Hpm.
  destruct (MultiHeadAttention_init_projections _ _ _ _ _ E Hpm)
    as (_ & _ & Ein & Eout).
  apply MultiHeadAttention_init_Ok_inv in E as (Hh & _ & _ & _ & Edk & Hdk & _).
  rewrite Edk in *.
  pose proof (Z.div_mod d_model heads ltac:(lia)) as DM.
  pose proof (Z.mod_pos_bound d_model heads ltac:(lia)) as MB.
  split; [exact Ein|]. rewrite Eout.
  split; [apply Z2Nat.inj_mul; lia|].
  split; [apply Z2Nat.inj_le; lia|].
  split.
  - intros Eq. apply Z2Nat.inj in Eq; lia.
  - intros Em. f_equal. lia.
Qed.

End AttentionConstructionErrors.

(** ** Key and value lengths *)

Section AttentionLengths.
Context `{TorchBackend}.

Lemma attention_weights_shapes heads d_model prob bias_arg st0 self st1
    q k v mask lq lk lv b :
  MultiHeadAttention.init heads d_model prob bias_arg st0 = Ok (self, st1) ->
  shape q = [lq; b; Z.to_nat d_model] ->
  shape k = [lk; b; Z.to_nat d_model] ->
  shape v = [lv; b; Z.to_nat d_model] ->
  match mask with
  | Some m => List.length (shape m) = 3 /\ mask_contract (shape m) lq lk b = true
  | None => True
  end ->
  exists attn vp,
    MultiHeadAttention.attention_weights self q k v mask = Ok (attn, vp) /\
    shape attn = [lq; lk; b; Z.to_nat heads] /\
    shape vp = [lv; b; Z.to_nat heads; Z.to_nat (d_model / heads)].
Proof.
  intros I Sq Sk Sv Hm.
  pose proof (MultiHeadAttention_init_projections _ _ _ _ _ I) as P.
  apply MultiHeadAttention_init_Ok_inv in I
    as (Hh & _ & _ & _ & Edk & Hdk & _ & Edim & _).
  rewrite Edk in Hdk.
  destruct (P _ (or_introl eq_refl)) as (Hq & Dq & Iq & Oq).
  destruct (P _ (or_intror (or_introl eq_refl))) as (Hk & Dk & Ik & Ok').
  destruct (P _ (or_intror (or_intror eq_refl))) as (Hv & Dv & Iv & Ov).
  destruct (@Prepare_forward_Ok _ (MultiHeadAttention.query self) q lq b
              (Z.to_nat d_model) Sq Iq) as (qp & Eq & Sqp);
    [rewrite Hq; lia | rewrite Dq; lia | rewrite Hq, Dq; exact Oq |].
  destruct (@Prepare_forward_Ok _ (MultiHeadAttention.key self) k lk b
              (Z.to_nat d_model) Sk Ik) as (kp & Ek & Skp);
    [rewrite Hk; lia | rewrite Dk; lia | rewrite Hk, Dk; exact Ok' |].
  destruct (@Prepare_forward_Ok _ (MultiHeadAttention.value self) v lv b
              (Z.to_nat d_model) Sv Iv) as (vp & Ev & Svp);
    [rewrite Hv; lia | rewrite Dv; lia | rewrite Hv, Dv; exact Ov |].
  rewrite Hq, Dq in Sqp. rewrite Hk, Dk in Skp. rewrite Hv, Dv in Svp.
  set (nh := Z.to_nat heads) in *. set (nd := Z.to_nat (d_model / heads)) in *.
  assert (A : exists attn,
    MultiHeadAttention.attention_weights self q k v mask = Ok (attn, vp) /\
    shape attn = [lq; lk; b; nh]).
  { unfold MultiHeadAttention.attention_weights, MultiHeadAttention.get_scores,
      Softmax_forward.
    rewrite Sq. simpl unpack3. simpl rbind at 1.
    rewrite Eq. simpl rbind at 1. rewrite Ek. simpl rbind at 1.
    rewrite Ev. simpl rbind at 1.
    unfold einsum_ibhd_jbhd_ijbh. rewrite Sqp, Skp.
    unfold einsum_dim. rewrite !Nat.eqb_refl. simpl rbind at 1.
    cbv zeta. rewrite Edim.
    destruct mask as [m|].
    - destruct Hm as (Lm & C).
      rewrite (prepare_mask_decided self m lq b [nh; nd] lk [b; nh; nd]) by lia.
      rewrite C. simpl rmap. simpl rbind at 1.
      unfold masked_fill, broadcast_op. simpl shape.
      destruct (shape m) as [|m0 [|m1 [|m2 [|]]]] eqn:Sm; try discriminate Lm.
      simpl app.
      rewrite (@broadcast_shapes_mask lq lk b b b nh m0 m1 m2 C)
        by (unfold einsum_dim; rewrite Nat.eqb_refl; reflexivity).
      simpl. eexists. split; reflexivity.
    - simpl. eexists. split; reflexivity. }
  destruct A as (attn & Ea & Sa).
  exists attn, vp. auto.
Qed.

(** X4.  On a query of shape [query_len, batch, d_model], a key of shape
    [key_len, batch, d_model] and a value of shape
    [value_len, batch, d_model], with no mask or a mask of three axes that
    meets the contract, a module that was built runs to its end and
    returns [None] when the value is as long as the key, and raises
    [RuntimeError], from the second einsum, when the two lengths differ
    and neither is 1. *)
Theorem MultiHeadAttention_forward_key_value_lengths :
  forall heads d_model prob bias_arg st0 self st1 q k v mask lq lk lv b st,
    MultiHeadAttention.init heads d_model prob bias_arg st0 = Ok (self, st1) ->
    shape q = [lq; b; Z.to_nat d_model] ->
    shape k = [lk; b; Z.to_nat d_model] ->
    shape v = [lv; b; Z.to_nat d_model] ->
    match mask with
    | Some m => List.length (shape m) = 3 /\ mask_contract (shape m) lq lk b = true
    | None => True
    end ->
    (lv = lk -> exists st', MultiHeadAttention.forward self q k v mask st = Ok (PyNone, st'))
    /\
    (lv <> lk -> lv <> 1 -> lk <> 1 ->
     MultiHeadAttention.forward self q k v mask st = Raise RuntimeError).
Proof.
  intros heads d_model prob bias_arg st0 self st1 q k v mask lq lk lv b st
    I Sq Sk Sv Hm.
  edestruct attention_weights_shapes with (mask := mask)
    as (attn & vp & Ea & Sa & Svp);
    [exact I | exact Sq | exact Sk | exact Sv | exact Hm |].
  destruct (Dropout_forward_tensor_Ok (MultiHeadAttention.dropout self) attn st)
    as (t & st' & Ed & St).
  assert (F : MultiHeadAttention.forward self q k v mask st
              = (x <- lift (einsum_ijbh_jbhd_ibhd t vp) ;; ret PyNone) st').
  { unfold MultiHeadAttention.forward.
    erewrite bind_lift_Ok; [|exact Ea]. simpl fst. simpl snd.
    erewrite bind_Ok; [|exact Ed]. reflexivity. }
  rewrite F. unfold einsum_ijbh_jbhd_ibhd. rewrite St, Sa, Svp.
  unfold einsum_dim. split.
  - intros ->. rewrite !Nat.eqb_refl. simpl. exists st'. reflexivity.
  - intros N1 N2 N3.
    assert (E1 : (lk =? lv) = false) by (apply Nat.eqb_neq; lia).
    apply Nat.eqb_neq in N2, N3. rewrite E1, N2, N3. reflexivity.
Qed.

End AttentionLengths.

(** ** Attention weights as probabilities *)

Section AttentionProbabilities.
Context `{TorchBackend}.
Local Open Scope R_scope.

(** X5.  In a module that was built, on a line that keeps at least one
    key and whose scores at the kept keys are finite numbers (the
    products have not overflowed), every attention weight is a number
    between 0 and 1, whatever the format rounds. *)
Theorem MultiHeadAttention_weights_in_unit_interval :
  forall heads d_model prob bias_arg st0 self st1
         q k v mask qh kh scores attn vp lq b d lk bk dk,
    MultiHeadAttention.init heads d_model prob bias_arg st0 = Ok (self, st1) ->
    shape q = [lq; b; d] -> shape k = [lk; bk; dk] ->
    (forall m, mask = Some m -> List.length (shape m) = 3%nat) ->
    PrepareForMultiHeadAttention.forward (MultiHeadAttention.query self) q = Ok qh ->
    PrepareForMultiHeadAttention.forward (MultiHeadAttention.key self) k = Ok kh ->
    MultiHeadAttention.get_scores self qh kh = Ok scores ->
    MultiHeadAttention.attention_weights self q k v mask = Ok (attn, vp) ->
    forall i j bb h,
      in_boundsb [i; j; bb; h] (shape attn) = true ->
      (forall j', (j' < lk)%nat -> excluded mask i j' bb = false ->
         is_finite (fmul (at_ scores [i; j'; bb; h])
                         (Fin (MultiHeadAttention.scale self)))) ->
      (exists j0, (j0 < lk)%nat /\ excluded mask i j0 bb = false) ->
      exists w, at_ attn [i; j; bb; h] = Fin w /\ 0 <= w <= 1.
Proof.
  intros heads d_model prob bias_arg st0 self st1 q k v mask qh kh scores attn vp
    lq b d lk bk dk I Sq Sk Rm Eqh Ekh Esc E i j bb h Hin Fs X.
  edestruct attention_lines as (nb & nh & Sh & L);
    [exact I|exact Sq|exact Sk|exact Rm|exact Eqh|exact Ekh|exact Esc|exact E|].
  rewrite Sh in Hin. simpl in Hin.
  apply andb_true_iff in Hin as (Hi & Hin). apply andb_true_iff in Hin as (Hj & Hin).
  apply andb_true_iff in Hin as (Hb & Hin). apply andb_true_iff in Hin as (Hh & _).
  apply Nat.ltb_lt in Hi, Hj, Hb, Hh.
  destruct (L i bb h Hi Hb Hh) as (_ & R1 & _).
  specialize (R1 j Hj).
  destruct (@attention_line_scores mask
              (fun j => fmul (at_ scores [i; j; bb; h])
                             (Fin (MultiHeadAttention.scale self)))
              i bb lk Fs X) as (F & Xl).
  rewrite R1.
  edestruct softmax_value_unit as (w & Ew & Hw & _); [exact F|exact Xl| |].
  - right.
    apply (in_map (fun j' => if excluded mask i j' bb then NInf
                            else fmul (at_ scores [i; j'; bb; h])
                                      (Fin (MultiHeadAttention.scale self)))
                  (seq 0 lk) j).
    apply in_seq. lia.
  - exists w. split; [exact Ew|exact Hw].
Qed.

(** X6.  When the mask leaves one key to a query, and the score of that
    key is a finite number, the key takes the whole weight: exactly 1,
    whatever the format rounds. *)
Theorem MultiHeadAttention_single_key_weight_one :
  forall heads d_model prob bias_arg st0 self st1
         q k v mask qh kh scores attn vp lq b d lk bk dk,
    MultiHeadAttention.init heads d_model prob bias_arg st0 = Ok (self, st1) ->
    shape q = [lq; b; d] -> shape k = [lk; bk; dk] ->
    (forall m, mask = Some m -> List.length (shape m) = 3%nat) ->
    PrepareForMultiHeadAttention.forward (MultiHeadAttention.query self) q = Ok qh ->
    PrepareForMultiHeadAttention.forward (MultiHeadAttention.key self) k = Ok kh ->
    MultiHeadAttention.get_scores self qh kh = Ok scores ->
    MultiHeadAttention.attention_weights self q k v mask = Ok (attn, vp) ->
    forall i j0 bb h,
      in_boundsb [i; j0; bb; h] (shape attn) = true ->
      excluded mask i j0 bb = false ->
      is_finite (fmul (at_ scores [i; j0; bb; h])
                      (Fin (MultiHeadAttention.scale self))) ->
      (forall j, (j < lk)%nat -> j <> j0 -> excluded mask i j bb = true) ->
      at_ attn [i; j0; bb; h] = Fin 1.
Proof.
  intros heads d_model prob bias_arg st0 self st1 q k v mask qh kh scores attn vp
    lq b d lk bk dk I Sq Sk Rm Eqh Ekh Esc E i j0 bb h Hin E0 (r0 & F0) Ex.
  edestruct attention_lines as (nb & nh & Sh & L);
    [exact I|exact Sq|exact Sk|exact Rm|exact Eqh|exact Ekh|exact Esc|exact E|].
  rewrite Sh in Hin. simpl in Hin.
  apply andb_true_iff in Hin as (Hi & Hin). apply andb_true_iff in Hin as (Hj0 & Hin).
  apply andb_true_iff in Hin as (Hb & Hin). apply andb_true_iff in Hin as (Hh & _).
  apply Nat.ltb_lt in Hi, Hj0, Hb, Hh.
  destruct (L i bb h Hi Hb Hh) as (_ & R1 & _).
  rewrite (R1 j0 Hj0).
  apply (@softmax_value_single _
           (fun j' => if excluded mask i j' bb then NInf
                      else fmul (at_ scores [i; j'; bb; h])
                                (Fin (MultiHeadAttention.scale self)))
           lk j0 r0 Hj0).
  - rewrite E0. exact F0.
  - intros j Hj N. rewrite (Ex j Hj N). reflexivity.
Qed.

(** X23.  A score that has overflowed spoils its line: when the scaled
    score of a key that the mask keeps is plus infinity or NaN, every
    weight of that query, batch entry and head is NaN. *)
Theorem MultiHeadAttention_overflowed_score_line :
  forall heads d_model prob bias_arg st0 self st1
         q k v mask qh kh scores attn vp lq b d lk bk dk,
    MultiHeadAttention.init heads d_model prob bias_arg st0 = Ok (self, st1) ->
    shape q = [lq; b; d] -> shape k = [lk; bk; dk] ->
    (forall m, mask = Some m -> List.length (shape m) = 3%nat) ->
    PrepareForMultiHeadAttention.forward (MultiHeadAttention.query self) q = Ok qh ->
    PrepareForMultiHeadAttention.forward (MultiHeadAttention.key self) k = Ok kh ->
    MultiHeadAttention.get_scores self qh kh = Ok scores ->
    MultiHeadAttention.attention_weights self q k v mask = Ok (attn, vp) ->
    forall i j0 bb h,
      in_boundsb [i; j0; bb; h] (shape attn) = true ->
      excluded mask i j0 bb = false ->
      fmul (at_ scores [i; j0; bb; h]) (Fin (MultiHeadAttention.scale self)) = PInf \/
      fmul (at_ scores [i; j0; bb; h]) (Fin (MultiHeadAttention.scale self)) = NaN ->
      forall j, (j < lk)%nat -> at_ attn [i; j; bb; h] = NaN.
Proof.
  intros heads d_model prob bias_arg st0 self st1 q k v mask qh kh scores attn vp
    lq b d lk bk dk I Sq Sk Rm Eqh Ekh Esc E i j0 bb h Hin E0 P j Hj.
  edestruct attention_lines as (nb & nh & Sh & L);
    [exact I|exact Sq|exact Sk|exact Rm|exact Eqh|exact Ekh|exact Esc|exact E|].
  rewrite Sh in Hin. simpl in Hin.
  apply andb_true_iff in Hin as (Hi & Hin). apply andb_true_iff in Hin as (Hj0 & Hin).
  apply andb_true_iff in Hin as (Hb & Hin). apply andb_true_iff in Hin as (Hh & _).
  apply Nat.ltb_lt in Hi, Hj0, Hb, Hh.
  destruct (L i bb h Hi Hb Hh) as (_ & R1 & _).
  rewrite (R1 j Hj).
  apply softmax_value_poisoned
    with (y := fmul (at_ scores [i; j0; bb; h]) (Fin (MultiHeadAttention.scale self))).
  - apply in_map_iff. exists j0. split; [rewrite E0; reflexivity|].
    apply in_seq. lia.
  - exact P.
Qed.

End AttentionProbabilities.

(** ** The feed-forward sublayer on its documented input *)

Section FeedForwardRuns.
Context `{TorchBackend}.

Lemma Linear_forward_Ok l x hd :
  shape x = hd ++ [in_features l] ->
  exists y,
    Linear_forward l x = Ok y /\
    shape y = hd ++ [out_features l] /\
    forall pre o, at_ y (pre ++ [o]) = linear_at l (fun k => at_ x (pre ++ [k])) o.
Proof.
  intros Sx. unfold Linear_forward. rewrite Sx, rev_unit, Nat.eqb_refl.
  eexists. split; [reflexivity|]. simpl. rewrite removelast_last.
  split; [reflexivity|].
  intros pre o. rewrite removelast_last, last_last. reflexivity.
Qed.

Lemma Linear_forward_Raise l x hd d :
  shape x = hd ++ [d] -> d <> in_features l ->
  Linear_forward l x = Raise RuntimeError.
Proof.
  intros Sx N. unfold Linear_forward. rewrite Sx, rev_unit.
  apply Nat.eqb_neq in N. rewrite N. reflexivity.
Qed.

Lemma linear_at_ext l row row' o :
  (forall k, k < in_features l -> row k = row' k) ->
  linear_at l row o = linear_at l row' o.
Proof.
  intros E. unfold linear_at.
  replace (map (fun k => fmul (row k) (at_ (weight l) [o; k])) (seq 0 (in_features l)))
    with (map (fun k => fmul (row' k) (at_ (weight l) [o; k])) (seq 0 (in_features l))).
  - reflexivity.
  - apply map_ext_in. intros k Hk. apply in_seq in Hk. rewrite E by lia. reflexivity.
Qed.

Lemma FeedForward_init_Ok_inv d_model d_ff dr act gated b1 b2 bg st0 self st1 :
  FeedForward.init d_model d_ff dr act gated b1 b2 bg st0 = Ok (self, st1) ->
  FeedForward.is_gated self = gated /\
  FeedForward.activation self = act /\
  p (FeedForward.dropout self) = dr /\
  in_features (FeedForward.layer1 self) = Z.to_nat d_model /\
  out_features (FeedForward.layer1 self) = Z.to_nat d_ff /\
  in_features (FeedForward.layer2 self) = Z.to_nat d_ff /\
  out_features (FeedForward.layer2 self) = Z.to_nat d_model /\
  (if gated
   then exists lv, FeedForward.linear_v self = Some lv /\
          in_features lv = Z.to_nat d_model /\ out_features lv = Z.to_nat d_ff
   else FeedForward.linear_v self = None).
Proof.
  unfold FeedForward.init. intros E.
  apply bind_Ok_inv in E as (l1 & s1 & E1 & E).
  apply bind_Ok_inv in E as (l2 & s2 & E2 & E).
  apply bind_Ok_inv in E as (dp & s3 & Ed & E).
  apply lift_Ok_inv in Ed as (Ed & ->).
  apply bind_Ok_inv in E as (lv & s4 & Ev & E).
  apply ret_Ok_inv in E as (-> & ->).
  apply nn_Linear_Ok_inv in E1 as (_ & _ & I1 & O1 & _).
  apply nn_Linear_Ok_inv in E2 as (_ & _ & I2 & O2 & _).
  apply nn_Dropout_Ok_inv in Ed as (_ & _ & Ep & _).
  simpl. repeat (split; [auto|]).
  destruct gated.
  - apply bind_Ok_inv in Ev as (l & s5 & El & Ev).
    apply ret_Ok_inv in Ev as (-> & _).
    apply nn_Linear_Ok_inv in El as (_ & _ & Iv & Ov & _).
    exists l. auto.
  - apply ret_Ok_inv in Ev as (-> & _). reflexivity.
Qed.

(** With the default activation, what [forward] does before dropout: the
    hidden tensor, of shape [.., d_ff]. *)
Lemma FeedForward_hidden d_model d_ff dr gated b1 b2 bg st0 self st1 x hd st :
  FeedForward.init d_model d_ff dr FeedForward.default_activation
    gated b1 b2 bg st0 = Ok (self, st1) ->
  shape x = hd ++ [Z.to_nat d_model] ->
  exists t,
    FeedForward.forward self x st
    = (y <- Dropout_forward (FeedForward.dropout self) (PyTensor t) ;;
       lift (Linear_forward (FeedForward.layer2 self) y)) st /\
    shape t = hd ++ [Z.to_nat d_ff] /\
    forall pre k, in_boundsb pre hd = true -> k < Z.to_nat d_ff ->
      at_ t (pre ++ [k])
      = let a := relu (linear_at (FeedForward.layer1 self)
                         (fun j => at_ x (pre ++ [j])) k) in
        match FeedForward.linear_v self with
        | Some lv => fmul a (linear_at lv (fun j => at_ x (pre ++ [j])) k)
        | None => a
        end.
Proof.
  intros I Sx.
  apply FeedForward_init_Ok_inv in I as (Eg & Ea & _ & I1 & O1 & _ & _ & Ev).
  destruct (@Linear_forward_Ok (FeedForward.layer1 self) x hd) as (h & Eh & Sh & Vh);
    [rewrite I1; exact Sx|].
  rewrite O1 in Sh.
  unfold FeedForward.forward. rewrite Eg, Ea.
  erewrite bind_lift_Ok; [|exact Eh].
  erewrite bind_Ok; [|reflexivity].
  destruct gated.
  - destruct Ev as (lv & Elv & Iv & Ov). rewrite Elv.
    destruct (@Linear_forward_Ok lv x hd) as (v & Ev & Sv & Vv);
      [rewrite Iv; exact Sx|].
    rewrite Ov in Sv.
    assert (Em : exists m, py_mul (PyTensor (tmap relu h)) v = Ok m /\
                   shape m = hd ++ [Z.to_nat d_ff] /\
                   forall idx, in_boundsb idx (hd ++ [Z.to_nat d_ff]) = true ->
                     at_ m idx = fmul (relu (at_ h idx)) (at_ v idx)).
    { unfold py_mul, broadcast_op.
      change (shape (tmap relu h)) with (shape h).
      rewrite Sh, Sv, broadcast_shapes_same.
      cbn [rbind]. eexists. split; [reflexivity|]. split; [reflexivity|].
      intros idx B. cbn [at_ tmap]. rewrite (bindex_in_bounds _ _ B). reflexivity. }
    destruct Em as (m & Em & Sm & Vm).
    exists m. split; [|split; [exact Sm|]].
    + erewrite bind_Ok; [reflexivity|].
      erewrite bind_lift_Ok; [|exact Ev].
      erewrite bind_lift_Ok; [|exact Em]. reflexivity.
    + intros pre k B Hk. cbv zeta. rewrite Vm, Vh, Vv; [reflexivity|].
      apply in_boundsb_app; [exact B|]. simpl.
      apply Nat.ltb_lt in Hk. rewrite Hk. reflexivity.
  - rewrite Ev. exists (tmap relu h). split; [|split; [exact Sh|]].
    + erewrite bind_Ok; [reflexivity|reflexivity].
    + intros pre k B Hk. simpl. rewrite Vh. reflexivity.
Qed.

Lemma FeedForward_forward_runs d_model d_ff dr gated b1 b2 bg st0 self st1 x hd st :
  FeedForward.init d_model d_ff dr FeedForward.default_activation
    gated b1 b2 bg st0 = Ok (self, st1) ->
  shape x = hd ++ [Z.to_nat d_model] ->
  exists out st',
    FeedForward.forward self x st = Ok (out, st') /\ shape out = shape x.
Proof.
  intros I Sx.
  edestruct FeedForward_hidden with (st := st) as (t & F & St & _);
    [exact I|exact Sx|].
  apply FeedForward_init_Ok_inv in I as (_ & _ & _ & _ & _ & I2 & O2 & _).
  destruct (Dropout_forward_tensor_Ok (FeedForward.dropout self) t st)
    as (y & st' & Ed & Sy).
  destruct (@Linear_forward_Ok (FeedForward.layer2 self) y hd)
    as (out & Eo & So & _); [rewrite Sy, St, I2; reflexivity|].
  exists out, st'. rewrite F.
  erewrite bind_Ok; [|exact Ed].
  unfold lift. rewrite Eo. split; [reflexivity|].
  rewrite So, O2, Sx. reflexivity.
Qed.

(** X7.  A feed-forward module built with the default activation maps an
    input whose last axis has [d_model] entries to a tensor of the same
    shape, with or without gating, whatever the dropout draws; an input
    whose last axis has another size is refused with [RuntimeError]. *)
Theorem FeedForward_forward_shape :
  forall d_model d_ff dr gated b1 b2 bg st0 self st1,
    FeedForward.init d_model d_ff dr FeedForward.default_activation
      gated b1 b2 bg st0 = Ok (self, st1) ->
    forall x hd d st,
      shape x = hd ++ [d] ->
      (d = Z.to_nat d_model ->
       exists out st',
         FeedForward.forward self x st = Ok (out, st') /\ shape out = shape x)
      /\
      (d <> Z.to_nat d_model ->
       FeedForward.forward self x st = Raise RuntimeError).
Proof.
  intros d_model d_ff dr gated b1 b2 bg st0 self st1 I x hd d st Sx.
  split.
  - intros ->. eapply FeedForward_forward_runs; [exact I|exact Sx].
  - intros N.
    apply FeedForward_init_Ok_inv in I as (_ & _ & _ & I1 & _).
    unfold FeedForward.forward.
    apply bind_Raise. unfold lift.
    rewrite (@Linear_forward_Raise (FeedForward.layer1 self) x hd d Sx);
      [reflexivity|rewrite I1; exact N].
Qed.

(** X8.  Built with dropout probability 0 and the default activation, the
    module computes, at every position, [W2 relu(W1 x + b1) + b2], the
    activated hidden features being multiplied by the gate projection
    [V x + c] when there is one; the generator state is left as it was. *)
Theorem FeedForward_forward_formula :
  forall d_model d_ff gated b1 b2 bg st0 self st1,
    FeedForward.init d_model d_ff 0%Q FeedForward.default_activation
      gated b1 b2 bg st0 = Ok (self, st1) ->
    forall x hd st,
      shape x = hd ++ [Z.to_nat d_model] ->
      exists out,
        FeedForward.forward self x st = Ok (out, st) /\
        forall pre o, in_boundsb pre hd = true ->
          at_ out (pre ++ [o])
          = linear_at (FeedForward.layer2 self)
              (fun k =>
                 let a := relu (linear_at (FeedForward.layer1 self)
                                  (fun j => at_ x (pre ++ [j])) k) in
                 match FeedForward.linear_v self with
                 | Some lv => fmul a (linear_at lv (fun j => at_ x (pre ++ [j])) k)
                 | None => a
                 end) o.
Proof.
  intros d_model d_ff gated b1 b2 bg st0 self st1 I x hd st Sx.
  edestruct FeedForward_hidden with (st := st) as (t & F & St & Vt);
    [exact I|exact Sx|].
  apply FeedForward_init_Ok_inv in I as (_ & _ & Ep & _ & _ & I2 & _ & _).
  destruct (@Linear_forward_Ok (FeedForward.layer2 self) t hd)
    as (out & Eo & _ & Vo); [rewrite St, I2; reflexivity|].
  exists out. split.
  - rewrite F.
    assert (Ed : Dropout_forward (FeedForward.dropout self) (PyTensor t) st
                 = Ok (t, st)).
    { simpl. rewrite Ep. simpl. rewrite orb_true_r. reflexivity. }
    erewrite bind_Ok; [|exact Ed]. unfold lift. rewrite Eo. reflexivity.
  - intros pre o B. rewrite Vo. apply linear_at_ext.
    intros k Hk. rewrite I2 in Hk. apply (Vt pre k B Hk).
Qed.

End FeedForwardRuns.

(** ** The Transformer layer on its documented input *)

Section LayerRuns.
Context `{TorchBackend}.

Lemma nn_LayerNorm_Ok_inv d n :
  nn_LayerNorm [d] = Ok n -> (0 <= d)%Z /\ normalized_shape n = [Z.to_nat d].
Proof.
  unfold nn_LayerNorm. intros E.
  apply rbind_Ok_inv in E as (ns & Es & E). injection E as <-.
  apply check_sizes_Ok_inv in Es as (F & ->).
  inversion F; subst. split; [assumption|reflexivity].
Qed.

Lemma TransformerLayer_init_Ok_inv d_model sa osrc ff prob l :
  TransformerLayer.init d_model sa osrc ff prob = Ok l ->
  TransformerLayer.size l = d_model /\
  TransformerLayer.self_attn l = sa /\
  TransformerLayer.src_attn l = osrc /\
  TransformerLayer.feed_forward l = ff /\
  TransformerLayer.is_save_ff_input l = false /\
  normalized_shape (TransformerLayer.norm_self_attn l) = [Z.to_nat d_model] /\
  normalized_shape (TransformerLayer.norm_ff l) = [Z.to_nat d_model] /\
  match osrc with
  | Some _ => exists n, TransformerLayer.norm_src_attn l = Some n /\
                normalized_shape n = [Z.to_nat d_model]
  | None => TransformerLayer.norm_src_attn l = None
  end.
Proof.
  unfold TransformerLayer.init. intros E.
  apply rbind_Ok_inv in E as (dp & Ed & E).
  apply rbind_Ok_inv in E as (n1 & E1 & E).
  apply rbind_Ok_inv in E as (n2 & E2 & E).
  apply rbind_Ok_inv in E as (n3 & E3 & E).
  injection E as <-. simpl.
  apply nn_LayerNorm_Ok_inv in E1 as (_ & S1).
  apply nn_LayerNorm_Ok_inv in E3 as (_ & S3).
  repeat (split; [auto|]).
  destruct osrc as [a|].
  - apply rmap_Ok_inv in E2 as (n & E2 & ->).
    apply nn_LayerNorm_Ok_inv in E2 as (_ & S2). eauto.
  - injection E2 as <-. reflexivity.
Qed.

Lemma skipn_length_app {A} (a b : list A) :
  skipn (List.length (a ++ b) - List.length b) (a ++ b) = b.
Proof.
  rewrite length_app, Nat.add_sub.
  induction a as [|x a IH]; simpl; [reflexivity|exact IH].
Qed.

Lemma shape_eqb_refl s : shape_eqb s s = true.
Proof.
  induction s as [|x s IH]; simpl; [reflexivity|].
  rewrite Nat.eqb_refl, IH. reflexivity.
Qed.

Lemma LayerNorm_forward_Ok n x hd dm :
  normalized_shape n = [dm] -> shape x = hd ++ [dm] ->
  exists y, LayerNorm_forward n x = Ok y /\ shape y = shape x.
Proof.
  intros Sn Sx. unfold LayerNorm_forward. rewrite Sn, Sx.
  rewrite (skipn_length_app hd [dm]), shape_eqb_refl.
  replace (List.length [dm] <=? List.length (hd ++ [dm])) with true.
  - simpl. eexists. split; reflexivity.
  - symmetry. apply Nat.leb_le. rewrite length_app. simpl. lia.
Qed.

Lemma tensor_add_same_shape x d :
  shape d = shape x ->
  exists y, tensor_add x d = Ok y /\ shape y = shape x.
Proof.
  intros S. unfold tensor_add, broadcast_op.
  rewrite S, broadcast_shapes_same. simpl. eexists. split; reflexivity.
Qed.

(** One sub-layer stage: dropout, then the sum with the running value. *)
Lemma residual_stage dp x t st :
  shape t = shape x ->
  exists d st' y,
    Dropout_forward dp (PyTensor t) st = Ok (d, st') /\
    tensor_add x d = Ok y /\ shape y = shape x.
Proof.
  intros S.
  destruct (Dropout_forward_tensor_Ok dp t st) as (d & st' & Ed & Sd).
  destruct (@tensor_add_same_shape x d) as (y & Ey & Sy); [congruence|].
  exists d, st', y. auto.
Qed.

Lemma TransformerLayer_forward_keeps_shape l x mask src src_mask st hd dm :
  normalized_shape (TransformerLayer.norm_self_attn l) = [dm] ->
  normalized_shape (TransformerLayer.norm_ff l) = [dm] ->
  layer_keeps_shape l (hd ++ [dm]) ->
  match src with
  | Some _ => exists n, TransformerLayer.norm_src_attn l = Some n /\
                normalized_shape n = [dm]
  | None => True
  end ->
  shape x = hd ++ [dm] ->
  exists out l' st',
    TransformerLayer.forward l x mask src src_mask st = Ok ((out, l'), st') /\
    shape out = shape x.
Proof.
  intros N1 N3 (Ka & Kf & Ks) Hsrc Sx.
  unfold TransformerLayer.forward.
  destruct (@LayerNorm_forward_Ok (TransformerLayer.norm_self_attn l) x hd dm N1 Sx)
    as (z1 & Ez1 & Sz1).
  erewrite bind_lift_Ok; [|exact Ez1].
  destruct (Ka z1 z1 z1 mask st) as (a1 & s1 & Ea1 & Sa1); [congruence|].
  erewrite bind_Ok; [|exact Ea1].
  destruct (@residual_stage (TransformerLayer.dropout l) x a1 s1)
    as (d1 & s2 & x1 & Ed1 & E1 & S1); [congruence|].
  erewrite bind_Ok; [|exact Ed1].
  erewrite bind_lift_Ok; [|exact E1].
  assert (B : exists x2 s3,
    match src with
    | Some memory => TransformerLayer.cross_attention l x1 memory src_mask
    | None => ret x1
    end s2 = Ok (x2, s3) /\ shape x2 = shape x).
  { destruct src as [memory|].
    - destruct Hsrc as (n & En & Sn).
      unfold TransformerLayer.cross_attention. rewrite En.
      destruct (@LayerNorm_forward_Ok n x1 hd dm Sn) as (z2 & Ez2 & Sz2);
        [congruence|].
      erewrite bind_lift_Ok; [|exact Ez2].
      destruct (TransformerLayer.src_attn l) as [attend|].
      + destruct (Ks z2 memory memory src_mask s2) as (a2 & t2 & Ea2 & Sa2);
          [congruence|].
        erewrite bind_Ok; [|exact Ea2].
        destruct (@residual_stage (TransformerLayer.dropout l) x1 a2 t2)
          as (d2 & s3 & x2 & Ed2 & E2 & S2); [congruence|].
        exists x2, s3. erewrite bind_Ok; [|exact Ed2].
        unfold lift. rewrite E2. split; [reflexivity|congruence].
      + exists x1, s2. split; [reflexivity|exact S1].
    - exists x1, s2. split; [reflexivity|exact S1]. }
  destruct B as (x2 & s3 & E2 & S2).
  erewrite bind_Ok; [|exact E2].
  destruct (@LayerNorm_forward_Ok (TransformerLayer.norm_ff l) x2 hd dm N3)
    as (z3 & Ez3 & Sz3); [congruence|].
  erewrite bind_lift_Ok; [|exact Ez3]. cbv zeta.
  destruct (Kf z3 s3) as (f & s4 & Ef & Sf); [congruence|].
  erewrite bind_Ok; [|exact Ef].
  destruct (@residual_stage (TransformerLayer.dropout l) x2 f s4)
    as (d3 & s5 & x3 & Ed3 & E3 & S3); [congruence|].
  erewrite bind_Ok; [|exact Ed3].
  erewrite bind_lift_Ok; [|exact E3].
  eexists. eexists. eexists. split; [reflexivity|congruence].
Qed.

End LayerRuns.

Section LayerEdges.
Context `{TorchBackend}.

Lemma forward_memory_without_norm l x mask memory src_mask st :
  TransformerLayer.norm_src_attn l = None ->
  (forall r, TransformerLayer.forward l x mask (Some memory) src_mask st <> Ok r)
  /\
  (forall z a s1 d s2 x1,
     LayerNorm_forward (TransformerLayer.norm_self_attn l) x = Ok z ->
     TransformerLayer.self_attn l z z z mask st = Ok (a, s1) ->
     Dropout_forward (TransformerLayer.dropout l) a s1 = Ok (d, s2) ->
     tensor_add x d = Ok x1 ->
     TransformerLayer.forward l x mask (Some memory) src_mask st
     = Raise (AttributeError "TransformerLayer" "norm_src_attn")).
Proof.
  intros N. split.
  - intros [[out l'] st'] E. unfold TransformerLayer.forward in E.
    apply bind_Ok_inv in E as (z1 & t1 & _ & E).
    apply bind_Ok_inv in E as (a1 & s1 & _ & E).
    apply bind_Ok_inv in E as (d1 & s2 & _ & E).
    apply bind_Ok_inv in E as (x1 & t2 & _ & E).
    apply bind_Ok_inv in E as (x2 & s3 & E & _).
    unfold TransformerLayer.cross_attention in E. rewrite N in E. discriminate E.
  - intros z a s1 d s2 x1 Ez Ea Ed Ex. unfold TransformerLayer.forward.
    erewrite bind_lift_Ok; [|exact Ez].
    erewrite bind_Ok; [|exact Ea].
    erewrite bind_Ok; [|exact Ed].
    erewrite bind_lift_Ok; [|exact Ex].
    apply bind_Raise. unfold TransformerLayer.cross_attention. rewrite N.
    reflexivity.
Qed.

(** X9.  A layer built without a source-attention module has no
    [norm_src_attn]: called with a memory it never returns, and once its
    self-attention stage has run it raises [AttributeError]. *)
Theorem TransformerLayer_memory_without_src_attn :
  forall d_model sa ff prob l,
    TransformerLayer.init d_model sa None ff prob = Ok l ->
    forall x mask memory src_mask st,
      (forall r, TransformerLayer.forward l x mask (Some memory) src_mask st <> Ok r)
      /\
      (forall hd,
         shape x = hd ++ [Z.to_nat d_model] ->
         attention_keeps_shape sa (shape x) ->
         TransformerLayer.forward l x mask (Some memory) src_mask st
         = Raise (AttributeError "TransformerLayer" "norm_src_attn")).
Proof.
  intros d_model sa ff prob l I x mask memory src_mask st.
  apply TransformerLayer_init_Ok_inv in I as (_ & Esa & _ & _ & _ & N1 & _ & N2).
  destruct (forward_memory_without_norm l x mask memory src_mask st N2) as (A & B).
  split; [exact A|].
  intros hd Sx Ka.
  destruct (@LayerNorm_forward_Ok _ (TransformerLayer.norm_self_attn l) x hd
              (Z.to_nat d_model) N1 Sx) as (z & Ez & Sz).
  destruct (Ka z z z mask st Sz) as (a & s1 & Ea & Sa).
  destruct (@residual_stage _ (TransformerLayer.dropout l) x a s1 Sa)
    as (d & s2 & x1 & Ed & Ex & _).
  apply (B z (PyTensor a) s1 d s2 x1 Ez); [rewrite Esa; exact Ea|exact Ed|exact Ex].
Qed.

(** X10.  A layer whose self-attention is the [MultiHeadAttention] of
    [mha.py], on an input of shape [len, batch, d_model] with no mask or a
    mask that meets the contract: the attention call returns [None], and
    the layer raises [TypeError] when it hands that to dropout. *)
Theorem TransformerLayer_with_MultiHeadAttention_TypeError :
  forall heads d_model prob b st0 m st1 osrc ff prob' l,
    MultiHeadAttention.init heads d_model prob b st0 = Ok (m, st1) ->
    TransformerLayer.init d_model (MultiHeadAttention.forward m) osrc ff prob' = Ok l ->
    forall x n bsz mask src src_mask st,
      shape x = [n; bsz; Z.to_nat d_model] ->
      match mask with
      | Some mk => List.length (shape mk) = 3 /\ mask_contract (shape mk) n n bsz = true
      | None => True
      end ->
      TransformerLayer.forward l x mask src src_mask st = Raise TypeError.
Proof.
  intros heads d_model prob b st0 m st1 osrc ff prob' l Im Il
    x n bsz mask src src_mask st Sx Hm.
  apply TransformerLayer_init_Ok_inv in Il as (_ & Esa & _ & _ & _ & N1 & _).
  destruct (@LayerNorm_forward_Ok _ (TransformerLayer.norm_self_attn l) x [n; bsz]
              (Z.to_nat d_model) N1 Sx) as (z & Ez & Sz).
  rewrite Sx in Sz.
  edestruct MultiHeadAttention_forward_total
    with (q := z) (k := z) (v := z) (mask := mask) (st := st) as (_ & st' & Ef);
    [exact Im|exact Sz|exact Sz|exact Sz|exact Hm|].
  unfold TransformerLayer.forward.
  erewrite bind_lift_Ok; [|exact Ez].
  rewrite Esa. erewrite bind_Ok; [|exact Ef].
  reflexivity.
Qed.


End LayerEdges.

(** ** Encoder and decoder stacks *)

Section Stacks.
Context `{TorchBackend}.

Lemma Encoder_init_Ok_inv layer n enc :
  Encoder.init layer n = Ok enc ->
  Encoder.layers enc = repeat layer (Z.to_nat n) /\
  normalized_shape (Encoder.norm enc) = [Z.to_nat (TransformerLayer.size layer)].
Proof.
  unfold Encoder.init, clone_module_list. intros E.
  apply rbind_Ok_inv in E as (nm & En & E). injection E as <-.
  apply nn_LayerNorm_Ok_inv in En as (_ & Sn). auto.
Qed.

Lemma Decoder_init_Ok_inv layer n dec :
  Decoder.init layer n = Ok dec ->
  Decoder.layers dec = repeat layer (Z.to_nat n) /\
  normalized_shape (Decoder.norm dec) = [Z.to_nat (TransformerLayer.size layer)].
Proof.
  unfold Decoder.init, clone_module_list. intros E.
  apply rbind_Ok_inv in E as (nm & En & E). injection E as <-.
  apply nn_LayerNorm_Ok_inv in En as (_ & Sn). auto.
Qed.

(** X12.  The loop of the encoder calls the layers in order, each on
    the output of the one before, with the mask and without memory:
    over no layer it hands back its input, and over the layers [ls]
    followed by a layer [l] it is the loop over [ls], then [l] on its
    output.  The loop of the decoder is the same, each layer being
    called with [tgt_mask] as its mask, the memory as its source and
    [src_mask] as the mask of the source.  A layer that raises ends the
    loop. *)
Theorem stack_run_last_layer :
  (forall x mask st, Encoder.run [] x mask st = Ok ((x, []), st)) /\
  (forall ls l x mask st,
     Encoder.run (ls ++ [l]) x mask st
     = match Encoder.run ls x mask st with
       | Ok ((y, ls'), s1) =>
           match TransformerLayer.forward l y mask None None s1 with
           | Ok ((out, l'), s2) => Ok ((out, ls' ++ [l']), s2)
           | Raise e => Raise e
           end
       | Raise e => Raise e
       end) /\
  (forall x memory src_mask tgt_mask st,
     Decoder.run [] x memory src_mask tgt_mask st = Ok ((x, []), st)) /\
  (forall ls l x memory src_mask tgt_mask st,
     Decoder.run (ls ++ [l]) x memory src_mask tgt_mask st
     = match Decoder.run ls x memory src_mask tgt_mask st with
       | Ok ((y, ls'), s1) =>
           match TransformerLayer.forward l y tgt_mask (Some memory) src_mask s1 with
           | Ok ((out, l'), s2) => Ok ((out, ls' ++ [l']), s2)
           | Raise e => Raise e
           end
       | Raise e => Raise e
       end).
Proof.
  split; [reflexivity|]. split; [|split; [reflexivity|]].
  - induction ls as [|a ls IH]; intros l x mask st.
    + simpl. unfold bind, ret.
      destruct (TransformerLayer.forward l x mask None None st) as [[[out l'] s2]|e];
        reflexivity.
    + change (Encoder.run ((a :: ls) ++ [l]) x mask st)
        with ((r <- TransformerLayer.forward a x mask None None ;;
               r' <- Encoder.run (ls ++ [l]) (fst r) mask ;;
               ret (fst r', snd r :: snd r')) st).
      change (Encoder.run (a :: ls) x mask st)
        with ((r <- TransformerLayer.forward a x mask None None ;;
               r' <- Encoder.run ls (fst r) mask ;;
               ret (fst r', snd r :: snd r')) st).
      unfold bind, ret.
      destruct (TransformerLayer.forward a x mask None None st) as [[[y a'] s1]|e];
        [|reflexivity].
      simpl fst. simpl snd. rewrite IH.
      destruct (Encoder.run ls y mask s1) as [[[z ls'] s2]|e]; [|reflexivity].
      simpl fst. simpl snd.
      destruct (TransformerLayer.forward l z mask None None s2) as [[[out l'] s3]|e];
        reflexivity.
  - induction ls as [|a ls IH]; intros l x memory src_mask tgt_mask st.
    + simpl. unfold bind, ret.
      destruct (TransformerLayer.forward l x tgt_mask (Some memory) src_mask st)
        as [[[out l'] s2]|e]; reflexivity.
    + change (Decoder.run ((a :: ls) ++ [l]) x memory src_mask tgt_mask st)
        with ((r <- TransformerLayer.forward a x tgt_mask (Some memory) src_mask ;;
               r' <- Decoder.run (ls ++ [l]) (fst r) memory src_mask tgt_mask ;;
               ret (fst r', snd r :: snd r')) st).
      change (Decoder.run (a :: ls) x memory src_mask tgt_mask st)
        with ((r <- TransformerLayer.forward a x tgt_mask (Some memory) src_mask ;;
               r' <- Decoder.run ls (fst r) memory src_mask tgt_mask ;;
               ret (fst r', snd r :: snd r')) st).
      unfold bind, ret.
      destruct (TransformerLayer.forward a x tgt_mask (Some memory) src_mask st)
        as [[[y a'] s1]|e]; [|reflexivity].
      simpl fst. simpl snd. rewrite IH.
      destruct (Decoder.run ls y memory src_mask tgt_mask s1) as [[[z ls'] s2]|e];
        [|reflexivity].
      simpl fst. simpl snd.
      destruct (TransformerLayer.forward l z tgt_mask (Some memory) src_mask s2)
        as [[[out l'] s3]|e]; reflexivity.
Qed.

(** X13.  A stack built with no layer ([n_layers] zero or negative) is
    its final normalisation alone: the encoder ignores its mask, the
    decoder its memory and both masks, and the state is left as it was. *)
Theorem stack_without_layers :
  forall layer n,
    (n <= 0)%Z ->
    (forall enc x mask st,
       Encoder.init layer n = Ok enc ->
       Encoder.forward enc x mask st
       = match LayerNorm_forward (Encoder.norm enc) x with
         | Ok y => Ok ((y, enc), st)
         | Raise e => Raise e
         end)
    /\
    (forall dec x memory src_mask tgt_mask st,
       Decoder.init layer n = Ok dec ->
       Decoder.forward dec x memory src_mask tgt_mask st
       = match LayerNorm_forward (Decoder.norm dec) x with
         | Ok y => Ok ((y, dec), st)
         | Raise e => Raise e
         end).
Proof.
  intros layer n Hn.
  assert (Z0 : Z.to_nat n = 0) by lia.
  split.
  - intros enc x mask st I. apply Encoder_init_Ok_inv in I as (El & _).
    unfold Encoder.forward. rewrite El, Z0. simpl.
    unfold bind, ret, lift. simpl.
    destruct (LayerNorm_forward (Encoder.norm enc) x); [|reflexivity].
    destruct enc as [ls nm]. simpl in *. rewrite El, Z0. reflexivity.
  - intros dec x memory src_mask tgt_mask st I.
    apply Decoder_init_Ok_inv in I as (El & _).
    unfold Decoder.forward. rewrite El, Z0. simpl.
    unfold bind, ret, lift. simpl.
    destruct (LayerNorm_forward (Decoder.norm dec) x); [|reflexivity].
    destruct dec as [ls nm]. simpl in *. rewrite El, Z0. reflexivity.
Qed.

Lemma Encoder_run_keeps_shape ls hd dm :
  Forall (fun l =>
            normalized_shape (TransformerLayer.norm_self_attn l) = [dm] /\
            normalized_shape (TransformerLayer.norm_ff l) = [dm] /\
            layer_keeps_shape l (hd ++ [dm])) ls ->
  forall x mask st,
    shape x = hd ++ [dm] ->
    exists out ls' st',
      Encoder.run ls x mask st = Ok ((out, ls'), st') /\
      shape out = hd ++ [dm] /\ List.length ls' = List.length ls.
Proof.
  induction 1 as [|l ls (N1 & N3 & K) _ IH]; intros x mask st Sx.
  - exists x, [], st. simpl. auto.
  - edestruct TransformerLayer_forward_keeps_shape
      with (l := l) (x := x) (mask := mask) (src := @None (Tensor float))
           (src_mask := @None (Tensor Z)) (st := st)
      as (y & l' & s1 & E1 & S1); [exact N1|exact N3|exact K|exact I|exact Sx|].
    destruct (IH y mask s1) as (out & ls' & s2 & E2 & S2 & L2); [congruence|].
    exists out, (l' :: ls'), s2. simpl.
    erewrite bind_Ok; [|exact E1]. simpl fst. simpl snd.
    erewrite bind_Ok; [|exact E2]. simpl. auto.
Qed.




(** X16.  A stack of one layer or more never returns when its layer
    cannot: an encoder or a decoder whose layer has the
    [MultiHeadAttention] of [mha.py] as self-attention, and a decoder
    whose layer was built without source attention. *)
Theorem stack_never_returns :
  forall layer n,
    (1 <= n)%Z ->
    (forall m enc x mask st,
       TransformerLayer.self_attn layer = MultiHeadAttention.forward m ->
       Encoder.init layer n = Ok enc ->
       exists e, Encoder.forward enc x mask st = Raise e)
    /\
    (forall m dec x memory src_mask tgt_mask st,
       TransformerLayer.self_attn layer = MultiHeadAttention.forward m ->
       Decoder.init layer n = Ok dec ->
       exists e, Decoder.forward dec x memory src_mask tgt_mask st = Raise e)
    /\
    (forall dec x memory src_mask tgt_mask st,
       TransformerLayer.norm_src_attn layer = None ->
       Decoder.init layer n = Ok dec ->
       exists e, Decoder.forward dec x memory src_mask tgt_mask st = Raise e).
Proof.
  intros layer n Hn.
  assert (R : repeat layer (Z.to_nat n) = layer :: repeat layer (Z.to_nat n - 1)).
  { destruct (Z.to_nat n) as [|k] eqn:E; [lia|]. simpl. rewrite Nat.sub_0_r.
    reflexivity. }
  split; [|split].
  - intros m enc x mask st Em I. apply Encoder_init_Ok_inv in I as (El & _).
    destruct (@TransformerLayer_forward_with_MultiHeadAttention _ layer m x mask
                None None st Em) as (e & Ee).
    exists e. unfold Encoder.forward. rewrite El, R. simpl.
    apply bind_Raise. apply bind_Raise. exact Ee.
  - intros m dec x memory src_mask tgt_mask st Em I.
    apply Decoder_init_Ok_inv in I as (El & _).
    destruct (@TransformerLayer_forward_with_MultiHeadAttention _ layer m x tgt_mask
                (Some memory) src_mask st Em) as (e & Ee).
    exists e. unfold Decoder.forward. rewrite El, R. simpl.
    apply bind_Raise. apply bind_Raise. exact Ee.
  - intros dec x memory src_mask tgt_mask st N I.
    apply Decoder_init_Ok_inv in I as (El & _).
    destruct (forward_memory_without_norm layer x tgt_mask memory src_mask st N)
      as (A & _).
    destruct (TransformerLayer.forward layer x tgt_mask (Some memory) src_mask st)
      as [r|e] eqn:E; [exfalso; apply (A r); reflexivity|].
    exists e. unfold Decoder.forward. rewrite El, R. simpl.
    apply bind_Raise. apply bind_Raise. exact E.
Qed.

End Stacks.

(** ** The generator *)

Section GeneratorRuns.
Context `{TorchBackend}.

(** X17.  The generator built for [n_vocab] and [d_model] is one biased
    linear map applied along the last axis, and nothing after it: an
    input whose last axis has [d_model] entries gives the scores of the
    [n_vocab] tokens at each position, each computed from the features of
    that position alone; any other last axis is refused. *)
Theorem Generator_forward_projection :
  forall n_vocab d_model st0 g st1,
    Generator.init n_vocab d_model st0 = Ok (g, st1) ->
    bias (Generator.projection g) <> None /\
    (forall x hd,
       shape x = hd ++ [Z.to_nat d_model] ->
       exists y,
         Generator.forward g x = Ok y /\
         shape y = hd ++ [Z.to_nat n_vocab] /\
         forall pre o,
           at_ y (pre ++ [o])
           = linear_at (Generator.projection g) (fun k => at_ x (pre ++ [k])) o) /\
    (forall x hd d,
       shape x = hd ++ [d] -> d <> Z.to_nat d_model ->
       Generator.forward g x = Raise RuntimeError).
Proof.
  intros n_vocab d_model st0 g st1 I.
  unfold Generator.init in I.
  apply bind_Ok_inv in I as (l & s1 & El & I).
  apply ret_Ok_inv in I as (-> & ->). simpl.
  apply nn_Linear_Ok_inv in El as (_ & _ & Ei & Eo & Eb).
  split; [|split].
  - intros N. apply Eb in N. discriminate.
  - intros x hd Sx. rewrite <- Ei in Sx.
    destruct (@Linear_forward_Ok _ l x hd Sx) as (y & Ey & Sy & Vy).
    exists y. unfold Generator.forward. simpl. rewrite <- Eo. auto.
  - intros x hd d Sx N. unfold Generator.forward. simpl.
    apply Linear_forward_Raise with (hd := hd) (d := d); congruence.
Qed.

End GeneratorRuns.

(** ** The learned embedding, as constructed *)

Section LearnedEmbeddingRuns.
Context `{TorchBackend}.

Lemma all_indices_in_bounds s idx :
  In idx (all_indices s) <-> in_boundsb idx s = true.
Proof.
  revert idx. induction s as [|d s IH]; intros idx; simpl.
  - split.
    + intros [<-|[]]. reflexivity.
    + destruct idx; [auto|discriminate].
  - rewrite in_flat_map. split.
    + intros (i & Hi & Hm). apply in_map_iff in Hm as (r & <- & Hr).
      apply in_seq in Hi. simpl.
      apply andb_true_iff. split; [apply Nat.ltb_lt; lia|apply IH; exact Hr].
    + destruct idx as [|i r]; [discriminate|]. simpl.
      intros B. apply andb_true_iff in B as (Hi & Hr).
      apply Nat.ltb_lt in Hi. exists i. split; [apply in_seq; lia|].
      apply in_map. apply IH. exact Hr.
Qed.

(** X18.  While gradients are recorded, which is how a module runs unless
    the caller turns it off, the learned embedding built by the
    constructor never returns: on every token tensor with an axis the
    call raises at [requires_grad_(False)], before any token is looked
    up, whatever the tokens and the length of the table. *)
Theorem EmbeddingsWithLearnedPositionalEncoding_needs_no_grad :
  forall d_model n_vocab max_len st0 self st1 x n xs st,
    EmbeddingsWithLearnedPositionalEncoding.init d_model n_vocab max_len st0
      = Ok (self, st1) ->
    shape x = n :: xs ->
    grad_enabled st = true ->
    EmbeddingsWithLearnedPositionalEncoding.forward self x st = Raise RuntimeError.
Proof.
  intros d_model n_vocab max_len st0 self st1 x n xs st I Sx G.
  apply Learned_init_Ok_inv in I as (_ & _ & _ & _ & _ & _ & Ep).
  eapply EmbeddingsWithLearnedPositionalEncoding_forward_grad;
    [exact Sx| |exact G|]; rewrite Ep; reflexivity.
Qed.

(** X19.  With gradient recording off, the learned embedding built by
    the constructor, on tokens of shape [n; b] that are all in the
    vocabulary and no longer than the table, returns a tensor of shape
    [n; b; d_model]: the row of each token scaled by the square root
    of [d_model], plus the zero the table was created with.  The state
    is left as it was. *)
Theorem EmbeddingsWithLearnedPositionalEncoding_fresh_forward :
  forall d_model n_vocab max_len st0 self st1 x n b st,
    EmbeddingsWithLearnedPositionalEncoding.init d_model n_vocab max_len st0
      = Ok (self, st1) ->
    grad_enabled st = false ->
    shape x = [n; b] ->
    n <= Z.to_nat max_len ->
    (forall i j, i < n -> j < b -> (0 <= at_ x [i; j] < n_vocab)%Z) ->
    exists out,
      EmbeddingsWithLearnedPositionalEncoding.forward self x st = Ok (out, st) /\
      shape out = [n; b; Z.to_nat d_model] /\
      forall i j c, i < n -> j < b -> c < Z.to_nat d_model ->
        at_ out [i; j; c]
        = fadd (fmul (at_ (table (EmbeddingsWithLearnedPositionalEncoding.linear self))
                          [Z.to_nat (at_ x [i; j]); c])
                     (Fin (sqrt (IZR d_model))))
               (Fin 0).
Proof.
  intros d_model n_vocab max_len st0 self st1 x n b st I G Sx Hn Hx.
  apply Learned_init_Ok_inv in I as (Hd & Hv & Hm & Ed & Edim & Enum & Ep).
  assert (Ee : exists e,
             Embedding_forward (EmbeddingsWithLearnedPositionalEncoding.linear self) x
             = Ok e).
  { unfold Embedding_forward.
    replace (forallb _ _) with true; [eexists; reflexivity|].
    symmetry. apply forallb_forall. intros idx Hi.
    apply all_indices_in_bounds in Hi. rewrite Sx in Hi.
    destruct idx as [|i [|j [|? ?]]]; simpl in Hi; try discriminate;
      apply andb_true_iff in Hi as (Hi & Hj); try discriminate;
      apply andb_true_iff in Hj as (Hj & Hk); try discriminate.
    apply Nat.ltb_lt in Hi, Hj. specialize (Hx i j Hi Hj).
    rewrite Enum. apply andb_true_iff.
    split; [apply Z.leb_le|apply Z.ltb_lt]; lia. }
  destruct Ee as (e & Ee).
  edestruct EmbeddingsWithLearnedPositionalEncoding_within_table
    with (self := self) (x := x) (st := st) (n := n) (b := b)
         (l := Z.to_nat max_len) (d := Z.to_nat d_model) (e := e)
    as (out & Eo & So & Vo);
    [exact G|exact Sx|rewrite Ep; reflexivity|exact Edim|lia|exact Ee|exact Hn|].
  exists out. split; [exact Eo|]. split; [exact So|].
  intros i j c Hi Hj Hc. rewrite (Vo i j c Hi Hj Hc), Ed, Ep. reflexivity.
Qed.

(** X20.  With gradient recording off, a token outside the vocabulary,
    anywhere in the input, makes the learned embedding raise
    [IndexError]; nothing is returned for the other tokens. *)
Theorem EmbeddingsWithLearnedPositionalEncoding_token_out_of_range :
  forall d_model n_vocab max_len st0 self st1 x n xs idx st,
    EmbeddingsWithLearnedPositionalEncoding.init d_model n_vocab max_len st0
      = Ok (self, st1) ->
    grad_enabled st = false ->
    shape x = n :: xs ->
    in_boundsb idx (shape x) = true ->
    (at_ x idx < 0 \/ n_vocab <= at_ x idx)%Z ->
    EmbeddingsWithLearnedPositionalEncoding.forward self x st = Raise IndexError.
Proof.
  intros d_model n_vocab max_len st0 self st1 x n xs idx st I G Sx Hb Hx.
  apply Learned_init_Ok_inv in I as (Hd & Hv & Hm & Ed & Edim & Enum & Ep).
  assert (Ee : Embedding_forward (EmbeddingsWithLearnedPositionalEncoding.linear self) x
               = Raise IndexError).
  { unfold Embedding_forward.
    replace (forallb _ _) with false; [reflexivity|].
    symmetry. apply not_true_iff_false. intros F.
    rewrite forallb_forall in F.
    apply all_indices_in_bounds in Hb. specialize (F idx Hb).
    apply andb_true_iff in F as (F1 & F2).
    apply Z.leb_le in F1. apply Z.ltb_lt in F2. rewrite Enum in F2. lia. }
  unfold EmbeddingsWithLearnedPositionalEncoding.forward, bind, lift, shape_at,
    grad_slice_to, is_grad_enabled, slice_to, bind, lift, ret.
  rewrite Sx. simpl. rewrite Ep, G. simpl. rewrite Ee. reflexivity.
Qed.

End LearnedEmbeddingRuns.

(** ** The feed-forward module: construction, and inside a layer *)

Section FeedForwardInLayers.
Context `{TorchBackend}.

(** X21.  [FeedForward(d_model, d_ff, dropout, ...)] is built exactly
    when neither size is negative and the dropout probability is in
    [0, 1], whatever the activation and the four flags; with sizes that
    are not negative, a probability outside [0, 1] raises
    [ValueError]. *)
Theorem FeedForward_init_outcomes :
  forall d_model d_ff dr act gated b1 b2 bg st,
    ((exists self st',
        FeedForward.init d_model d_ff dr act gated b1 b2 bg st = Ok (self, st'))
     <-> (0 <= d_model)%Z /\ (0 <= d_ff)%Z /\ (0 <= dr)%Q /\ (dr <= 1)%Q)
    /\
    ((0 <= d_model)%Z -> (0 <= d_ff)%Z -> (dr < 0)%Q \/ (1 < dr)%Q ->
     FeedForward.init d_model d_ff dr act gated b1 b2 bg st = Raise ValueError).
Proof.
  intros d_model d_ff dr act gated b1 b2 bg st. split; [split|].
  - intros (self & st' & E). unfold FeedForward.init in E.
    apply bind_Ok_inv in E as (l1 & s1 & E1 & E).
    apply bind_Ok_inv in E as (l2 & s2 & E2 & E).
    apply bind_Ok_inv in E as (dp & s3 & Ed & E).
    apply lift_Ok_inv in Ed as (Ed & ->).
    apply nn_Linear_Ok_inv in E1 as (Hd & Hf & _).
    apply nn_Dropout_Ok_inv in Ed as (P0 & P1 & _). auto.
  - intros (Hd & Hf & P0 & P1). unfold FeedForward.init.
    destruct (nn_Linear_Ok b1 st Hd Hf) as (l1 & s1 & E1).
    erewrite bind_Ok; [|exact E1].
    destruct (nn_Linear_Ok b2 s1 Hf Hd) as (l2 & s2 & E2).
    erewrite bind_Ok; [|exact E2].
    erewrite bind_lift_Ok; [|apply nn_Dropout_Ok; assumption].
    destruct gated.
    + destruct (nn_Linear_Ok bg s2 Hd Hf) as (lv & s3 & Ev).
      erewrite bind_Ok; [|erewrite bind_Ok; [reflexivity|exact Ev]].
      eexists. eexists. reflexivity.
    + erewrite bind_Ok; [|reflexivity].
      eexists. eexists. reflexivity.
  - intros Hd Hf Hp. unfold FeedForward.init.
    destruct (nn_Linear_Ok b1 st Hd Hf) as (l1 & s1 & E1).
    erewrite bind_Ok; [|exact E1].
    destruct (nn_Linear_Ok b2 s1 Hf Hd) as (l2 & s2 & E2).
    erewrite bind_Ok; [|exact E2].
    apply bind_Raise. unfold lift. rewrite (nn_Dropout_Raise Hp). reflexivity.
Qed.



End FeedForwardInLayers.

(** ** What a call leaves in the modules *)

Section ModuleState.
Context `{TorchBackend}.

Lemma TransformerLayer_forward_layer_after l x mask src src_mask st out l' st' :
  TransformerLayer.forward l x mask src src_mask st = Ok ((out, l'), st') ->
  exists x2 z,
    LayerNorm_forward (TransformerLayer.norm_ff l) x2 = Ok z /\
    l' = if TransformerLayer.is_save_ff_input l
         then TransformerLayer.save_ff_input l z else l.
Proof.
  unfold TransformerLayer.forward. intros E.
  apply bind_Ok_inv in E as (z1 & s1 & E1 & E).
  apply bind_Ok_inv in E as (a & s2 & E2 & E).
  apply bind_Ok_inv in E as (d & s3 & E3 & E).
  apply bind_Ok_inv in E as (x1 & s4 & E4 & E).
  apply bind_Ok_inv in E as (x2 & s5 & E5 & E).
  apply bind_Ok_inv in E as (z & s6 & E6 & E).
  apply lift_Ok_inv in E6 as (E6 & ->).
  cbv zeta in E.
  apply bind_Ok_inv in E as (ff & s7 & E7 & E).
  apply bind_Ok_inv in E as (d' & s8 & E8 & E).
  apply bind_Ok_inv in E as (x3 & s9 & E9 & E).
  apply ret_Ok_inv in E as (E & _).
  exists x2, z. split; [exact E6|]. congruence.
Qed.

Lemma Encoder_run_same_layers ls :
  Forall (fun l => TransformerLayer.is_save_ff_input l = false) ls ->
  forall x mask st out ls' st',
    Encoder.run ls x mask st = Ok ((out, ls'), st') -> ls' = ls.
Proof.
  induction 1 as [|l ls F _ IH]; intros x mask st out ls' st' E; simpl in E.
  - apply ret_Ok_inv in E as (E & _). congruence.
  - apply bind_Ok_inv in E as ([y l1] & s1 & E1 & E).
    apply bind_Ok_inv in E as ([y2 ls2] & s2 & E2 & E).
    apply ret_Ok_inv in E as (E & _). simpl in E.
    apply TransformerLayer_forward_layer_after in E1 as (x2 & z & _ & E1).
    rewrite F in E1. apply IH in E2. congruence.
Qed.

Lemma Decoder_run_same_layers ls :
  Forall (fun l => TransformerLayer.is_save_ff_input l = false) ls ->
  forall x memory src_mask tgt_mask st out ls' st',
    Decoder.run ls x memory src_mask tgt_mask st = Ok ((out, ls'), st') -> ls' = ls.
Proof.
  induction 1 as [|l ls F _ IH];
    intros x memory src_mask tgt_mask st out ls' st' E; simpl in E.
  - apply ret_Ok_inv in E as (E & _). congruence.
  - apply bind_Ok_inv in E as ([y l1] & s1 & E1 & E).
    apply bind_Ok_inv in E as ([y2 ls2] & s2 & E2 & E).
    apply ret_Ok_inv in E as (E & _). simpl in E.
    apply TransformerLayer_forward_layer_after in E1 as (x2 & z & _ & E1).
    rewrite F in E1. apply IH in E2. congruence.
Qed.

(** X24.  An encoder or a decoder built from a layer as the constructor
    returns it comes back from every returning call as it was: the
    same layers, the same normalisation. *)
Theorem stack_forward_module_state :
  forall d_model sa osrc ff prob layer n,
    TransformerLayer.init d_model sa osrc ff prob = Ok layer ->
    (forall enc x mask st out enc' st',
       Encoder.init layer n = Ok enc ->
       Encoder.forward enc x mask st = Ok ((out, enc'), st') -> enc' = enc)
    /\
    (forall dec x memory src_mask tgt_mask st out dec' st',
       Decoder.init layer n = Ok dec ->
       Decoder.forward dec x memory src_mask tgt_mask st = Ok ((out, dec'), st') ->
       dec' = dec).
Proof.
  intros d_model sa osrc ff prob layer n I.
  apply TransformerLayer_init_Ok_inv in I as (_ & _ & _ & _ & F & _).
  assert (Fa : Forall (fun l => TransformerLayer.is_save_ff_input l = false)
                 (repeat layer (Z.to_nat n))).
  { apply Forall_forall. intros l Hl. apply repeat_spec in Hl. subst l. exact F. }
  split.
  - intros enc x mask st out enc' st' Ie E.
    apply Encoder_init_Ok_inv in Ie as (El & _).
    unfold Encoder.forward in E.
    apply bind_Ok_inv in E as ([y ls] & s1 & E1 & E).
    apply bind_Ok_inv in E as (o & s2 & E2 & E).
    apply ret_Ok_inv in E as (E & _). simpl in E.
    rewrite El in E1. apply (Encoder_run_same_layers Fa) in E1.
    destruct enc as [els enm]. simpl in *. congruence.
  - intros dec x memory src_mask tgt_mask st out dec' st' Id E.
    apply Decoder_init_Ok_inv in Id as (El & _).
    unfold Decoder.forward in E.
    apply bind_Ok_inv in E as ([y ls] & s1 & E1 & E).
    apply bind_Ok_inv in E as (o & s2 & E2 & E).
    apply ret_Ok_inv in E as (E & _). simpl in E.
    rewrite El in E1. apply (Decoder_run_same_layers Fa) in E1.
    destruct dec as [dls dnm]. simpl in *. congruence.
Qed.

End ModuleState.

(** * The model at concrete inputs *)

#[local] Existing Instance reference_backend.

(** [mha_1_1] is what the constructor returns for one head of dimension 1,
    with either value of [bias]. *)
Lemma mha_1_1_constructed (b : bool) :
  exists st',
    MultiHeadAttention.init 1 1 (1 # 10)%Q b Examples.training_state
    = Ok (Examples.mha_1_1, st').
Proof.
  unfold MultiHeadAttention.init, bind, lift, ret. simpl.
  change (1 / 1)%Z with 1%Z. unfold py_truediv.
  destruct (Req_dec_T (sqrt (IZR 1)) 0) as [Z0|_].
  - exfalso. rewrite sqrt_1 in Z0. lra.
  - eexists. reflexivity.
Qed.

(** C2.  Whatever the module and the inputs, a call of
    [MultiHeadAttention.forward] that does not raise evaluates to [None],
    not to a tensor: the heads are not merged and the output projection
    is not applied.  On one position of dimension 1 the call returns
    [None]. *)
Theorem MultiHeadAttention_forward_returns_None :
  (forall (backend : TorchBackend) self q k v mask st,
     match @MultiHeadAttention.forward backend self q k v mask st with
     | Ok (r, _) => r = PyNone
     | Raise _ => True
     end)
  /\
  exists st',
    MultiHeadAttention.forward Examples.mha_1_1 Examples.x_1_1_1 Examples.x_1_1_1
      Examples.x_1_1_1 None Examples.training_state
    = Ok (PyNone, st').
Proof.
  split.
  - intros backend self q k v mask st.
    destruct (MultiHeadAttention.forward self q k v mask st) as [[r st']|e] eqn:E;
      [|exact I].
    apply (MultiHeadAttention_forward_Ok_None _ _ _ _ _ _ E).
  - eexists. reflexivity.
Qed.

(** With the exact format every key length fits, and the two bounds on
    the sum of the weights are 1. *)
Lemma exact_format_sums n :
  @line_fits exact_format n /\
  @softmax_sum_lower exact_format n = 1%R /\
  @softmax_sum_upper exact_format n = 1%R.
Proof.
  unfold line_fits, representable_up_to, softmax_sum_lower, softmax_sum_upper.
  simpl.
  replace (1 - 0)%R with 1%R by lra. replace (1 + 0)%R with 1%R by lra.
  rewrite pow1, !Rmult_0_r.
  split; [split|split].
  - intros r _. exists r. reflexivity.
  - lra.
  - field.
  - field.
Qed.

(** One query over two keys, the second excluded by the mask: the
    excluded key weighs 0 and, in exact arithmetic, the weights add up
    to 1. *)
Lemma MultiHeadAttention_softmax_over_keys_witness :
  exists attn vp ws,
    MultiHeadAttention.attention_weights Examples.mha_1_1 Examples.x_1_1_1
      Examples.x_2_1_1 Examples.x_2_1_1 (Some Examples.mask_first_only)
    = Ok (attn, vp) /\
    at_ attn [0; 1; 0; 0] = Fin 0 /\
    axis_line attn 1 [0; 0; 0; 0] = map Fin ws /\
    Rsum ws = 1%R.
Proof.
  destruct (mha_1_1_constructed true) as (st' & I).
  destruct (exact_format_sums 2) as (Fit & Lo & Up).
  eexists. eexists.
  edestruct MultiHeadAttention_softmax_over_keys
    with (q := Examples.x_1_1_1) (k := Examples.x_2_1_1) (v := Examples.x_2_1_1)
         (mask := Some Examples.mask_first_only) as (nb & nh & Sh & W);
    [ exact I
    | reflexivity
    | reflexivity
    | intros m E; injection E as <-; reflexivity
    | exact (eq_refl : PrepareForMultiHeadAttention.forward
               (MultiHeadAttention.query Examples.mha_1_1) Examples.x_1_1_1 = Ok _)
    | exact (eq_refl : PrepareForMultiHeadAttention.forward
               (MultiHeadAttention.key Examples.mha_1_1) Examples.x_2_1_1 = Ok _)
    | reflexivity
    | exact (eq_refl : MultiHeadAttention.attention_weights Examples.mha_1_1
               Examples.x_1_1_1 Examples.x_2_1_1 Examples.x_2_1_1
               (Some Examples.mask_first_only) = Ok (_, _))
    | ].
  simpl in Sh. injection Sh as <- <-.
  destruct (W 0 0 0) as (W0 & Wsum); [lia|lia|lia| | |].
  - intros j Hj _. destruct j as [|[|j]]; [eexists; reflexivity..|lia].
  - exists 0. split; [lia|reflexivity].
  - destruct (Wsum Fit) as (ws & Ews & B).
    exists ws. split; [reflexivity|]. split; [apply W0; reflexivity|].
    split; [exact Ews|].
    change (@softmax_sum_lower exact_format 2 <= Rsum ws
            <= @softmax_sum_upper exact_format 2)%R in B.
    rewrite Lo, Up in B. lra.
Defined.

(** One query, one key, and a mask that excludes it: the score is minus
    infinity, and the weight is NaN, not 0. *)
Lemma MultiHeadAttention_fully_masked_row :
  exists st' attn vp,
    MultiHeadAttention.init 1 1 (1 # 10)%Q true Examples.training_state
    = Ok (Examples.mha_1_1, st') /\
    MultiHeadAttention.attention_weights Examples.mha_1_1 Examples.x_1_1_1
      Examples.x_1_1_1 Examples.x_1_1_1 (Some Examples.mask_all_zero)
    = Ok (attn, vp) /\
    excluded (Some Examples.mask_all_zero) 0 0 0 = true /\
    at_ attn [0; 0; 0; 0] = NaN /\
    at_ attn [0; 0; 0; 0] <> Fin 0.
Proof.
  destruct (mha_1_1_constructed true) as (st' & I).
  exists st'. eexists. eexists.
  split; [exact I|]. split; [reflexivity|]. split; [reflexivity|].
  split.
  - exact (@softmax_value_all_masked exact_format).
  - intros N. change (@softmax_value exact_format [NInf] NInf = Fin 0) in N.
    rewrite softmax_value_all_masked in N. discriminate N.
Qed.

(** Two heads on a model dimension of 8. *)
Lemma MultiHeadAttention_init_head_dim_witness :
  exists m st',
    MultiHeadAttention.init 2 8 (1 # 10)%Q true Examples.training_state
    = Ok (m, st') /\
    MultiHeadAttention.d_k m = 4%Z /\
    (2 * MultiHeadAttention.d_k m = 8)%Z.
Proof.
  destruct (MultiHeadAttention_init_head_dim (heads := 2) (d_model := 8)
              (prob := (1 # 10)%Q) true Examples.training_state)
    as (m & st' & E & Edk & Emod).
  - lia.
  - unfold Qle. simpl. lia.
  - unfold Qle. simpl. lia.
  - exists m, st'. split; [exact E|]. split; [exact Edk|].
    apply Emod. reflexivity.
Defined.

(** Two heads on a model dimension of 7: the constructor returns, with a
    head dimension of 3. *)
Lemma MultiHeadAttention_init_not_divisible :
  exists m st',
    (7 mod 2)%Z <> 0%Z /\
    MultiHeadAttention.init 2 7 (1 # 10)%Q true Examples.training_state
    = Ok (m, st') /\
    MultiHeadAttention.d_k m = 3%Z.
Proof.
  destruct (@MultiHeadAttention_init_Ok _ 2 7 (1 # 10)%Q true Examples.training_state)
    as (m & st' & E).
  - lia.
  - unfold Qle. simpl. lia.
  - unfold Qle. simpl. lia.
  - exists m, st'. split; [discriminate|]. split; [exact E|].
    apply MultiHeadAttention_init_Ok_inv in E as (_ & _ & _ & _ & Edk & _).
    exact Edk.
Qed.

(** Construction with [bias=False]. *)
Lemma MultiHeadAttention_init_projections_biased_witness :
  exists m st',
    MultiHeadAttention.init 1 1 (1 # 10)%Q false Examples.training_state
    = Ok (m, st') /\
    bias (PrepareForMultiHeadAttention.linear (MultiHeadAttention.query m)) <> None /\
    bias (PrepareForMultiHeadAttention.linear (MultiHeadAttention.key m)) <> None /\
    bias (PrepareForMultiHeadAttention.linear (MultiHeadAttention.value m)) <> None.
Proof.
  destruct (mha_1_1_constructed false) as (st' & E).
  exists Examples.mha_1_1, st'. split; [exact E|].
  exact (MultiHeadAttention_init_projections_biased _ _ _ _ _ E).
Defined.

(** A mask over three keys, for attention over one key. *)
Lemma MultiHeadAttention_mask_contract_witness :
  mask_contract (shape Examples.mask_three_keys) 1 1 1 = false /\
  MultiHeadAttention.prepare_mask Examples.mha_1_1 Examples.mask_three_keys
    [1; 1; 1; 1] [1; 1; 1; 1]
  = Raise AssertionError /\
  exists e,
    MultiHeadAttention.forward Examples.mha_1_1 Examples.x_1_1_1 Examples.x_1_1_1
      Examples.x_1_1_1 (Some Examples.mask_three_keys) Examples.training_state
    = Raise e.
Proof.
  destruct (MultiHeadAttention_mask_contract Examples.mha_1_1
              Examples.mask_three_keys 1 1 1) as (_ & Bad).
  destruct (Bad eq_refl) as (Bmask & Bforward).
  split; [reflexivity|]. split.
  - apply Bmask. simpl. lia.
  - destruct (Bforward Examples.x_1_1_1 Examples.x_1_1_1 Examples.x_1_1_1
                1 1 1 Examples.training_state eq_refl eq_refl) as (_ & R).
    exact R.
Defined.

(** A gated feed-forward module from dimension 1 to a hidden dimension 2. *)
Lemma FeedForward_forward_order_witness :
  exists self st1 out st2,
    FeedForward.init 1 2 (1 # 10)%Q FeedForward.default_activation
      true true true true Examples.training_state
    = Ok (self, st1) /\
    FeedForward.forward self Examples.x_1_1_1 st1 = Ok (out, st2) /\
    FeedForward.is_gated self = true /\
    exists dropped, Linear_forward (FeedForward.layer2 self) dropped = Ok out.
Proof.
  eexists. eexists. eexists. eexists.
  split; [reflexivity|].
  lazymatch goal with
  | |- FeedForward.forward ?s ?x ?st = _ /\ _ =>
      destruct (@FeedForward_forward_order _ 1 2 (1 # 10)%Q
                  FeedForward.default_activation true true true true
                  Examples.training_state s st eq_refl) as ((G & _) & F);
      split; [reflexivity|];
      split; [exact G|];
      destruct (proj1 (F x st _ _) eq_refl)
        as (h & a & s1 & pre & dropped & _ & _ & _ & _ & L)
  end.
  exists dropped. exact L.
Defined.

(** An encoder layer (no memory) around sub-layers that echo their input. *)
Lemma TransformerLayer_forward_prenorm_residual_witness :
  exists layer out layer' st',
    TransformerLayer.init 1 Examples.echo_attention None
      Examples.echo_feed_forward (1 # 10)%Q = Ok layer /\
    TransformerLayer.forward layer Examples.x_1_1_1 None None None
      Examples.training_state = Ok ((out, layer'), st') /\
    exists d1 x1 d3,
      tensor_add Examples.x_1_1_1 d1 = Ok x1 /\ tensor_add x1 d3 = Ok out.
Proof.
  eexists. eexists. eexists. eexists.
  split; [reflexivity|].
  lazymatch goal with
  | |- TransformerLayer.forward ?l ?x ?m ?src ?sm ?st = Ok (?o, ?l', ?s') /\ _ =>
      split; [unfold TransformerLayer.forward; repeat run_step; reflexivity|];
      destruct (proj1 (@TransformerLayer_forward_prenorm_residual _ l x m src sm st
                         o l' s') eq_refl)
        as (z1 & a1 & s1 & d1 & s2 & x1 & x2 & s3 & z3 & f & s4 & d3
            & _ & _ & _ & A1 & (-> & _) & _ & _ & _ & A3 & _)
  end.
  exists d1, x1, d3. split; [exact A1|exact A3].
Defined.

(** Two tokens against a learned table of one row, gradient recording
    off: the call returns. *)
Lemma EmbeddingsWithLearnedPositionalEncoding_longer_than_table :
  exists self st1 out st2,
    EmbeddingsWithLearnedPositionalEncoding.init 1 1 1 Examples.inference_state
    = Ok (self, st1) /\
    shape Examples.tokens_2_1 = [2; 1] /\
    (1 < Z.of_nat 2)%Z /\
    EmbeddingsWithLearnedPositionalEncoding.forward self Examples.tokens_2_1 st1
    = Ok (out, st2) /\
    shape out = [2; 1; 1].
Proof.
  eexists. eexists. eexists. eexists.
  split; [reflexivity|]. split; [reflexivity|]. split; [lia|].
  split; reflexivity.
Qed.

Lemma EmbeddingsWithLearnedPositionalEncoding_beyond_table_witness :
  exists self st1,
    EmbeddingsWithLearnedPositionalEncoding.init 1 1 1 Examples.inference_state
    = Ok (self, st1) /\
    exists out,
      EmbeddingsWithLearnedPositionalEncoding.forward self Examples.tokens_2_1 st1
      = Ok (out, st1) /\
      shape out = [2; 1; 1].
Proof.
  eexists. eexists. split; [reflexivity|].
  lazymatch goal with
  | |- exists out,
         EmbeddingsWithLearnedPositionalEncoding.forward ?s ?x ?st = _ /\ _ =>
      destruct (@EmbeddingsWithLearnedPositionalEncoding_beyond_table _
                  1 1 1 Examples.inference_state s st x 2 1 _ st
                  eq_refl eq_refl eq_refl eq_refl ltac:(lia))
        as (_ & _ & One)
  end.
  destruct (One eq_refl) as (out & E & S & _).
  exists out. split; [exact E|exact S].
Defined.


(** * The further properties at concrete inputs *)

Lemma echo_attention_keeps_shape s :
  attention_keeps_shape Examples.echo_attention s.
Proof.
  intros q k v m st Sq. exists q, st. split; [reflexivity|exact Sq].
Qed.

Lemma echo_feed_forward_keeps_shape s :
  feed_forward_keeps_shape Examples.echo_feed_forward s.
Proof.
  intros x st Sx. exists x, st. split; [reflexivity|exact Sx].
Qed.

(** One position of one feature, split into one head of dimension 1. *)
Lemma PrepareForMultiHeadAttention_forward_heads_witness :
  exists y,
    PrepareForMultiHeadAttention.forward Examples.prepare_1_1 Examples.x_1_1_1 = Ok y /\
    shape y = [1; 1; 1; 1] /\
    at_ y [0; 0; 0; 0] = fadd (fsum [fmul (Fin 1) (Fin 1)]) (Fin 1).
Proof.
  eexists. split; [reflexivity|].
  lazymatch goal with
  | |- shape ?y = _ /\ _ =>
      destruct (@PrepareForMultiHeadAttention_forward_heads _
                  Examples.prepare_1_1 Examples.x_1_1_1 y eq_refl) as (S & V)
  end.
  split; [exact S|].
  exact (V [0; 0] 0 0 eq_refl ltac:(simpl; lia) ltac:(simpl; lia)).
Defined.

(** Two heads on eight dimensions; no head; three heads on two
    dimensions; a dropout probability of 2. *)
Lemma MultiHeadAttention_init_outcomes_witness :
  (exists m st',
     MultiHeadAttention.init 2 8 (1 # 10)%Q true Examples.training_state
     = Ok (m, st')) /\
  MultiHeadAttention.init 0 8 (1 # 10)%Q true Examples.training_state
  = Raise ZeroDivisionError /\
  MultiHeadAttention.init 3 2 (1 # 10)%Q true Examples.training_state
  = Raise ZeroDivisionError /\
  MultiHeadAttention.init 2 8 (2 # 1)%Q true Examples.training_state
  = Raise ValueError.
Proof.
  destruct (MultiHeadAttention_init_outcomes 2 8 (1 # 10)%Q true
              Examples.training_state) as ((_ & Built) & _).
  destruct (MultiHeadAttention_init_outcomes 0 8 (1 # 10)%Q true
              Examples.training_state) as (_ & NoHead & _).
  destruct (MultiHeadAttention_init_outcomes 3 2 (1 # 10)%Q true
              Examples.training_state) as (_ & _ & Many & _).
  destruct (MultiHeadAttention_init_outcomes 2 8 (2 # 1)%Q true
              Examples.training_state) as (_ & _ & _ & Prob).
  split; [|split; [|split]].
  - apply Built. split; [lia|]. split; unfold Qle; simpl; lia.
  - apply NoHead. reflexivity.
  - apply Many; [lia| |]; unfold Qle; simpl; lia.
  - apply Prob; [lia|lia|]. right. unfold Qlt. simpl. lia.
Defined.

(** The query projection of one head of dimension 1. *)
Lemma MultiHeadAttention_projection_width_witness :
  out_features (PrepareForMultiHeadAttention.linear
                  (MultiHeadAttention.query Examples.mha_1_1)) = 1 * 1 /\
  out_features (PrepareForMultiHeadAttention.linear
                  (MultiHeadAttention.query Examples.mha_1_1)) <= 1.
Proof.
  destruct (mha_1_1_constructed true) as (st' & I).
  destruct (MultiHeadAttention_projection_width _ _ _ _ _ I
              (pm := MultiHeadAttention.query Examples.mha_1_1) (or_introl eq_refl))
    as (_ & W & L & _).
  split; [exact W|exact L].
Defined.

(** One query over two keys: with two values the call runs to its end,
    with three it raises. *)
Lemma MultiHeadAttention_forward_key_value_lengths_witness :
  (exists st',
     MultiHeadAttention.forward Examples.mha_1_1 Examples.x_1_1_1 Examples.x_2_1_1
       Examples.x_2_1_1 None Examples.training_state = Ok (PyNone, st')) /\
  MultiHeadAttention.forward Examples.mha_1_1 Examples.x_1_1_1 Examples.x_2_1_1
    (Examples.ones [3; 1; 1]) None Examples.training_state = Raise RuntimeError.
Proof.
  destruct (mha_1_1_constructed true) as (st' & I).
  split.
  - edestruct MultiHeadAttention_forward_key_value_lengths
      with (q := Examples.x_1_1_1) (k := Examples.x_2_1_1) (v := Examples.x_2_1_1)
           (mask := @None (Tensor Z)) (st := Examples.training_state)
      as (Same & _);
      [exact I|reflexivity|reflexivity|reflexivity|exact Logic.I|].
    apply Same. reflexivity.
  - edestruct MultiHeadAttention_forward_key_value_lengths
      with (q := Examples.x_1_1_1) (k := Examples.x_2_1_1)
           (v := Examples.ones [3; 1; 1])
           (mask := @None (Tensor Z)) (st := Examples.training_state)
      as (_ & Differ);
      [exact I|reflexivity|reflexivity|reflexivity|exact Logic.I|].
    apply Differ; lia.
Defined.

(** One query over two keys, the second excluded by the mask. *)
Lemma MultiHeadAttention_weights_in_unit_interval_witness :
  exists attn vp w,
    MultiHeadAttention.attention_weights Examples.mha_1_1 Examples.x_1_1_1
      Examples.x_2_1_1 Examples.x_2_1_1 (Some Examples.mask_first_only)
    = Ok (attn, vp) /\
    at_ attn [0; 0; 0; 0] = Fin w /\ (0 <= w <= 1)%R.
Proof.
  destruct (mha_1_1_constructed true) as (st' & I).
  eexists. eexists.
  edestruct MultiHeadAttention_weights_in_unit_interval
    with (q := Examples.x_1_1_1) (k := Examples.x_2_1_1) (v := Examples.x_2_1_1)
         (mask := Some Examples.mask_first_only)
         (i := 0) (j := 0) (bb := 0) (h := 0) as (w & Ew & Hw);
    [ exact I
    | reflexivity
    | reflexivity
    | intros m E; injection E as <-; reflexivity
    | exact (eq_refl : PrepareForMultiHeadAttention.forward
               (MultiHeadAttention.query Examples.mha_1_1) Examples.x_1_1_1 = Ok _)
    | exact (eq_refl : PrepareForMultiHeadAttention.forward
               (MultiHeadAttention.key Examples.mha_1_1) Examples.x_2_1_1 = Ok _)
    | reflexivity
    | exact (eq_refl : MultiHeadAttention.attention_weights Examples.mha_1_1
               Examples.x_1_1_1 Examples.x_2_1_1 Examples.x_2_1_1
               (Some Examples.mask_first_only) = Ok (_, _))
    | reflexivity
    | intros j Hj _; destruct j as [|[|j]]; [eexists; reflexivity..|lia]
    | exists 0; split; [lia|reflexivity]
    | ].
  exists w. split; [reflexivity|]. split; [exact Ew|exact Hw].
Defined.

(** One query over two keys, the second excluded by the mask: the first
    key takes the whole weight. *)
Lemma MultiHeadAttention_single_key_weight_one_witness :
  exists attn vp,
    MultiHeadAttention.attention_weights Examples.mha_1_1 Examples.x_1_1_1
      Examples.x_2_1_1 Examples.x_2_1_1 (Some Examples.mask_first_only)
    = Ok (attn, vp) /\
    at_ attn [0; 0; 0; 0] = Fin 1.
Proof.
  destruct (mha_1_1_constructed true) as (st' & I).
  eexists. eexists. split; [reflexivity|].
  eapply MultiHeadAttention_single_key_weight_one
    with (q := Examples.x_1_1_1) (k := Examples.x_2_1_1) (v := Examples.x_2_1_1)
         (mask := Some Examples.mask_first_only) (lk := 2);
    [ exact I
    | reflexivity
    | reflexivity
    | intros m E; injection E as <-; reflexivity
    | exact (eq_refl : PrepareForMultiHeadAttention.forward
               (MultiHeadAttention.query Examples.mha_1_1) Examples.x_1_1_1 = Ok _)
    | exact (eq_refl : PrepareForMultiHeadAttention.forward
               (MultiHeadAttention.key Examples.mha_1_1) Examples.x_2_1_1 = Ok _)
    | reflexivity
    | reflexivity
    | reflexivity
    | reflexivity
    | eexists; reflexivity
    | intros j Hj Nj; destruct j as [|[|j]]; [contradiction|reflexivity|lia] ].
Defined.

(** A gated feed-forward module from dimension 1 to a hidden dimension 2,
    on one position of one feature, and on one position of two. *)
Lemma FeedForward_forward_shape_witness :
  exists self st1,
    FeedForward.init 1 2 (1 # 10)%Q FeedForward.default_activation
      true true true true Examples.training_state = Ok (self, st1) /\
    (exists out st',
       FeedForward.forward self Examples.x_1_1_1 st1 = Ok (out, st') /\
       shape out = [1; 1; 1]) /\
    FeedForward.forward self (Examples.ones [1; 1; 2]) st1 = Raise RuntimeError.
Proof.
  eexists. eexists. split; [reflexivity|].
  lazymatch goal with
  | |- (exists out st', FeedForward.forward ?s _ ?st = _ /\ _) /\ _ =>
      destruct (@FeedForward_forward_shape _ 1 2 (1 # 10)%Q true true true true
                  Examples.training_state s st eq_refl
                  Examples.x_1_1_1 [1; 1] 1 st eq_refl) as (Fits & _);
      destruct (@FeedForward_forward_shape _ 1 2 (1 # 10)%Q true true true true
                  Examples.training_state s st eq_refl
                  (Examples.ones [1; 1; 2]) [1; 1] 2 st eq_refl) as (_ & Wide)
  end.
  split; [apply Fits; reflexivity|apply Wide; discriminate].
Defined.

(** A feed-forward module without dropout and without gate, on one
    position of one feature. *)
Lemma FeedForward_forward_formula_witness :
  exists self st1 out,
    FeedForward.init 1 2 0%Q FeedForward.default_activation
      false true true true Examples.training_state = Ok (self, st1) /\
    FeedForward.forward self Examples.x_1_1_1 st1 = Ok (out, st1) /\
    at_ out [0; 0; 0]
    = linear_at (FeedForward.layer2 self)
        (fun k => relu (linear_at (FeedForward.layer1 self)
                          (fun j => at_ Examples.x_1_1_1 [0; 0; j]) k)) 0.
Proof.
  eexists. eexists.
  lazymatch goal with
  | |- exists out, FeedForward.init _ _ _ _ _ _ _ _ _ = Ok (?s, ?st) /\ _ =>
      assert (I : FeedForward.init 1 2 0%Q FeedForward.default_activation
                    false true true true Examples.training_state = Ok (s, st))
        by reflexivity;
      destruct (@FeedForward_forward_formula _ 1 2 false true true true
                  Examples.training_state s st I
                  Examples.x_1_1_1 [1; 1] st eq_refl) as (out & E & V)
  end.
  exists out. split; [exact I|]. split; [exact E|].
  exact (V [0; 0] 0 eq_refl).
Defined.

(** A layer built without source attention, around sub-layers that echo
    their input, called with a memory. *)
Lemma TransformerLayer_memory_without_src_attn_witness :
  exists layer,
    TransformerLayer.init 1 Examples.echo_attention None
      Examples.echo_feed_forward (1 # 10)%Q = Ok layer /\
    TransformerLayer.forward layer Examples.x_1_1_1 None (Some Examples.x_1_1_1)
      None Examples.training_state
    = Raise (AttributeError "TransformerLayer" "norm_src_attn").
Proof.
  eexists. split; [reflexivity|].
  lazymatch goal with
  | |- TransformerLayer.forward ?l _ _ _ _ _ = _ =>
      destruct (@TransformerLayer_memory_without_src_attn _ 1
                  Examples.echo_attention Examples.echo_feed_forward (1 # 10)%Q l
                  eq_refl Examples.x_1_1_1 None Examples.x_1_1_1 None
                  Examples.training_state) as (_ & Raises)
  end.
  apply (Raises [1; 1]); [reflexivity|apply echo_attention_keeps_shape].
Defined.

(** A layer around the attention module of one head of dimension 1. *)
Lemma TransformerLayer_with_MultiHeadAttention_TypeError_witness :
  exists layer,
    TransformerLayer.init 1 (MultiHeadAttention.forward Examples.mha_1_1) None
      Examples.echo_feed_forward (1 # 10)%Q = Ok layer /\
    TransformerLayer.forward layer Examples.x_1_1_1 None None None
      Examples.training_state = Raise TypeError.
Proof.
  destruct (mha_1_1_constructed true) as (st' & I).
  eexists. split; [reflexivity|].
  eapply TransformerLayer_with_MultiHeadAttention_TypeError
    with (n := 1) (bsz := 1) (osrc := @None TransformerLayer.attention)
         (ff := Examples.echo_feed_forward) (prob' := (1 # 10)%Q);
    [exact I|reflexivity|reflexivity|exact Logic.I].
Defined.


(** An encoder of no layer. *)
Lemma stack_without_layers_witness :
  exists layer enc,
    TransformerLayer.init 1 Examples.echo_attention None
      Examples.echo_feed_forward (1 # 10)%Q = Ok layer /\
    Encoder.init layer 0 = Ok enc /\
    Encoder.forward enc Examples.x_1_1_1 None Examples.training_state
    = match LayerNorm_forward (Encoder.norm enc) Examples.x_1_1_1 with
      | Ok y => Ok ((y, enc), Examples.training_state)
      | Raise e => Raise e
      end.
Proof.
  eexists. eexists. split; [reflexivity|].
  lazymatch goal with
  | |- Encoder.init ?l _ = _ /\ _ =>
      destruct (@stack_without_layers _ l 0 ltac:(lia)) as (Enc & _)
  end.
  split; [reflexivity|]. apply Enc. reflexivity.
Defined.



(** An encoder of one layer around the attention module of one head of
    dimension 1, and a decoder of one layer built without source
    attention. *)
Lemma stack_never_returns_witness :
  (exists layer enc e,
     TransformerLayer.init 1 (MultiHeadAttention.forward Examples.mha_1_1) None
       Examples.echo_feed_forward (1 # 10)%Q = Ok layer /\
     Encoder.init layer 1 = Ok enc /\
     Encoder.forward enc Examples.x_1_1_1 None Examples.training_state = Raise e)
  /\
  (exists layer dec e,
     TransformerLayer.init 1 Examples.echo_attention None
       Examples.echo_feed_forward (1 # 10)%Q = Ok layer /\
     Decoder.init layer 1 = Ok dec /\
     Decoder.forward dec Examples.x_1_1_1 Examples.x_1_1_1 None None
       Examples.training_state = Raise e).
Proof.
  split.
  - eexists. eexists.
    lazymatch goal with
    | |- exists e, ?A /\ Encoder.init ?l 1 = Ok ?enc /\ _ =>
        assert (I : A) by reflexivity;
        assert (Ie : Encoder.init l 1 = Ok enc) by reflexivity;
        destruct (@stack_never_returns _ l 1 ltac:(lia)) as (Enc & _)
    end.
    destruct (Enc Examples.mha_1_1 _ Examples.x_1_1_1 None Examples.training_state
                eq_refl Ie) as (e & E).
    exists e. auto.
  - eexists. eexists.
    lazymatch goal with
    | |- exists e, ?A /\ Decoder.init ?l 1 = Ok ?dec /\ _ =>
        assert (I : A) by reflexivity;
        assert (Id : Decoder.init l 1 = Ok dec) by reflexivity;
        destruct (@stack_never_returns _ l 1 ltac:(lia)) as (_ & _ & Dec)
    end.
    destruct (Dec _ Examples.x_1_1_1 Examples.x_1_1_1 None None
                Examples.training_state eq_refl Id) as (e & E).
    exists e. auto.
Defined.

(** A generator over three tokens for a model of dimension 1. *)
Lemma Generator_forward_projection_witness :
  exists g st1 y,
    Generator.init 3 1 Examples.training_state = Ok (g, st1) /\
    Generator.forward g Examples.x_1_1_1 = Ok y /\
    shape y = [1; 1; 3] /\
    Generator.forward g (Examples.ones [1; 1; 2]) = Raise RuntimeError.
Proof.
  eexists. eexists.
  lazymatch goal with
  | |- exists y, ?A /\ _ =>
      assert (I : A) by reflexivity;
      destruct (Generator_forward_projection _ _ _ I) as (_ & Fits & Wide)
  end.
  destruct (Fits Examples.x_1_1_1 [1; 1] eq_refl) as (y & E & S & _).
  exists y. split; [exact I|]. split; [exact E|]. split; [exact S|].
  apply (Wide (Examples.ones [1; 1; 2]) [1; 1] 2); [reflexivity|discriminate].
Defined.

(** One token, gradients recorded. *)
Lemma EmbeddingsWithLearnedPositionalEncoding_needs_no_grad_witness :
  exists self st1,
    EmbeddingsWithLearnedPositionalEncoding.init 1 1 1 Examples.training_state
    = Ok (self, st1) /\
    EmbeddingsWithLearnedPositionalEncoding.forward self Examples.tokens_1_1
      Examples.training_state = Raise RuntimeError.
Proof.
  eexists. eexists. split; [reflexivity|].
  eapply EmbeddingsWithLearnedPositionalEncoding_needs_no_grad
    with (d_model := 1%Z) (n_vocab := 1%Z) (max_len := 1%Z)
         (st0 := Examples.training_state);
    reflexivity.
Defined.

(** Two tokens against a table of two rows, gradient recording off. *)
Lemma EmbeddingsWithLearnedPositionalEncoding_fresh_forward_witness :
  exists self st1 out,
    EmbeddingsWithLearnedPositionalEncoding.init 1 1 2 Examples.inference_state
    = Ok (self, st1) /\
    EmbeddingsWithLearnedPositionalEncoding.forward self Examples.tokens_2_1
      Examples.inference_state = Ok (out, Examples.inference_state) /\
    shape out = [2; 1; 1].
Proof.
  eexists. eexists.
  lazymatch goal with
  | |- exists out, ?A /\ _ => assert (I : A) by reflexivity
  end.
  edestruct EmbeddingsWithLearnedPositionalEncoding_fresh_forward
    with (x := Examples.tokens_2_1) (n := 2) (b := 1)
         (st := Examples.inference_state)
    as (out & E & S & _);
    [ exact I | reflexivity | reflexivity | simpl; lia
    | intros i j Hi Hj; simpl; lia | ].
  exists out. auto.
Defined.

(** Token 5 in a vocabulary of one token, gradient recording off. *)
Lemma EmbeddingsWithLearnedPositionalEncoding_token_out_of_range_witness :
  exists self st1,
    EmbeddingsWithLearnedPositionalEncoding.init 1 1 1 Examples.inference_state
    = Ok (self, st1) /\
    EmbeddingsWithLearnedPositionalEncoding.forward self (full [1; 1] 5%Z)
      Examples.inference_state = Raise IndexError.
Proof.
  eexists. eexists. split; [reflexivity|].
  eapply EmbeddingsWithLearnedPositionalEncoding_token_out_of_range
    with (d_model := 1%Z) (n_vocab := 1%Z) (max_len := 1%Z)
         (st0 := Examples.inference_state) (idx := [0; 0]);
    [reflexivity|reflexivity|reflexivity|reflexivity|right; simpl; lia].
Defined.

(** Dimensions 1 and 2 with a dropout probability of 0.1, and of 2. *)
Lemma FeedForward_init_outcomes_witness :
  (exists self st',
     FeedForward.init 1 2 (1 # 10)%Q FeedForward.default_activation
       false true true true Examples.training_state = Ok (self, st')) /\
  FeedForward.init 1 2 (2 # 1)%Q FeedForward.default_activation
    false true true true Examples.training_state = Raise ValueError.
Proof.
  destruct (FeedForward_init_outcomes 1 2 (1 # 10)%Q FeedForward.default_activation
              false true true true Examples.training_state) as ((_ & Built) & _).
  destruct (FeedForward_init_outcomes 1 2 (2 # 1)%Q FeedForward.default_activation
              false true true true Examples.training_state) as (_ & Prob).
  split.
  - apply Built. split; [lia|]. split; [lia|]. split; unfold Qle; simpl; lia.
  - apply Prob; [lia|lia|]. right. unfold Qlt. simpl. lia.
Defined.


(** An encoder of two layers that echo their input. *)
Lemma stack_forward_module_state_witness :
  exists layer enc out st',
    TransformerLayer.init 1 Examples.echo_attention None
      Examples.echo_feed_forward (1 # 10)%Q = Ok layer /\
    Encoder.init layer 2 = Ok enc /\
    Encoder.forward enc Examples.x_1_1_1 None Examples.training_state
    = Ok ((out, enc), st').
Proof.
  eexists. eexists.
  lazymatch goal with
  | |- exists out st', ?A /\ ?B /\ _ =>
      assert (I : A) by reflexivity; assert (Ie : B) by reflexivity
  end.
  edestruct stack_forward_module_state with (n := 2%Z) as (Enc & _); [exact I|].
  lazymatch type of Ie with
  | Encoder.init ?l _ = Ok ?enc =>
      destruct (@Encoder_run_keeps_shape _ (Encoder.layers enc) [1; 1] 1)
        with (x := Examples.x_1_1_1) (mask := @None (Tensor Z))
             (st := Examples.training_state)
        as (y & ls' & s1 & E1 & S1 & _)
  end.
  - repeat constructor; apply echo_attention_keeps_shape
                        || apply echo_feed_forward_keeps_shape.
  - reflexivity.
  - lazymatch type of Ie with
    | Encoder.init ?l _ = Ok ?enc =>
        destruct (@LayerNorm_forward_Ok _ (Encoder.norm enc) y [1; 1] 1 eq_refl S1)
          as (out & Eo & _);
        assert (E : Encoder.forward enc Examples.x_1_1_1 None Examples.training_state
                    = Ok ((out, {| Encoder.layers := ls';
                                   Encoder.norm := Encoder.norm enc |}), s1))
    end.
    { unfold Encoder.forward.
      erewrite bind_Ok; [|exact E1]. simpl fst. simpl snd.
      erewrite bind_lift_Ok; [|exact Eo]. reflexivity. }
    exists out, s1. split; [exact I|]. split; [exact Ie|].
    rewrite <- (Enc _ _ _ _ _ _ _ Ie E) at 2. exact E.
Defined.

(** A format that saturates keeps what is within its limit and sends
    what is above it to plus infinity. *)
Lemma saturate_in limit r : (Rabs r <= limit)%R -> saturate limit r = Fin r.
Proof.
  intros L. unfold saturate.
  destruct (Rle_dec (Rabs r) limit); [reflexivity|contradiction].
Qed.

Lemma saturate_over limit r : (0 <= limit < r)%R -> saturate limit r = PInf.
Proof.
  intros L. unfold saturate.
  destruct (Rle_dec (Rabs r) limit) as [A|_].
  - rewrite Rabs_pos_eq in A by lra. lra.
  - destruct (Rlt_dec 0 r); [reflexivity|lra].
Qed.

Lemma mha_1_1_overflowing :
  exists st',
    @MultiHeadAttention.init overflowing_backend 1 1 (1 # 10)%Q true
      Examples.overflowing_state
    = Ok (Examples.mha_1_1, st').
Proof.
  unfold MultiHeadAttention.init, bind, lift, ret. simpl.
  change (1 / 1)%Z with 1%Z. unfold py_truediv.
  destruct (Req_dec_T (sqrt (IZR 1)) 0) as [Z0|_].
  - exfalso. rewrite sqrt_1 in Z0. lra.
  - eexists. reflexivity.
Qed.

(** Finite inputs whose projection overflows: the weight is NaN. *)
Lemma MultiHeadAttention_overflowed_score_line_witness :
  exists attn vp,
    @MultiHeadAttention.attention_weights overflowing_backend Examples.mha_1_1
      Examples.twos_1_1_1 Examples.twos_1_1_1 Examples.twos_1_1_1 None
    = Ok (attn, vp) /\
    at_ attn [0; 0; 0; 0] = NaN.
Proof.
  destruct mha_1_1_overflowing as (st' & I).
  eexists. eexists. split; [reflexivity|].
  eapply (@MultiHeadAttention_overflowed_score_line overflowing_backend)
    with (q := Examples.twos_1_1_1) (k := Examples.twos_1_1_1)
         (v := Examples.twos_1_1_1) (mask := @None (Tensor Z))
         (lk := 1) (j0 := 0);
    [ exact I
    | reflexivity
    | reflexivity
    | intros m E; discriminate E
    | reflexivity
    | reflexivity
    | reflexivity
    | reflexivity
    | reflexivity
    | reflexivity
    |
    | lia ].
  left.
  change (@fmul format_up_to_2
            (@fsum format_up_to_2
               [@fmul format_up_to_2
                  (@fadd format_up_to_2
                     (@fsum format_up_to_2
                        [@fmul format_up_to_2 (Fin 2) (Fin 1)])
                     (Fin 1))
                  (@fadd format_up_to_2
                     (@fsum format_up_to_2
                        [@fmul format_up_to_2 (Fin 2) (Fin 1)])
                     (Fin 1))])
            (Fin (1 / sqrt (IZR 1))) = PInf).
  change (@fmul format_up_to_2 (Fin 2) (Fin 1))
    with (saturate 2 (2 * 1)).
  rewrite (@saturate_in 2 (2 * 1)) by (rewrite Rabs_pos_eq; lra).
  change (@fsum format_up_to_2 [Fin (2 * 1)])
    with (saturate 2 (2 * 1 + 0)).
  rewrite (@saturate_in 2 (2 * 1 + 0)) by (rewrite Rabs_pos_eq; lra).
  change (@fadd format_up_to_2 (Fin (2 * 1 + 0)) (Fin 1))
    with (saturate 2 (2 * 1 + 0 + 1)).
  rewrite (@saturate_over 2 (2 * 1 + 0 + 1)) by lra.
  change (inf_scaled PInf (1 / sqrt (IZR 1)) = PInf).
  unfold inf_scaled. rewrite Rsign_pos; [reflexivity|].
  rewrite sqrt_1. lra.
Defined.
